(** * Guarantor bot: the deal lifecycle and the creation wizard of [bot.py]

    The development embeds the handlers of [src/bot.py] as functions on an
    explicit world (the [deals] and [logs] tables of the SQLite store and the
    two in-memory dictionaries [user_states] and [user_temp]) and proves the
    properties of the lifecycle state machine and of the creation session
    against them.

    Scope of the model.
    - The [users] table (profile cache), the rendering of texts and the
      outbound gateway calls do not influence [deals], [logs] or the session
      dictionaries; they are left out.  A handler's visible answer is kept as
      an [Outcome] label; the keyboards, the queries behind the listings, the
      deal card and the parse of the allow-list are given after the
      handlers.
    - A Python [str] is a Rocq [string]; the builtins below are given on the
      ASCII range (a character outside it is neither a digit nor a space).
    - An [int] is a [Z].  The store binds signed 64-bit integers only and
      keeps a NaN as NULL; a statement that depends on either says so with
      [sqlite_integer] or [stored_amount].
    - [datetime.utcnow()] is an input: every update comes with the clock
      readings the handler makes.
    - Every handler does all its reads and writes of the store and of the
      dictionaries before its first [await] on the path that commits, so
      under the cooperative scheduler a handler is one step of the world. *)

From Stdlib Require Import ZArith List Ascii String Bool Lia.
From Stdlib Require Import Floats.SpecFloat.
From Stdlib Require DecimalString DecimalZ DecimalPos.
From stdpp Require Import gmap strings list fin_maps.
From stdpp Require Import sorting.

Open Scope Z_scope.

(** ** Python builtins used by the handlers *)

Module Py.

Definition chars (s : string) : list ascii := list_ascii_of_string s.
Definition str (l : list ascii) : string := string_of_list_ascii l.
Definition code (c : ascii) : Z := Z.of_N (N_of_ascii c).

(** [str.isspace] on the ASCII range: TAB..CR, FS..US and the blank. *)
Definition isspace (c : ascii) : bool :=
  ((9 <=? code c) && (code c <=? 13)) || ((28 <=? code c) && (code c <=? 32)).

(** The C predicate [Py_ISSPACE] that [int()] and [float()] strip with when
    the string is ASCII: TAB..CR and the blank. *)
Definition c_isspace (c : ascii) : bool :=
  ((9 <=? code c) && (code c <=? 13)) || (code c =? 32).

Definition is_digit (c : ascii) : bool := (48 <=? code c) && (code c <=? 57).
Definition digit_val (c : ascii) : Z := code c - 48.

Definition lower (c : ascii) : ascii :=
  if (65 <=? code c) && (code c <=? 90)
  then ascii_of_N (Z.to_N (code c + 32)) else c.

Fixpoint lstrip_by (p : ascii -> bool) (l : list ascii) : list ascii :=
  match l with
  | c :: r => if p c then lstrip_by p r else l
  | [] => []
  end.

Definition strip_by (p : ascii -> bool) (l : list ascii) : list ascii :=
  rev (lstrip_by p (rev (lstrip_by p l))).

(** [s.strip()] *)
Definition strip (s : string) : string := str (strip_by isspace (chars s)).

(** [s.isdigit()] *)
Definition isdigit (s : string) : bool :=
  match chars s with
  | [] => false
  | l => forallb is_digit l
  end.

(** Value of a run of decimal digits. *)
Definition digits_value (l : list ascii) : Z :=
  fold_left (fun acc c => 10 * acc + digit_val c) l 0.

(** [s.replace(a, b)] for one-character [a] and [b]. *)
Definition replace (a b : ascii) (s : string) : string :=
  str (map (fun c => if Ascii.eqb c a then b else c) (chars s)).

(** [s.split(sep)] for a one-character separator: never empty. *)
Fixpoint split_chars (sep : ascii) (cur : list ascii) (l : list ascii)
  : list string :=
  match l with
  | [] => [str (rev cur)]
  | c :: r =>
      if Ascii.eqb c sep then str (rev cur) :: split_chars sep [] r
      else split_chars sep (c :: cur) r
  end.

Definition split (sep : ascii) (s : string) : list string :=
  split_chars sep [] (chars s).

(** [s.startswith(p)] *)
Definition startswith (p s : string) : bool := String.prefix p s.

(** Underscores of a numeric literal: each one stands between two digits.
    [prev] is the character before the current one. *)
Fixpoint drop_underscores (prev : option ascii) (l : list ascii)
  : option (list ascii) :=
  let prev_digit := match prev with Some p => is_digit p | None => false end in
  let prev_under :=
    match prev with Some p => Ascii.eqb p "_" | None => false end in
  match l with
  | [] => if prev_under then None else Some []
  | c :: r =>
      if Ascii.eqb c "_" then
        if prev_digit then drop_underscores (Some c) r else None
      else if prev_under && negb (is_digit c) then None
      else option_map (cons c) (drop_underscores (Some c) r)
  end.

(** [int(s)] in base ten; [None] stands for [ValueError]. *)
Definition unsigned_int (l : list ascii) : option Z :=
  match drop_underscores None l with
  | Some (c :: r) =>
      if forallb is_digit (c :: r) then Some (digits_value (c :: r)) else None
  | _ => None
  end.

Definition int (s : string) : option Z :=
  match strip_by c_isspace (chars s) with
  | "+"%char :: r => unsigned_int r
  | "-"%char :: r => option_map Z.opp (unsigned_int r)
  | l => unsigned_int l
  end.

(** *** [float(s)] *)

Definition prec : Z := 53.
Definition emax : Z := 1024.

(** The binary64 number nearest to [(-1)^neg * m * 10^e], ties to even,
    computed with the rounding functions of the IEEE 754 specification in
    [SpecFloat]. *)
Definition float_of_decimal (neg : bool) (m e : Z) : spec_float :=
  if m =? 0 then S754_zero neg
  else if 0 <=? e then binary_round prec emax neg (Z.to_pos (m * 10 ^ e)) 0
  else
    let '(q, e', l) := SFdiv_core_binary prec emax m 0 (10 ^ (- e)) 0 in
    binary_round_aux prec emax neg q e' l.

Fixpoint span_digits (l : list ascii) : list ascii * list ascii :=
  match l with
  | c :: r =>
      if is_digit c then let '(d, rest) := span_digits r in (c :: d, rest)
      else ([], l)
  | [] => ([], [])
  end.

(** The exponent part: nothing, or [e]/[E], an optional sign and at least one
    digit, up to the end of the text. *)
Definition parse_exponent (l : list ascii) : option Z :=
  match l with
  | [] => Some 0
  | c :: r =>
      if Ascii.eqb (lower c) "e" then
        let '(neg, r') :=
          match r with
          | "+"%char :: t => (false, t)
          | "-"%char :: t => (true, t)
          | _ => (false, r)
          end in
        match span_digits r' with
        | (d :: ds, []) =>
            Some (if neg then - digits_value (d :: ds) else digits_value (d :: ds))
        | _ => None
        end
      else None
  end.

(** [digits [. digits] [exponent]] or [. digits [exponent]], unsigned. *)
Definition parse_number (neg : bool) (l : list ascii) : option spec_float :=
  let '(ip, r1) := span_digits l in
  let '(fp, r2) :=
    match r1 with
    | "."%char :: t => span_digits t
    | _ => ([], r1)
    end in
  match ip ++ fp with
  | [] => None
  | ds =>
      match parse_exponent r2 with
      | Some ex =>
          Some (float_of_decimal neg (digits_value ds)
                  (ex - Z.of_nat (length fp)))
      | None => None
      end
  end.

Definition parse_signed (l : list ascii) : option spec_float :=
  let '(neg, r) :=
    match l with
    | "+"%char :: t => (false, t)
    | "-"%char :: t => (true, t)
    | _ => (false, l)
    end in
  let low := str (map lower r) in
  if String.eqb low "inf" || String.eqb low "infinity"
  then Some (S754_infinity neg)
  else if String.eqb low "nan" then Some S754_nan
  else parse_number neg r.

(** [float(s)]; [None] stands for [ValueError]. *)
Definition float (s : string) : option spec_float :=
  match drop_underscores None (strip_by c_isspace (chars s)) with
  | Some l => parse_signed l
  | None => None
  end.

(** [x <= 0] on floats: false on NaN. *)
Definition float_le_zero (x : spec_float) : bool := SFleb x (S754_zero false).

(** Truth value of a float: every float but the two zeros. *)
Definition float_truthy (x : spec_float) : bool :=
  match x with S754_zero _ => false | _ => true end.

(** Truth value of a string and of an integer. *)
Definition str_truthy (s : string) : bool := negb (String.eqb s EmptyString).
Definition int_truthy (n : Z) : bool := negb (n =? 0).

End Py.

(** ** Constants of [bot.py] *)

Definition STATUS_AWAIT_SELLER_CONFIRM : string := "await_seller_confirm".
Definition STATUS_AWAIT_PAYMENT : string := "await_payment".
Definition STATUS_PAID_WAIT_DELIVERY : string := "paid_waiting_delivery".
Definition STATUS_WAIT_BUYER_CONFIRM : string := "waiting_buyer_confirm".
Definition STATUS_COMPLETED : string := "completed_success".
Definition STATUS_DISPUTE : string := "dispute".
Definition STATUS_RESOLVED_BUYER : string := "resolved_buyer".
Definition STATUS_RESOLVED_SELLER : string := "resolved_seller".
Definition STATUS_RESOLVED_PARTIAL : string := "resolved_partial".
Definition STATUS_REJECTED_BY_SELLER : string := "rejected_by_seller".
Definition STATUS_CANCELLED : string := "cancelled".

Definition STATE_NEW_DEAL_SELLER : string := "new_deal_seller".
Definition STATE_NEW_DEAL_AMOUNT : string := "new_deal_amount".
Definition STATE_NEW_DEAL_DESCRIPTION : string := "new_deal_description".
Definition STATE_NEW_DEAL_CONFIRM : string := "new_deal_confirm".

(** ** The store and the session dictionaries *)

(** A row of [deals]; the [id] column (INTEGER PRIMARY KEY AUTOINCREMENT) is
    the key of the map that holds the rows.  [amount] is the float bound to
    the REAL column by the INSERT; the column then holds [stored_amount] of
    it (below): the float, or NULL for a NaN. *)
Record Deal := mkDeal {
  buyer_id : Z;
  seller_id : Z;
  amount : spec_float;
  description : string;
  status : string;
  created_at : string;
  updated_at : string
}.

(** The [action] text of a row of [logs], by the f-string that builds it. *)
Inductive Action :=
  | ActCreated (buyer seller : Z) (amt : spec_float)
      (* "Создана сделка (покупатель .., продавец .., сумма ..)" *)
  | ActSellerAccepted (user : Z)  (* "Продавец .. подтвердил сделку" *)
  | ActSellerRejected (user : Z)  (* "Продавец .. отклонил сделку" *)
  | ActBuyerPaid (user : Z)       (* "Покупатель .. сообщил об оплате" *)
  | ActBuyerCancelled (user : Z)  (* "Покупатель .. отменил сделку до оплаты" *)
  | ActSentByButton (user : Z)
      (* "Продавец .. отметил отправку товара кнопкой" *)
  | ActSentByMessage (user : Z)
      (* "Продавец .. отправил сообщение с товаром" *)
  | ActBuyerConfirmed (user : Z)
      (* "Покупатель .. подтвердил успешную сделку" *)
  | ActBuyerDispute (user : Z)    (* "Покупатель .. открыл спор по сделке" *)
  | ActAdminForBuyer (user : Z)
      (* "Админ .. решил спор в пользу покупателя" *)
  | ActAdminForSeller (user : Z)
      (* "Админ .. решил спор в пользу продавца" *)
  | ActAdminPartial (user : Z).
      (* "Админ .. решил спор частично (частичный возврат)" *)

(** A row of [logs]; its [id] is its position in the table. *)
Record LogRow := mkLog {
  row_deal_id : Z;
  row_action : Action;
  row_created_at : string
}.

(** [user_temp[tg_id]]: a dict with the keys "seller_id", "amount" and
    "description", each present or not. *)
Record Temp := mkTemp {
  temp_seller_id : option Z;
  temp_amount : option spec_float;
  temp_description : option string
}.

Definition empty_temp : Temp := mkTemp None None None.

Record World := mkWorld {
  deals : gmap Z Deal;
  logs : list LogRow;
  user_states : gmap Z string;
  user_temp : gmap Z Temp
}.

Definition with_deals (w : World) (d : gmap Z Deal) : World :=
  mkWorld d (logs w) (user_states w) (user_temp w).
Definition with_logs (w : World) (l : list LogRow) : World :=
  mkWorld (deals w) l (user_states w) (user_temp w).
Definition with_temp (w : World) (t : gmap Z Temp) : World :=
  mkWorld (deals w) (logs w) (user_states w) t.

(** The readings of [datetime.utcnow().isoformat()] one handler makes: its
    own [now] and the one inside [log_action]. *)
Record Clock := mkClock {
  now : string;
  log_now : string
}.

(** ** Inbound updates *)

(** A message: sender, text (absent for photos, files and the like), the
    original sender of a forwarded message, and the command the gateway's
    command filter reads off the text, if any. *)
Record Message := mkMessage {
  from_user : Z;
  text : option string;
  forward_from : option Z;
  command : option string
}.

Record CallbackQuery := mkCall {
  call_from : Z;
  data : string
}.

Inductive Update :=
  | UMessage (m : Message)
  | UCallback (c : CallbackQuery).

(** What the handler answered. *)
Inductive Outcome :=
  | Raised            (* an exception left the handler *)
  | NotFound          (* "Сделка не найдена." *)
  | Unauthorized      (* not the seller / not the buyer / "Недостаточно прав." *)
  | InvalidState      (* already processed / not in the expected status *)
  | UnknownAction     (* "Неизвестное действие." *)
  | Committed (deal_id : Z) (new_status : string)
  | Created (deal_id : Z)
  | NoActiveSession   (* "Нет активного процесса создания сделки." *)
  | CreationCancelled
  | MissingData       (* "Ошибка: не хватает данных сделки." *)
  | Prompted (state : string)
  | Reprompted
  | NotUnderstood     (* "Не понял сообщение. ..." *)
  | UseStart          (* "Используй /start ..." *)
  | Shown             (* a read-only command or menu *)
  | ProcessCancelled  (* "Текущий процесс отменён." *)
  | Unhandled.        (* no registered handler accepts the update *)

(** ** State helpers *)

Definition set_state (user_id : Z) (state : option string) (w : World) : World :=
  match state with
  | None =>
      mkWorld (deals w) (logs w)
        (delete user_id (user_states w)) (delete user_id (user_temp w))
  | Some st =>
      mkWorld (deals w) (logs w)
        (<[user_id := st]> (user_states w))
        (match user_temp w !! user_id with
         | None => <[user_id := empty_temp]> (user_temp w)
         | Some _ => user_temp w
         end)
  end.

Definition get_state (user_id : Z) (w : World) : option string :=
  user_states w !! user_id.

Definition log_action (clk : Clock) (deal_id : Z) (action : Action) (w : World)
  : World :=
  with_logs w (logs w ++ [mkLog deal_id action (log_now clk)]).

(** [SELECT ... FROM deals WHERE id=?] for an id the query can bind, a
    signed 64-bit integer ([sqlite_integer] below): for any other id
    [cursor.execute] raises before it answers, so a statement about an id
    absent from the table states the range. *)
Definition get_deal (deal_id : Z) (w : World) : option Deal :=
  deals w !! deal_id.

(** [UPDATE deals SET status=?, updated_at=? WHERE id=?] *)
Definition set_status (new_status ts : string) (d : Deal) : Deal :=
  mkDeal (buyer_id d) (seller_id d) (amount d) (description d)
    new_status (created_at d) ts.

Definition update_status (deal_id : Z) (new_status ts : string) (w : World)
  : World :=
  with_deals w (alter (set_status new_status ts) deal_id (deals w)).

(** The id AUTOINCREMENT gives the next inserted row ([cursor.lastrowid]
    after the INSERT): one more than the largest id, 1 in an empty table.
    Rows are never deleted, so the largest id ever used is in the table. *)
Definition next_deal_id (ds : gmap Z Deal) : Z :=
  1 + map_fold (fun k _ acc => Z.max k acc) 0 ds.

(** [SELECT ... WHERE seller_id=? AND status=? ORDER BY id DESC LIMIT 1] *)
Definition keep_latest (seller : Z) (k : Z) (d : Deal) (acc : option (Z * Deal))
  : option (Z * Deal) :=
  if bool_decide (seller_id d = seller)
     && bool_decide (status d = STATUS_PAID_WAIT_DELIVERY)
  then match acc with
       | Some (k', _) => if k' <? k then Some (k, d) else acc
       | None => Some (k, d)
       end
  else acc.

Definition get_latest_paid_waiting_deal_for_seller (seller : Z) (w : World)
  : option (Z * Deal) :=
  map_fold (keep_latest seller) None (deals w).

(** ** Handlers *)

Section Handlers.

(** The arbiter allow-list, read from the environment at start-up. *)
Variable ADMIN_IDS : list Z.

Definition is_admin (user_id : Z) : bool := bool_decide (user_id ∈ ADMIN_IDS).

(** The id a callback carries: [int(call.data.split("_")[-1])]. *)
Definition deal_id_of (d : string) : option Z :=
  Py.int (List.last (Py.split "_" d) EmptyString).

(** *** Main menu *)

Definition cb_menu_new_deal (call : CallbackQuery) (w : World) : World * Outcome :=
  let user_id := call_from call in
  (set_state user_id (Some STATE_NEW_DEAL_SELLER) w,
   Prompted STATE_NEW_DEAL_SELLER).

Definition cb_menu_my_deals (call : CallbackQuery) (w : World) : World * Outcome :=
  (w, Shown).

(** *** The steps of the creation wizard *)

Definition new_deal_step_seller (m : Message) (w : World) : World * Outcome :=
  let user_id := from_user m in
  let seller :=
    match forward_from m with
    | Some fwd => Some fwd
    | None =>
        match text m with
        | Some t =>
            if Py.str_truthy t && Py.isdigit (Py.strip t)
            then Py.int (Py.strip t) else None
        | None => None
        end
    end in
  match seller with
  | None => (w, Reprompted)
  | Some sid =>
      if negb (Py.int_truthy sid) then (w, Reprompted)
      else
        match user_temp w !! user_id with
        | None => (w, Raised)
        | Some tmp =>
            let w1 :=
              with_temp w
                (<[user_id := mkTemp (Some sid) (temp_amount tmp)
                               (temp_description tmp)]> (user_temp w)) in
            (set_state user_id (Some STATE_NEW_DEAL_AMOUNT) w1,
             Prompted STATE_NEW_DEAL_AMOUNT)
        end
  end.

Definition new_deal_step_amount (m : Message) (w : World) : World * Outcome :=
  let user_id := from_user m in
  let txt :=
    match text m with
    | Some t => if Py.str_truthy t then Py.replace "," "." t else EmptyString
    | None => EmptyString
    end in
  match Py.float txt with
  | None => (w, Reprompted)
  | Some amt =>
      if Py.float_le_zero amt then (w, Reprompted)
      else
        match user_temp w !! user_id with
        | None => (w, Raised)
        | Some tmp =>
            let w1 :=
              with_temp w
                (<[user_id := mkTemp (temp_seller_id tmp) (Some amt)
                               (temp_description tmp)]> (user_temp w)) in
            (set_state user_id (Some STATE_NEW_DEAL_DESCRIPTION) w1,
             Prompted STATE_NEW_DEAL_DESCRIPTION)
        end
  end.

Definition new_deal_step_description (m : Message) (w : World) : World * Outcome :=
  let user_id := from_user m in
  let descr :=
    match text m with
    | Some t => if Py.str_truthy t then Py.strip t else EmptyString
    | None => EmptyString
    end in
  if negb (Py.str_truthy descr) then (w, Reprompted)
  else
    match user_temp w !! user_id with
    | None => (w, Raised)
    | Some tmp =>
        let w1 :=
          with_temp w
            (<[user_id := mkTemp (temp_seller_id tmp) (temp_amount tmp)
                           (Some descr)]> (user_temp w)) in
        let w2 := set_state user_id (Some STATE_NEW_DEAL_CONFIRM) w1 in
        (* the two subscript reads that follow raise KeyError on a missing key,
           after the dictionaries were written *)
        match temp_seller_id tmp, temp_amount tmp with
        | Some _, Some _ => (w2, Prompted STATE_NEW_DEAL_CONFIRM)
        | _, _ => (w2, Raised)
        end
    end.

(** The confirm press.  The INSERT is given for a seller id it can bind
    ([sqlite_integer] below): for any other id [cursor.execute] raises with
    nothing written and the session kept. *)
Definition cb_new_deal_confirm (clk : Clock) (call : CallbackQuery) (w : World)
  : World * Outcome :=
  let user_id := call_from call in
  let state := get_state user_id w in
  if bool_decide (state ≠ Some STATE_NEW_DEAL_CONFIRM) then (w, NoActiveSession)
  else if bool_decide (data call = "new_deal_confirm_no") then
    (set_state user_id None w, CreationCancelled)
  else
    let temp := default empty_temp (user_temp w !! user_id) in
    match temp_seller_id temp, temp_amount temp, temp_description temp with
    | Some sid, Some amt, Some descr =>
        if negb (Py.int_truthy sid && Py.float_truthy amt && Py.str_truthy descr)
        then (set_state user_id None w, MissingData)
        else
          let deal_id := next_deal_id (deals w) in
          let w1 :=
            with_deals w
              (<[deal_id := mkDeal user_id sid amt descr
                              STATUS_AWAIT_SELLER_CONFIRM (now clk) (now clk)]>
                 (deals w)) in
          let w2 := log_action clk deal_id (ActCreated user_id sid amt) w1 in
          (set_state user_id None w2, Created deal_id)
    | _, _, _ => (set_state user_id None w, MissingData)
    end.

(** *** Seller and buyer buttons *)

Definition cb_seller_accept (clk : Clock) (call : CallbackQuery) (w : World)
  : World * Outcome :=
  let user_id := call_from call in
  match deal_id_of (data call) with
  | None => (w, Raised)
  | Some deal_id =>
      match get_deal deal_id w with
      | None => (w, NotFound)
      | Some row =>
          if bool_decide (user_id ≠ seller_id row) then (w, Unauthorized)
          else if bool_decide (status row ≠ STATUS_AWAIT_SELLER_CONFIRM)
          then (w, InvalidState)
          else
            (log_action clk deal_id (ActSellerAccepted user_id)
               (update_status deal_id STATUS_AWAIT_PAYMENT (now clk) w),
             Committed deal_id STATUS_AWAIT_PAYMENT)
      end
  end.

Definition cb_seller_reject (clk : Clock) (call : CallbackQuery) (w : World)
  : World * Outcome :=
  let user_id := call_from call in
  match deal_id_of (data call) with
  | None => (w, Raised)
  | Some deal_id =>
      match get_deal deal_id w with
      | None => (w, NotFound)
      | Some row =>
          if bool_decide (user_id ≠ seller_id row) then (w, Unauthorized)
          else if bool_decide (status row ≠ STATUS_AWAIT_SELLER_CONFIRM)
          then (w, InvalidState)
          else
            (log_action clk deal_id (ActSellerRejected user_id)
               (update_status deal_id STATUS_REJECTED_BY_SELLER (now clk) w),
             Committed deal_id STATUS_REJECTED_BY_SELLER)
      end
  end.

Definition cb_deal_paid (clk : Clock) (call : CallbackQuery) (w : World)
  : World * Outcome :=
  let user_id := call_from call in
  match deal_id_of (data call) with
  | None => (w, Raised)
  | Some deal_id =>
      match get_deal deal_id w with
      | None => (w, NotFound)
      | Some row =>
          if bool_decide (user_id ≠ buyer_id row) then (w, Unauthorized)
          else if bool_decide (status row ≠ STATUS_AWAIT_PAYMENT)
          then (w, InvalidState)
          else
            (log_action clk deal_id (ActBuyerPaid user_id)
               (update_status deal_id STATUS_PAID_WAIT_DELIVERY (now clk) w),
             Committed deal_id STATUS_PAID_WAIT_DELIVERY)
      end
  end.

Definition cb_deal_cancel (clk : Clock) (call : CallbackQuery) (w : World)
  : World * Outcome :=
  let user_id := call_from call in
  match deal_id_of (data call) with
  | None => (w, Raised)
  | Some deal_id =>
      match get_deal deal_id w with
      | None => (w, NotFound)
      | Some row =>
          if bool_decide (user_id ≠ buyer_id row) then (w, Unauthorized)
          else if bool_decide (status row ≠ STATUS_AWAIT_PAYMENT)
          then (w, InvalidState)
          else
            (log_action clk deal_id (ActBuyerCancelled user_id)
               (update_status deal_id STATUS_CANCELLED (now clk) w),
             Committed deal_id STATUS_CANCELLED)
      end
  end.

Definition cb_deal_sent (clk : Clock) (call : CallbackQuery) (w : World)
  : World * Outcome :=
  let user_id := call_from call in
  match deal_id_of (data call) with
  | None => (w, Raised)
  | Some deal_id =>
      match get_deal deal_id w with
      | None => (w, NotFound)
      | Some row =>
          if bool_decide (user_id ≠ seller_id row) then (w, Unauthorized)
          else if bool_decide (status row ≠ STATUS_PAID_WAIT_DELIVERY)
          then (w, InvalidState)
          else
            (log_action clk deal_id (ActSentByButton user_id)
               (update_status deal_id STATUS_WAIT_BUYER_CONFIRM (now clk) w),
             Committed deal_id STATUS_WAIT_BUYER_CONFIRM)
      end
  end.

(** *** Delivery by a free-form message, or the fallback answer *)

Definition fallback_or_delivery_handler (clk : Clock) (m : Message) (w : World)
  : World * Outcome :=
  let user_id := from_user m in
  let state := get_state user_id w in
  if bool_decide (state ≠ None)
     && bool_decide (state ≠ Some STATE_NEW_DEAL_SELLER)
     && bool_decide (state ≠ Some STATE_NEW_DEAL_AMOUNT)
     && bool_decide (state ≠ Some STATE_NEW_DEAL_DESCRIPTION)
     && bool_decide (state ≠ Some STATE_NEW_DEAL_CONFIRM)
  then (w, NotUnderstood)
  else
    match get_latest_paid_waiting_deal_for_seller user_id w with
    | Some (deal_id, row) =>
        (log_action clk deal_id (ActSentByMessage user_id)
           (update_status deal_id STATUS_WAIT_BUYER_CONFIRM (now clk) w),
         Committed deal_id STATUS_WAIT_BUYER_CONFIRM)
    | None =>
        match get_state user_id w with
        | Some st => if Py.str_truthy st then (w, NotUnderstood) else (w, UseStart)
        | None => (w, UseStart)
        end
    end.

Definition cb_buyer_ok (clk : Clock) (call : CallbackQuery) (w : World)
  : World * Outcome :=
  let user_id := call_from call in
  match deal_id_of (data call) with
  | None => (w, Raised)
  | Some deal_id =>
      match get_deal deal_id w with
      | None => (w, NotFound)
      | Some row =>
          if bool_decide (user_id ≠ buyer_id row) then (w, Unauthorized)
          else if bool_decide (status row ≠ STATUS_WAIT_BUYER_CONFIRM)
          then (w, InvalidState)
          else
            (log_action clk deal_id (ActBuyerConfirmed user_id)
               (update_status deal_id STATUS_COMPLETED (now clk) w),
             Committed deal_id STATUS_COMPLETED)
      end
  end.

Definition cb_buyer_dispute (clk : Clock) (call : CallbackQuery) (w : World)
  : World * Outcome :=
  let user_id := call_from call in
  match deal_id_of (data call) with
  | None => (w, Raised)
  | Some deal_id =>
      match get_deal deal_id w with
      | None => (w, NotFound)
      | Some row =>
          if bool_decide (user_id ≠ buyer_id row) then (w, Unauthorized)
          else if bool_decide (status row ≠ STATUS_WAIT_BUYER_CONFIRM)
          then (w, InvalidState)
          else
            (log_action clk deal_id (ActBuyerDispute user_id)
               (update_status deal_id STATUS_DISPUTE (now clk) w),
             Committed deal_id STATUS_DISPUTE)
      end
  end.

(** *** Arbiters resolve a dispute *)

(** The three branches on [action = parts[1]]: new status and log text. *)
Definition resolution (action : string) (user_id : Z) : option (string * Action) :=
  if bool_decide (action = "buyer")
  then Some (STATUS_RESOLVED_BUYER, ActAdminForBuyer user_id)
  else if bool_decide (action = "seller")
  then Some (STATUS_RESOLVED_SELLER, ActAdminForSeller user_id)
  else if bool_decide (action = "partial")
  then Some (STATUS_RESOLVED_PARTIAL, ActAdminPartial user_id)
  else None.

Definition cb_admin_dispute (clk : Clock) (call : CallbackQuery) (w : World)
  : World * Outcome :=
  let user_id := call_from call in
  if negb (is_admin user_id) then (w, Unauthorized)
  else
    let parts := Py.split "_" (data call) in
    match nth_error parts 1 with
    | None => (w, Raised)
    | Some action =>
        match Py.int (List.last parts EmptyString) with
        | None => (w, Raised)
        | Some deal_id =>
            match get_deal deal_id w with
            | None => (w, NotFound)
            | Some row =>
                if bool_decide (status row ≠ STATUS_DISPUTE) then (w, InvalidState)
                else
                  match resolution action user_id with
                  | None => (w, UnknownAction)
                  | Some (new_status, log_text) =>
                      (log_action clk deal_id log_text
                         (update_status deal_id new_status (now clk) w),
                       Committed deal_id new_status)
                  end
            end
        end
    end.

(** *** Commands *)

Definition cmd_cancel (m : Message) (w : World) : World * Outcome :=
  (set_state (from_user m) None w, ProcessCancelled).

(** [/start], [/help], [/mydeals], [/deal], [/admin], [/disputes]: they read
    the store and answer; [/start] also refreshes the profile cache. *)
Definition cmd_readonly (m : Message) (w : World) : World * Outcome := (w, Shown).

(** ** Dispatch: the first registered handler whose filters accept *)

(** The content type is TEXT when the message has a non-empty text; a
    handler registered without [content_types] receives TEXT only. *)
Definition is_text (m : Message) : bool :=
  match text m with Some t => Py.str_truthy t | None => false end.

Definition is_command (names : list string) (m : Message) : bool :=
  is_text m &&
  match command m with
  | Some c => bool_decide (c ∈ names)
  | None => false
  end.

Definition in_state (st : string) (m : Message) (w : World) : bool :=
  bool_decide (get_state (from_user m) w = Some st).

Definition Handler (A : Type) : Type :=
  (A -> World -> bool) * (Clock -> A -> World -> World * Outcome).

(** Message handlers, in the order of their decorators in [bot.py]. *)
Definition message_handlers : list (Handler Message) :=
  [ (fun m _ => is_command ["start"] m, fun _ => cmd_readonly);
    (fun m _ => is_command ["help"] m, fun _ => cmd_readonly);
    (fun m _ => is_command ["mydeals"] m, fun _ => cmd_readonly);
    (fun m _ => is_command ["deal"] m, fun _ => cmd_readonly);
    (fun m _ => is_command ["admin"] m, fun _ => cmd_readonly);
    (fun m _ => is_command ["disputes"] m, fun _ => cmd_readonly);
    (fun m w => in_state STATE_NEW_DEAL_SELLER m w, fun _ => new_deal_step_seller);
    (fun m w => in_state STATE_NEW_DEAL_AMOUNT m w && is_text m,
     fun _ => new_deal_step_amount);
    (fun m w => in_state STATE_NEW_DEAL_DESCRIPTION m w && is_text m,
     fun _ => new_deal_step_description);
    (fun _ _ => true, fallback_or_delivery_handler);
    (fun m _ => is_command ["cancel"] m, fun _ => cmd_cancel) ].

Definition data_equals (s : string) (c : CallbackQuery) (_ : World) : bool :=
  bool_decide (data c = s).
Definition data_startswith (p : string) (c : CallbackQuery) (_ : World) : bool :=
  Py.startswith p (data c).

(** Callback handlers, in the order of their decorators in [bot.py]. *)
Definition callback_handlers : list (Handler CallbackQuery) :=
  [ (data_equals "menu_new_deal", fun _ => cb_menu_new_deal);
    (data_equals "menu_my_deals", fun _ => cb_menu_my_deals);
    (data_startswith "new_deal_confirm_", cb_new_deal_confirm);
    (data_startswith "seller_accept_", cb_seller_accept);
    (data_startswith "seller_reject_", cb_seller_reject);
    (data_startswith "deal_paid_", cb_deal_paid);
    (data_startswith "deal_cancel_", cb_deal_cancel);
    (data_startswith "deal_sent_", cb_deal_sent);
    (data_startswith "buyer_ok_", cb_buyer_ok);
    (data_startswith "buyer_dispute_", cb_buyer_dispute);
    (data_startswith "adm_", cb_admin_dispute) ].

Fixpoint dispatch {A} (hs : list (Handler A)) (clk : Clock) (a : A) (w : World)
  : World * Outcome :=
  match hs with
  | [] => (w, Unhandled)
  | (accepts, run) :: rest =>
      if accepts a w then run clk a w else dispatch rest clk a w
  end.

Definition handle (clk : Clock) (u : Update) (w : World) : World * Outcome :=
  match u with
  | UMessage m => dispatch message_handlers clk m w
  | UCallback c => dispatch callback_handlers clk c w
  end.

(** The world after a sequence of updates, each with its clock readings. *)
Fixpoint run (us : list (Clock * Update)) (w : World) : World :=
  match us with
  | [] => w
  | (clk, u) :: rest => run rest (handle clk u w).1
  end.

End Handlers.

(** ** The transition table of the lifecycle (spec 4.1) *)

Inductive Role := Buyer | Seller | Arbiter.

#[global] Instance Role_eq_dec : EqDecision Role.
Proof. solve_decision. Defined.

(** Rows [(from, actor, to)] of the table; creation is the row without a
    source and is treated apart. *)
Definition transition_table : list (string * Role * string) :=
  [ (STATUS_AWAIT_SELLER_CONFIRM, Seller, STATUS_AWAIT_PAYMENT);
    (STATUS_AWAIT_SELLER_CONFIRM, Seller, STATUS_REJECTED_BY_SELLER);
    (STATUS_AWAIT_PAYMENT, Buyer, STATUS_PAID_WAIT_DELIVERY);
    (STATUS_AWAIT_PAYMENT, Buyer, STATUS_CANCELLED);
    (STATUS_PAID_WAIT_DELIVERY, Seller, STATUS_WAIT_BUYER_CONFIRM);
    (STATUS_WAIT_BUYER_CONFIRM, Buyer, STATUS_COMPLETED);
    (STATUS_WAIT_BUYER_CONFIRM, Buyer, STATUS_DISPUTE);
    (STATUS_DISPUTE, Arbiter, STATUS_RESOLVED_BUYER);
    (STATUS_DISPUTE, Arbiter, STATUS_RESOLVED_SELLER);
    (STATUS_DISPUTE, Arbiter, STATUS_RESOLVED_PARTIAL) ].

Definition terminal_statuses : list string :=
  [ STATUS_COMPLETED; STATUS_REJECTED_BY_SELLER; STATUS_CANCELLED;
    STATUS_RESOLVED_BUYER; STATUS_RESOLVED_SELLER; STATUS_RESOLVED_PARTIAL ].

Definition holds_role (admins : list Z) (user : Z) (d : Deal) (r : Role) : Prop :=
  match r with
  | Buyer => user = buyer_id d
  | Seller => user = seller_id d
  | Arbiter => user ∈ admins
  end.

Definition sender (u : Update) : Z :=
  match u with
  | UMessage m => from_user m
  | UCallback c => call_from c
  end.

(** One status may follow another when some row of the table joins them. *)
Definition edge (a b : string) : Prop :=
  ∃ r, (a, r, b) ∈ transition_table.

(** Button prefixes that ask for a transition, with the role the handler
    checks the sender against. *)
Definition button_roles : list (string * Role) :=
  [ ("seller_accept_", Seller); ("seller_reject_", Seller);
    ("deal_paid_", Buyer); ("deal_cancel_", Buyer);
    ("deal_sent_", Seller); ("buyer_ok_", Buyer);
    ("buyer_dispute_", Buyer); ("adm_", Arbiter) ].

(** The shape the seven seller and buyer buttons share: look the deal up,
    compare the sender with one party column, compare the status with the
    source status, then write the target status and one log row. *)
Definition party_button (who : Deal → Z) (src dst : string) (act : Z → Action)
    (clk : Clock) (call : CallbackQuery) (w : World) : World * Outcome :=
  match deal_id_of (data call) with
  | None => (w, Raised)
  | Some deal_id =>
      match get_deal deal_id w with
      | None => (w, NotFound)
      | Some row =>
          if bool_decide (call_from call ≠ who row) then (w, Unauthorized)
          else if bool_decide (status row ≠ src) then (w, InvalidState)
          else
            (log_action clk deal_id (act (call_from call))
               (update_status deal_id dst (now clk) w),
             Committed deal_id dst)
      end
  end.

(** The party column a role is checked against. *)
Definition party_column (r : Role) : Deal → Z :=
  match r with
  | Buyer => buyer_id
  | _ => seller_id
  end.

(** What one handled update may commit to the store: nothing, one row of the
    transition table applied to one deal, or one new deal; the last two with
    exactly one new row of [logs]. *)
Inductive Effect (admins : list Z) (clk : Clock) (user : Z) (w w' : World)
  : Prop :=
  | NoCommit :
      deals w' = deals w → logs w' = logs w → Effect admins clk user w w'
  | Transition (id : Z) (d : Deal) (r : Role) (st : string) (a : Action) :
      deals w !! id = Some d →
      (status d, r, st) ∈ transition_table →
      holds_role admins user d r →
      deals w' = <[id := set_status st (now clk) d]> (deals w) →
      logs w' = logs w ++ [mkLog id a (log_now clk)] →
      Effect admins clk user w w'
  | Creation (id sid : Z) (amt : spec_float) (descr : string) :
      deals w !! id = None →
      user_temp w !! user = Some (mkTemp (Some sid) (Some amt) (Some descr)) →
      sid ≠ 0 →
      deals w' =
        <[id := mkDeal user sid amt descr STATUS_AWAIT_SELLER_CONFIRM
                  (now clk) (now clk)]> (deals w) →
      logs w' = logs w ++ [mkLog id (ActCreated user sid amt) (log_now clk)] →
      Effect admins clk user w w'.

(** ** Sample worlds and runs *)

Definition empty_world : World := mkWorld ∅ [] ∅ ∅.
Definition noon : Clock := mkClock "2024-01-01T12:00:00" "2024-01-01T12:00:01".
Definition says (user : Z) (t : string) : Clock * Update :=
  (noon, UMessage (mkMessage user (Some t) None None)).
Definition taps (user : Z) (d : string) : Clock * Update :=
  (noon, UCallback (mkCall user d)).

(** Buyer 1 opens a deal with seller 2 for 100.0. *)
Definition open_deal : list (Clock * Update) :=
  [ taps 1 "menu_new_deal"; says 1 "2"; says 1 "100.0"; says 1 "x";
    taps 1 "new_deal_confirm_yes" ].

(** ... the seller accepts and the buyer reports the payment. *)
Definition paid_deal : list (Clock * Update) :=
  open_deal ++ [ taps 2 "seller_accept_1"; taps 1 "deal_paid_1" ].

(** ... the seller delivers and the buyer confirms. *)
Definition completed_deal : list (Clock * Update) :=
  paid_deal ++ [ taps 2 "deal_sent_1"; taps 1 "buyer_ok_1" ].

(** The seller of the paid deal walks the wizard up to its confirm step. *)
Definition seller_in_wizard : list (Clock * Update) :=
  paid_deal ++ [ taps 2 "menu_new_deal"; says 2 "3"; says 2 "5"; says 2 "goods" ].

(** User 7 names themself as the seller. *)
Definition self_deal : list (Clock * Update) :=
  [ taps 7 "menu_new_deal"; says 7 "7"; says 7 "10"; says 7 "thing";
    taps 7 "new_deal_confirm_yes" ].

(** User 7 restarts the wizard after giving a seller and an amount. *)
Definition restarted : list (Clock * Update) :=
  [ taps 7 "menu_new_deal"; says 7 "5"; says 7 "10"; taps 7 "menu_new_deal" ].

(** ** Two worlds that differ in stale fields only *)

(** The field maps of one user in two worlds: both absent, or both present
    and equal in the fields the current step has already collected. *)
Definition agree (st : option string) (o o' : option Temp) : Prop :=
  match o, o' with
  | None, None => True
  | Some t, Some t' =>
      st = Some STATE_NEW_DEAL_SELLER ∨
      (st = Some STATE_NEW_DEAL_AMOUNT ∧ temp_seller_id t = temp_seller_id t') ∨
      (st = Some STATE_NEW_DEAL_DESCRIPTION ∧
       temp_seller_id t = temp_seller_id t' ∧ temp_amount t = temp_amount t') ∨
      t = t'
  | _, _ => False
  end.

(** [Sim X w w']: the worlds are equal except for fields of user [X] that
    the wizard has yet to collect again. *)
Definition Sim (X : Z) (w w' : World) : Prop :=
  deals w' = deals w ∧ logs w' = logs w ∧ user_states w' = user_states w ∧
  (∀ y, y ≠ X → user_temp w' !! y = user_temp w !! y) ∧
  agree (user_states w !! X) (user_temp w !! X) (user_temp w' !! X).

(** A handler that neither reads nor writes the field maps. *)
Definition temp_blind (h : World → World * Outcome) : Prop :=
  ∀ ds ls sts ut ut',
    let r := h (mkWorld ds ls sts ut) in
    user_states r.1 = sts ∧ user_temp r.1 = ut ∧
    h (mkWorld ds ls sts ut') = (mkWorld (deals r.1) (logs r.1) sts ut', r.2).

Definition status_of (id : Z) (w : World) : option string :=
  status <$> deals w !! id.

(** ** Further parts of [bot.py] *)

(** The three words an arbiter button may carry as its second part. *)
Definition resolution_words : list string := ["buyer"; "seller"; "partial"].

(** Buyer 1 opens a second deal with seller 2 and both deals get paid. *)
Definition two_paid_deals : list (Clock * Update) :=
  paid_deal ++
  [ taps 1 "menu_new_deal"; says 1 "2"; says 1 "50"; says 1 "y";
    taps 1 "new_deal_confirm_yes"; taps 2 "seller_accept_2";
    taps 1 "deal_paid_2" ].

(** The strings on which the builtins of [Py] are the Python ones. *)
Definition ascii_only (s : string) : bool :=
  forallb (fun c => Py.code c <? 128) (Py.chars s).

(** The integers [sqlite3] binds to a parameter; a Python [int] outside the
    range makes [cursor.execute] raise [OverflowError]. *)
Definition sqlite_integer (z : Z) : Prop := - 2 ^ 63 ≤ z < 2 ^ 63.

(** What the REAL column [amount] holds for the float the INSERT bound:
    SQLite stores a NaN as NULL, read back as [None]; every other float is
    kept.  The [amount] of a [Deal] is the float bound, so the column of the
    row in the real store is [stored_amount] of it. *)
Definition stored_amount (a : spec_float) : option spec_float :=
  match a with
  | S754_nan => None
  | _ => Some a
  end.

(** [0 < x] on floats. *)
Definition float_positive (x : spec_float) : bool :=
  SFltb (S754_zero false) x.

(** ** Worlds the bot can be in *)

Definition all_statuses : list string :=
  [ STATUS_AWAIT_SELLER_CONFIRM; STATUS_AWAIT_PAYMENT;
    STATUS_PAID_WAIT_DELIVERY; STATUS_WAIT_BUYER_CONFIRM; STATUS_COMPLETED;
    STATUS_DISPUTE; STATUS_RESOLVED_BUYER; STATUS_RESOLVED_SELLER;
    STATUS_RESOLVED_PARTIAL; STATUS_REJECTED_BY_SELLER; STATUS_CANCELLED ].

Definition creation_states : list string :=
  [ STATE_NEW_DEAL_SELLER; STATE_NEW_DEAL_AMOUNT; STATE_NEW_DEAL_DESCRIPTION;
    STATE_NEW_DEAL_CONFIRM ].

(** Every field a session holds went through the check of its step. *)
Definition valid_temp (t : Temp) : Prop :=
  (∀ sid, temp_seller_id t = Some sid → sid ≠ 0) ∧
  (∀ a, temp_amount t = Some a → Py.float_le_zero a = false) ∧
  (∀ d, temp_description t = Some d → d ≠ EmptyString).

(** The fields the steps before [st] have collected are present. *)
Definition step_ready (st : string) (t : Temp) : Prop :=
  (st ≠ STATE_NEW_DEAL_SELLER → is_Some (temp_seller_id t)) ∧
  (st ≠ STATE_NEW_DEAL_SELLER → st ≠ STATE_NEW_DEAL_AMOUNT →
   is_Some (temp_amount t)) ∧
  (st = STATE_NEW_DEAL_CONFIRM → is_Some (temp_description t)).

Definition valid_deal (d : Deal) : Prop :=
  status d ∈ all_statuses ∧ seller_id d ≠ 0 ∧
  Py.float_le_zero (amount d) = false ∧ description d ≠ EmptyString.

(** The invariant of the worlds reachable from the empty one. *)
Definition WF (w : World) : Prop :=
  (∀ id d, deals w !! id = Some d → valid_deal d) ∧
  (∀ k, is_Some (deals w !! k) ↔ 1 ≤ k ≤ Z.of_nat (size (deals w))) ∧
  (∀ row, row ∈ logs w → is_Some (deals w !! row_deal_id row)) ∧
  (∀ u st, user_states w !! u = Some st →
     st ∈ creation_states ∧
     ∃ t, user_temp w !! u = Some t ∧ step_ready st t) ∧
  (∀ u t, user_temp w !! u = Some t → valid_temp t).

(** A handler adds a row to [deals] under the next id only. *)
Definition only_next_id (w : World) (r : World * Outcome) : Prop :=
  ∀ id, deals w !! id = None → is_Some (deals r.1 !! id) →
        id = next_deal_id (deals w).

(** The session part of the invariant. *)
Definition sessions_ok (sts : gmap Z string) (ut : gmap Z Temp) : Prop :=
  (∀ u st, sts !! u = Some st →
     st ∈ creation_states ∧ ∃ t, ut !! u = Some t ∧ step_ready st t) ∧
  (∀ u t, ut !! u = Some t → valid_temp t).

(** ** Inline keyboards *)

(** [str(n)] of an [int], as the f-strings of the keyboards format a deal
    id: decimal digits, a minus sign before a negative number. *)
Definition str_int (n : Z) : string :=
  DecimalString.NilZero.string_of_int (Z.to_int n).

Record Button := mkButton {
  label : string;
  callback_data : string
}.

(** An [InlineKeyboardMarkup]: every call of [kb.add] starts a row. *)
Definition Keyboard : Type := list (list Button).

Definition main_menu_kb : Keyboard :=
  [ [ mkButton "🆕 Создать сделку" "menu_new_deal" ];
    [ mkButton "📜 Мои сделки" "menu_my_deals" ] ].

Definition confirm_new_deal_kb : Keyboard :=
  [ [ mkButton "✅ Подтвердить" "new_deal_confirm_yes";
      mkButton "❌ Отменить" "new_deal_confirm_no" ] ].

Definition buyer_payment_kb (deal_id : Z) : Keyboard :=
  [ [ mkButton "💸 Я оплатил" ("deal_paid_" +:+ str_int deal_id) ];
    [ mkButton "❌ Отменить сделку" ("deal_cancel_" +:+ str_int deal_id) ] ].

Definition seller_confirm_kb (deal_id : Z) : Keyboard :=
  [ [ mkButton "✅ Согласен" ("seller_accept_" +:+ str_int deal_id);
      mkButton "❌ Не согласен" ("seller_reject_" +:+ str_int deal_id) ] ].

Definition seller_delivery_kb (deal_id : Z) : Keyboard :=
  [ [ mkButton "📦 Товар отправлен" ("deal_sent_" +:+ str_int deal_id) ] ].

Definition buyer_confirm_kb (deal_id : Z) : Keyboard :=
  [ [ mkButton "✅ Всё ок" ("buyer_ok_" +:+ str_int deal_id);
      mkButton "⚠️ Есть проблема" ("buyer_dispute_" +:+ str_int deal_id) ] ].

Definition admin_dispute_kb (deal_id : Z) : Keyboard :=
  [ [ mkButton "👤 В пользу покупателя" ("adm_buyer_" +:+ str_int deal_id);
      mkButton "🧑‍💻 В пользу продавца" ("adm_seller_" +:+ str_int deal_id) ];
    [ mkButton "⚖️ Частичный возврат" ("adm_partial_" +:+ str_int deal_id) ] ].

Definition buttons (kb : Keyboard) : list Button := concat kb.

(** The keyboard that goes out with the notice of a new status, and the
    party it is sent to: [seller_confirm_kb] to the seller after the INSERT
    of [cb_new_deal_confirm], [buyer_payment_kb] to the buyer in
    [cb_seller_accept], [seller_delivery_kb] to the seller in [cb_deal_paid],
    [buyer_confirm_kb] to the buyer in [cb_deal_sent] and in the free-text
    delivery, [admin_dispute_kb] to every arbiter in [cb_buyer_dispute].  The
    other notices carry the main menu or no keyboard. *)
Definition notice_keyboard (new_status : string) (deal_id : Z)
  : option (Role * Keyboard) :=
  if bool_decide (new_status = STATUS_AWAIT_SELLER_CONFIRM)
  then Some (Seller, seller_confirm_kb deal_id)
  else if bool_decide (new_status = STATUS_AWAIT_PAYMENT)
  then Some (Buyer, buyer_payment_kb deal_id)
  else if bool_decide (new_status = STATUS_PAID_WAIT_DELIVERY)
  then Some (Seller, seller_delivery_kb deal_id)
  else if bool_decide (new_status = STATUS_WAIT_BUYER_CONFIRM)
  then Some (Buyer, buyer_confirm_kb deal_id)
  else if bool_decide (new_status = STATUS_DISPUTE)
  then Some (Arbiter, admin_dispute_kb deal_id)
  else None.

(** The ten buttons of the deal keyboards, by the handler that takes each:
    the text before the deal id, the status the handler requires, the role it
    checks the sender against and the status it writes. *)
Definition button_rows : list (string * string * Role * string) :=
  [ ("seller_accept_", STATUS_AWAIT_SELLER_CONFIRM, Seller,
     STATUS_AWAIT_PAYMENT);
    ("seller_reject_", STATUS_AWAIT_SELLER_CONFIRM, Seller,
     STATUS_REJECTED_BY_SELLER);
    ("deal_paid_", STATUS_AWAIT_PAYMENT, Buyer, STATUS_PAID_WAIT_DELIVERY);
    ("deal_cancel_", STATUS_AWAIT_PAYMENT, Buyer, STATUS_CANCELLED);
    ("deal_sent_", STATUS_PAID_WAIT_DELIVERY, Seller,
     STATUS_WAIT_BUYER_CONFIRM);
    ("buyer_ok_", STATUS_WAIT_BUYER_CONFIRM, Buyer, STATUS_COMPLETED);
    ("buyer_dispute_", STATUS_WAIT_BUYER_CONFIRM, Buyer, STATUS_DISPUTE);
    ("adm_buyer_", STATUS_DISPUTE, Arbiter, STATUS_RESOLVED_BUYER);
    ("adm_seller_", STATUS_DISPUTE, Arbiter, STATUS_RESOLVED_SELLER);
    ("adm_partial_", STATUS_DISPUTE, Arbiter, STATUS_RESOLVED_PARTIAL) ].

(** ** The audit log against the store *)

(** The status written by the INSERT or UPDATE that stands before each call
    of [log_action], by the text that call logs. *)
Definition logged_status (a : Action) : string :=
  match a with
  | ActCreated _ _ _ => STATUS_AWAIT_SELLER_CONFIRM
  | ActSellerAccepted _ => STATUS_AWAIT_PAYMENT
  | ActSellerRejected _ => STATUS_REJECTED_BY_SELLER
  | ActBuyerPaid _ => STATUS_PAID_WAIT_DELIVERY
  | ActBuyerCancelled _ => STATUS_CANCELLED
  | ActSentByButton _ => STATUS_WAIT_BUYER_CONFIRM
  | ActSentByMessage _ => STATUS_WAIT_BUYER_CONFIRM
  | ActBuyerConfirmed _ => STATUS_COMPLETED
  | ActBuyerDispute _ => STATUS_DISPUTE
  | ActAdminForBuyer _ => STATUS_RESOLVED_BUYER
  | ActAdminForSeller _ => STATUS_RESOLVED_SELLER
  | ActAdminPartial _ => STATUS_RESOLVED_PARTIAL
  end.

(** The status the log alone gives a deal: that of the last row naming it,
    none when no row names it. *)
Definition replay (id : Z) (l : list LogRow) : option string :=
  fold_left
    (fun acc row =>
       if bool_decide (row_deal_id row = id)
       then Some (logged_status (row_action row)) else acc)
    l None.

(** A handler leaves the store and the log alone, or writes one row of
    [deals] and logs one action for the same id whose status is the one
    written. *)
Definition logs_what_it_writes (clk : Clock) (w : World)
    (r : World * Outcome) : Prop :=
  (deals r.1 = deals w ∧ logs r.1 = logs w) ∨
  ∃ id d a,
    deals r.1 = <[id := d]> (deals w) ∧
    logs r.1 = logs w ++ [mkLog id a (log_now clk)] ∧
    status d = logged_status a.

(** ** Read-only answers *)

(** The names the listings and the deal card show for a status. *)
Definition STATUS_NAMES : gmap string string :=
  list_to_map
    [ (STATUS_AWAIT_SELLER_CONFIRM, "Ожидает подтверждения продавца");
      (STATUS_AWAIT_PAYMENT, "Ожидает оплаты");
      (STATUS_PAID_WAIT_DELIVERY,
       "Оплата получена, ожидается отправка товара");
      (STATUS_WAIT_BUYER_CONFIRM, "Ожидается подтверждение покупателя");
      (STATUS_COMPLETED, "Завершена (успешно)");
      (STATUS_DISPUTE, "СПОР");
      (STATUS_RESOLVED_BUYER, "Спор решён в пользу покупателя");
      (STATUS_RESOLVED_SELLER, "Спор решён в пользу продавца");
      (STATUS_RESOLVED_PARTIAL, "Спор решён частично (частичный возврат)");
      (STATUS_REJECTED_BY_SELLER, "Отклонена продавцом");
      (STATUS_CANCELLED, "Отменена") ].

(** [STATUS_NAMES.get(status, status)] *)
Definition status_name (st : string) : string :=
  default st (STATUS_NAMES !! st).

(** [ORDER BY id DESC] on rows of [deals] with their ids. *)
Definition id_desc (a b : Z * Deal) : Prop := b.1 ≤ a.1.

#[global] Instance id_desc_dec a b : Decision (id_desc a b).
Proof. unfold id_desc. apply _. Defined.

Definition newest_first (rows : list (Z * Deal)) : list (Z * Deal) :=
  merge_sort id_desc rows.


(** [SELECT ... FROM deals WHERE status=? ORDER BY id DESC] with
    [STATUS_DISPUTE], the query of [cmd_disputes]. *)
Definition select_disputes (w : World) : list (Z * Deal) :=
  newest_first
    (filter (fun kd => status kd.2 = STATUS_DISPUTE) (map_to_list (deals w))).

Inductive DisputesAnswer :=
  | NoAnswer                      (* not an arbiter: the handler returns *)
  | NoDisputes                    (* "Спорных сделок нет." *)
  | Disputes (rows : list (Z * Deal))
  | DisputesRaised.               (* an exception left the handler *)

(** The loop over the rows formats each amount with [f"{amount:.2f}"], a
    [TypeError] on a row whose amount column is NULL; the answer is sent
    after the loop. *)
Definition cmd_disputes (admins : list Z) (m : Message) (w : World)
  : DisputesAnswer :=
  if negb (is_admin admins (from_user m)) then NoAnswer
  else
    match select_disputes w with
    | [] => NoDisputes
    | rows =>
        if forallb (fun kd => bool_decide (is_Some (stored_amount (amount kd.2))))
             rows
        then Disputes rows else DisputesRaised
    end.

(** [s.split()] without a separator: the runs of characters that are not
    whitespace, in order. *)
Fixpoint split_runs (cur : list ascii) (l : list ascii) : list string :=
  match l with
  | [] => match cur with [] => [] | _ => [Py.str (rev cur)] end
  | c :: r =>
      if Py.isspace c
      then match cur with
           | [] => split_runs [] r
           | _ => Py.str (rev cur) :: split_runs [] r
           end
      else split_runs (c :: cur) r
  end.

Definition split_whitespace (s : string) : list string :=
  split_runs [] (Py.chars s).

(** The gateway's command filter reads the first word of [text.split()]
    and asks for the prefix "/": a text whose first word does not start with
    "/" carries no command. *)
Definition plain_text (t : string) : bool :=
  match split_whitespace t with
  | first :: _ => negb (Py.startswith "/" first)
  | [] => false
  end.

(** What [cmd_deal] answers: the usage line, or [format_deal_text] of the
    row [get_deal] returned (its text for no row, or the card of the row). *)
Inductive DealAnswer :=
  | Usage                         (* "Использование: /deal 123" *)
  | NoSuchDeal                    (* "Сделка не найдена." *)
  | Card (deal_id : Z) (row : Deal).

(** [None] stands for an exception out of the handler: no text, or the
    [TypeError] of [f"{amount:.2f}"] in [format_deal_text] when the amount
    column of the row is NULL. *)
Definition cmd_deal (m : Message) (w : World) : option DealAnswer :=
  match text m with
  | None => None
  | Some t =>
      let parts := split_whitespace (Py.strip t) in
      match nth_error parts 1 with
      | None => Some Usage
      | Some arg =>
          if negb (Py.isdigit arg) then Some Usage
          else
            match Py.int arg with
            | None => None
            | Some deal_id =>
                match get_deal deal_id w with
                | None => Some NoSuchDeal
                | Some row =>
                    match stored_amount (amount row) with
                    | None => None
                    | Some _ => Some (Card deal_id row)
                    end
                end
            end
      end
  end.

(** ** The allow-list of arbiters *)

(** [[int(x) for x in s.split(",") if x.strip().isdigit()]] over the value
    [s] of the environment variable [ADMIN_IDS] (the empty string when it is
    not set); [None] stands for the [ValueError] of [int]. *)
Definition parse_admin_ids (s : string) : option (list Z) :=
  mapM Py.int
    (filter (fun x => Py.isdigit (Py.strip x) = true) (Py.split "," s)).

(** The separators FS, GS, RS and US: whitespace for [str.strip], not for
    [int]. *)
Definition is_separator (c : ascii) : bool :=
  (28 <=? Py.code c) && (Py.code c <=? 31).

(** ** The builtins on sample inputs, as CPython 3.11 answers *)

Example float_decimal_literals :
  map Py.float ["0.1"; "199.99"; "1500"; " 1.5 "; ".5"; "5."; "1e5"; "1_000"; "-1"]
  = [ Some (S754_finite false 7205759403792794 (-56));
      Some (S754_finite false 7036522574045512 (-45));
      Some (S754_finite false 6597069766656000 (-42));
      Some (S754_finite false 6755399441055744 (-52));
      Some (S754_finite false 4503599627370496 (-53));
      Some (S754_finite false 5629499534213120 (-50));
      Some (S754_finite false 6871947673600000 (-36));
      Some (S754_finite false 8796093022208000 (-43));
      Some (S754_finite true 4503599627370496 (-52)) ].
Proof. vm_compute. reflexivity. Qed.

Example float_rounding :
  map Py.float
    ["9007199254740993"; "9007199254740995"; "1.7976931348623157e308";
     "1.7976931348623159e308"; "1e400"; "2.5e-324"; "2.4e-324"; "1e-400"; "-0"]
  = [ Some (S754_finite false 4503599627370496 1);
      Some (S754_finite false 4503599627370498 1);
      Some (S754_finite false 9007199254740991 971);
      Some (S754_infinity false); Some (S754_infinity false);
      Some (S754_finite false 1 (-1074));
      Some (S754_zero false); Some (S754_zero false); Some (S754_zero true) ].
Proof. vm_compute. reflexivity. Qed.

Example float_special_values :
  map Py.float ["nan"; "NaN"; "-nan"; "inf"; "+Infinity"; "-INF"; " nan "]
  = [ Some S754_nan; Some S754_nan; Some S754_nan; Some (S754_infinity false);
      Some (S754_infinity false); Some (S754_infinity true); Some S754_nan ].
Proof. vm_compute. reflexivity. Qed.

Example float_value_errors :
  map Py.float
    ["abc"; "1.5.2"; "1e"; "1e+"; "."; "+"; "- 1"; "1 2"; "0x10"; "infinit";
     "1__0"; "_1"; "1_"; "1._5"; "1_.5"; "1e_5"; "12 руб"]
  = repeat None 17.
Proof. vm_compute. reflexivity. Qed.

Example int_examples :
  map Py.int ["7"; " 7 "; "007"; "+7"; "-7"; "7_0"; "7a"; " "; "1 2"; "--7"]
  = [Some 7; Some 7; Some 7; Some 7; Some (-7); Some 70; None; None; None; None].
Proof. vm_compute. reflexivity. Qed.

Example split_examples :
  map (Py.split "_") ["seller_accept_12"; "adm_"; "a__b"; "x"]
  = [["seller"; "accept"; "12"]; ["adm"; EmptyString];
     ["a"; EmptyString; "b"]; ["x"]].
Proof. vm_compute. reflexivity. Qed.

Example strip_examples :
  map Py.strip [" 42 "; "two words "; "   "] = ["42"; "two words"; EmptyString].
Proof. vm_compute. reflexivity. Qed.

(** ** The scenarios of the spec on the model *)

Example scenario_happy_path :
  status_of 1 (run [9] open_deal empty_world) = Some STATUS_AWAIT_SELLER_CONFIRM ∧
  status_of 1 (run [9] (open_deal ++ [taps 2 "seller_accept_1"]) empty_world)
    = Some STATUS_AWAIT_PAYMENT ∧
  status_of 1 (run [9] paid_deal empty_world) = Some STATUS_PAID_WAIT_DELIVERY ∧
  status_of 1 (run [9] (paid_deal ++ [taps 2 "deal_sent_1"]) empty_world)
    = Some STATUS_WAIT_BUYER_CONFIRM ∧
  status_of 1 (run [9] completed_deal empty_world) = Some STATUS_COMPLETED ∧
  length (logs (run [9] completed_deal empty_world)) = 5%nat.
Proof. vm_compute. repeat split. Qed.

Example scenario_cancel :
  let w := run [9] (open_deal ++ [taps 2 "seller_accept_1"; taps 1 "deal_cancel_1"])
             empty_world in
  status_of 1 w = Some STATUS_CANCELLED ∧
  handle [9] noon (UCallback (mkCall 2 "deal_sent_1")) w = (w, InvalidState).
Proof. vm_compute. repeat split. Qed.

Example scenario_dispute :
  let w := run [9] (paid_deal ++ [says 2 "the goods"; taps 1 "buyer_dispute_1"])
             empty_world in
  status_of 1 w = Some STATUS_DISPUTE ∧
  (handle [9] noon (UCallback (mkCall 2 "adm_partial_1")) w).2 = Unauthorized ∧
  (handle [9] noon (UCallback (mkCall 9 "adm_partial_1")) w).2
    = Committed 1 STATUS_RESOLVED_PARTIAL ∧
  (handle [9] noon (UCallback (mkCall 9 "adm_refund_1")) w).2 = UnknownAction.
Proof. vm_compute. repeat split. Qed.

(** [/cancel] never reaches [cmd_cancel]: the catch-all registered before it
    takes the message, and the session stays. *)
Example cancel_is_shadowed :
  let w := run [] [taps 7 "menu_new_deal"; says 7 "5"; says 7 "10"; says 7 "thing"]
             empty_world in
  let r := handle [] noon
             (UMessage (mkMessage 7 (Some "/cancel") None (Some "cancel"))) w in
  r.2 = NotUnderstood ∧ get_state 7 r.1 = Some STATE_NEW_DEAL_CONFIRM.
Proof. vm_compute. repeat split. Qed.

(** ** Basic facts about the store *)

Lemma prefix_inv p s : String.prefix p s = true → ∃ r, s = p +:+ r.
Proof.
  revert s. induction p as [|a p IH]; intros s H.
  - exists s. reflexivity.
  - destruct s as [|b s]; simpl in H; [discriminate|].
    destruct (ascii_dec a b) as [->|]; [|discriminate].
    destruct (IH _ H) as [r ->]. exists r. reflexivity.
Qed.

Lemma prefix_append p r : String.prefix p (p +:+ r) = true.
Proof.
  induction p as [|a p IH]; simpl.
  - by destruct r.
  - destruct (ascii_dec a a); [exact IH | congruence].
Qed.

Lemma alter_present {A} (f : A → A) (m : gmap Z A) i x :
  m !! i = Some x → alter f i m = <[i := f x]> m.
Proof.
  intros H. rewrite <- (insert_id m i x H) at 1. apply alter_insert_eq.
Qed.

Lemma max_id_bound (ds : gmap Z Deal) :
  0 ≤ map_fold (fun k _ acc => Z.max k acc) 0 ds ∧
  ∀ k, is_Some (ds !! k) → k ≤ map_fold (fun k _ acc => Z.max k acc) 0 ds.
Proof.
  apply (map_fold_weak_ind
           (fun r (m : gmap Z Deal) => 0 ≤ r ∧ ∀ k, is_Some (m !! k) → k ≤ r)).
  - split; [lia|]. intros k [x Hx]. by rewrite lookup_empty in Hx.
  - intros i x m r Hi [Hr IH]. split; [lia|].
    intros k Hk. rewrite lookup_insert in Hk. case_decide; [lia|].
    specialize (IH k Hk). lia.
Qed.

Lemma next_deal_id_fresh (ds : gmap Z Deal) : ds !! next_deal_id ds = None.
Proof.
  destruct (ds !! next_deal_id ds) eqn:E; [|done].
  destruct (max_id_bound ds) as [_ H].
  specialize (H (next_deal_id ds) (mk_is_Some _ _ E)).
  unfold next_deal_id in H. lia.
Qed.

Lemma next_deal_id_positive (ds : gmap Z Deal) : 0 < next_deal_id ds.
Proof. destruct (max_id_bound ds) as [H _]. unfold next_deal_id. lia. Qed.

(** The query returns a row of the table that matches the WHERE clause, no
    matching row has a greater id, and it returns nothing only when no row
    matches. *)
Lemma latest_inv seller (ds : gmap Z Deal) :
  match map_fold (keep_latest seller) None ds with
  | Some (id, d) =>
      ds !! id = Some d ∧ seller_id d = seller ∧
      status d = STATUS_PAID_WAIT_DELIVERY ∧
      ∀ k x, ds !! k = Some x → seller_id x = seller →
             status x = STATUS_PAID_WAIT_DELIVERY → k ≤ id
  | None =>
      ∀ k x, ds !! k = Some x → seller_id x = seller →
             status x = STATUS_PAID_WAIT_DELIVERY → False
  end.
Proof.
  apply (map_fold_weak_ind
    (fun r (m : gmap Z Deal) =>
       match r with
       | Some (id, d) =>
           m !! id = Some d ∧ seller_id d = seller ∧
           status d = STATUS_PAID_WAIT_DELIVERY ∧
           ∀ k x, m !! k = Some x → seller_id x = seller →
                  status x = STATUS_PAID_WAIT_DELIVERY → k ≤ id
       | None =>
           ∀ k x, m !! k = Some x → seller_id x = seller →
                  status x = STATUS_PAID_WAIT_DELIVERY → False
       end)).
  - intros k x Hk. by rewrite lookup_empty in Hk.
  - intros i x m r Hi IH. unfold keep_latest.
    destruct (bool_decide (seller_id x = seller)) eqn:E1; simpl;
      [destruct (bool_decide (status x = STATUS_PAID_WAIT_DELIVERY)) eqn:E2|];
      simpl.
    + apply bool_decide_eq_true_1 in E1, E2.
      destruct r as [[k' d']|].
      * destruct IH as (Hk' & Hs & Hst & Hmax).
        assert (k' ≠ i) by (intros ->; congruence).
        destruct (k' <? i) eqn:Hlt.
        -- apply Z.ltb_lt in Hlt. rewrite lookup_insert_eq.
           repeat split; try done. intros k y Hk Hy1 Hy2.
           rewrite lookup_insert in Hk. case_decide; [lia|].
           specialize (Hmax k y Hk Hy1 Hy2). lia.
        -- apply Z.ltb_ge in Hlt. rewrite lookup_insert_ne by done.
           repeat split; try done. intros k y Hk Hy1 Hy2.
           rewrite lookup_insert in Hk. case_decide; [lia|]. eauto.
      * rewrite lookup_insert_eq. repeat split; try done.
        intros k y Hk Hy1 Hy2. rewrite lookup_insert in Hk.
        case_decide; [lia|]. exfalso. eauto.
    + apply bool_decide_eq_false_1 in E2.
      destruct r as [[k' d']|].
      * destruct IH as (Hk' & Hs & Hst & Hmax).
        assert (k' ≠ i) by (intros ->; congruence).
        rewrite lookup_insert_ne by done. repeat split; try done.
        intros k y Hk Hy1 Hy2. rewrite lookup_insert in Hk.
        case_decide; [congruence | eauto].
      * intros k y Hk Hy1 Hy2. rewrite lookup_insert in Hk.
        case_decide; [congruence | eauto].
    + apply bool_decide_eq_false_1 in E1.
      destruct r as [[k' d']|].
      * destruct IH as (Hk' & Hs & Hst & Hmax).
        assert (k' ≠ i) by (intros ->; congruence).
        rewrite lookup_insert_ne by done. repeat split; try done.
        intros k y Hk Hy1 Hy2. rewrite lookup_insert in Hk.
        case_decide; [congruence | eauto].
      * intros k y Hk Hy1 Hy2. rewrite lookup_insert in Hk.
        case_decide; [congruence | eauto].
Qed.

Lemma latest_spec seller w id d :
  get_latest_paid_waiting_deal_for_seller seller w = Some (id, d) →
  deals w !! id = Some d ∧ seller_id d = seller ∧
  status d = STATUS_PAID_WAIT_DELIVERY.
Proof.
  unfold get_latest_paid_waiting_deal_for_seller. intros H.
  pose proof (latest_inv seller (deals w)) as I. rewrite H in I. tauto.
Qed.

Lemma set_state_deals user st w : deals (set_state user st w) = deals w.
Proof. by destruct st. Qed.

Lemma set_state_logs user st w : logs (set_state user st w) = logs w.
Proof. by destruct st. Qed.

Lemma not_ne {A} `{EqDecision A} (a b : A) : ¬ a ≠ b → a = b.
Proof. intros H. by destruct (decide (a = b)). Qed.

Lemma dispatch_all {A} (Q : World * Outcome → Prop) (hs : list (Handler A))
    clk a w :
  Q (w, Unhandled) →
  (∀ f h, (f, h) ∈ hs → Q (h clk a w)) →
  Q (dispatch hs clk a w).
Proof.
  intros Hq. induction hs as [|[f h] hs IH]; intros H; simpl; [done|].
  destruct (f a w).
  - apply (H f h). apply list_elem_of_here.
  - apply IH. intros f' h' Hin. apply (H f' h'). by apply list_elem_of_further.
Qed.

(** ** What a handled update commits *)

Ltac in_table :=
  unfold transition_table;
  repeat first [ apply list_elem_of_here | apply list_elem_of_further ].

Ltac party_effect role st :=
  intros; unfold get_deal;
  repeat match goal with
    | |- context [deal_id_of ?s] => destruct (deal_id_of s) as [?|] eqn:?
    | |- context [deals ?w !! ?i] => destruct (deals w !! i) as [?|] eqn:?
    | |- context [bool_decide ?P] => destruct (bool_decide_reflect P)
    end; simpl; try (by apply NoCommit);
  repeat match goal with H : ¬ _ ≠ _ |- _ => apply not_ne in H end;
  eapply (Transition _ _ _ _ _ _ _ role st); simpl;
  [ eassumption
  | match goal with H : status _ = _ |- _ => rewrite H end; in_table
  | done
  | by apply alter_present
  | reflexivity ].

Lemma cb_seller_accept_effect admins clk c w :
  Effect admins clk (call_from c) w (cb_seller_accept clk c w).1.
Proof. unfold cb_seller_accept. party_effect Seller STATUS_AWAIT_PAYMENT. Qed.

Lemma cb_seller_reject_effect admins clk c w :
  Effect admins clk (call_from c) w (cb_seller_reject clk c w).1.
Proof. unfold cb_seller_reject. party_effect Seller STATUS_REJECTED_BY_SELLER. Qed.

Lemma cb_deal_paid_effect admins clk c w :
  Effect admins clk (call_from c) w (cb_deal_paid clk c w).1.
Proof. unfold cb_deal_paid. party_effect Buyer STATUS_PAID_WAIT_DELIVERY. Qed.

Lemma cb_deal_cancel_effect admins clk c w :
  Effect admins clk (call_from c) w (cb_deal_cancel clk c w).1.
Proof. unfold cb_deal_cancel. party_effect Buyer STATUS_CANCELLED. Qed.

Lemma cb_deal_sent_effect admins clk c w :
  Effect admins clk (call_from c) w (cb_deal_sent clk c w).1.
Proof. unfold cb_deal_sent. party_effect Seller STATUS_WAIT_BUYER_CONFIRM. Qed.

Lemma cb_buyer_ok_effect admins clk c w :
  Effect admins clk (call_from c) w (cb_buyer_ok clk c w).1.
Proof. unfold cb_buyer_ok. party_effect Buyer STATUS_COMPLETED. Qed.

Lemma cb_buyer_dispute_effect admins clk c w :
  Effect admins clk (call_from c) w (cb_buyer_dispute clk c w).1.
Proof. unfold cb_buyer_dispute. party_effect Buyer STATUS_DISPUTE. Qed.

Lemma cb_admin_dispute_effect admins clk c w :
  Effect admins clk (call_from c) w (cb_admin_dispute admins clk c w).1.
Proof.
  unfold cb_admin_dispute, is_admin, get_deal.
  destruct (bool_decide_reflect (call_from c ∈ admins)) as [Hadm|];
    cbn [negb]; [|by apply NoCommit].
  destruct (nth_error (Py.split "_" (data c)) 1) as [action|];
    [|by apply NoCommit].
  destruct (Py.int _) as [id|]; [|by apply NoCommit].
  destruct (deals w !! id) as [d|] eqn:Hd; [|by apply NoCommit].
  destruct (bool_decide_reflect (status d ≠ STATUS_DISPUTE)) as [|Hst];
    [by apply NoCommit|].
  apply not_ne in Hst.
  destruct (resolution action (call_from c)) as [[st a]|] eqn:Hr;
    [|by apply NoCommit].
  simpl. eapply (Transition _ _ _ _ _ id d Arbiter st a); simpl;
    [done| |done|by apply alter_present|done].
  rewrite Hst. unfold resolution in Hr.
  repeat case_bool_decide; simplify_eq; in_table.
Qed.

Lemma fallback_or_delivery_effect admins clk m w :
  Effect admins clk (from_user m) w (fallback_or_delivery_handler clk m w).1.
Proof.
  unfold fallback_or_delivery_handler.
  destruct (_ && _); [by apply NoCommit|].
  destruct (get_latest_paid_waiting_deal_for_seller _ _) as [[id d]|] eqn:Hq.
  - apply latest_spec in Hq as (Hd & Hs & Hst). simpl.
    eapply (Transition _ _ _ _ _ id d Seller STATUS_WAIT_BUYER_CONFIRM); simpl;
      [done| |done|by apply alter_present|done].
    rewrite Hst. in_table.
  - destruct (get_state _ _) as [st|]; [destruct (Py.str_truthy st)|];
      by apply NoCommit.
Qed.

Lemma cb_new_deal_confirm_effect admins clk c w :
  Effect admins clk (call_from c) w (cb_new_deal_confirm clk c w).1.
Proof.
  unfold cb_new_deal_confirm.
  case_bool_decide; [by apply NoCommit|].
  case_bool_decide; [apply NoCommit; simpl; done|].
  destruct (user_temp w !! call_from c) as [[[sid|] [amt|] [descr|]]|] eqn:Ht;
    simpl; try (by apply NoCommit).
  destruct (Py.int_truthy sid) eqn:Hsid; simpl; [|by apply NoCommit].
  destruct (Py.float_truthy amt); simpl; [|by apply NoCommit].
  destruct (Py.str_truthy descr); simpl; [|by apply NoCommit].
  eapply (Creation _ _ _ _ _ (next_deal_id (deals w)) sid amt descr); simpl;
    try done.
  - apply next_deal_id_fresh.
  - unfold Py.int_truthy in Hsid. intros ->. discriminate.
Qed.

Lemma wizard_steps_effect admins clk m w :
  Effect admins clk (from_user m) w (new_deal_step_seller m w).1 ∧
  Effect admins clk (from_user m) w (new_deal_step_amount m w).1 ∧
  Effect admins clk (from_user m) w (new_deal_step_description m w).1.
Proof.
  unfold new_deal_step_seller, new_deal_step_amount, new_deal_step_description.
  repeat split;
    repeat match goal with
      | |- context [match ?x with _ => _ end] => destruct x
      end; by apply NoCommit.
Qed.

Lemma handle_effect admins clk u w :
  Effect admins clk (sender u) w (handle admins clk u w).1.
Proof.
  destruct u as [m|c]; cbn [handle sender].
  - apply (dispatch_all (fun r => Effect admins clk (from_user m) w r.1));
      [by apply NoCommit|].
    intros f h Hin. unfold message_handlers in Hin.
    destruct (wizard_steps_effect admins clk m w) as (H1 & H2 & H3).
    repeat (apply elem_of_cons in Hin as [[= -> ->]|Hin];
            [first [ by apply NoCommit | done
                   | apply fallback_or_delivery_effect ]|]).
    by apply elem_of_nil in Hin.
  - apply (dispatch_all (fun r => Effect admins clk (call_from c) w r.1));
      [by apply NoCommit|].
    intros f h Hin. unfold callback_handlers in Hin.
    repeat (apply elem_of_cons in Hin as [[= -> ->]|Hin];
            [first [ by apply NoCommit
                   | apply cb_new_deal_confirm_effect
                   | apply cb_seller_accept_effect
                   | apply cb_seller_reject_effect
                   | apply cb_deal_paid_effect
                   | apply cb_deal_cancel_effect
                   | apply cb_deal_sent_effect
                   | apply cb_buyer_ok_effect
                   | apply cb_buyer_dispute_effect
                   | apply cb_admin_dispute_effect ]|]).
    by apply elem_of_nil in Hin.
Qed.

(** ** The transition table *)

Lemma table_sources_not_terminal s r st :
  (s, r, st) ∈ transition_table → s ∈ terminal_statuses → False.
Proof.
  unfold transition_table, terminal_statuses.
  rewrite !elem_of_cons, !elem_of_nil.
  intros H1 H2. destruct_or!; simplify_eq.
Qed.

Lemma table_no_loop s r st : (s, r, st) ∈ transition_table → s ≠ st.
Proof.
  unfold transition_table. rewrite !elem_of_cons, !elem_of_nil.
  intros H1 H2. destruct_or!; simplify_eq.
Qed.

(** ** C1: the status moves along the table only *)

Lemma step_status admins clk u w id d' :
  deals (handle admins clk u w).1 !! id = Some d' →
  match deals w !! id with
  | Some d =>
      status d' = status d ∨
      ∃ r, (status d, r, status d') ∈ transition_table ∧
           holds_role admins (sender u) d r
  | None =>
      status d' = STATUS_AWAIT_SELLER_CONFIRM ∧ buyer_id d' = sender u
  end.
Proof.
  intros H.
  destruct (handle_effect admins clk u w)
    as [Hd _ | i d r st a Hi Hrow Hrole Hd _ | i sid amt descr Hi _ _ Hd _];
    rewrite Hd in H.
  - rewrite H. by left.
  - rewrite lookup_insert in H. case_decide as Heq.
    + subst i. rewrite Hi. injection H as <-. right. by exists r.
    + rewrite H. by left.
  - rewrite lookup_insert in H. case_decide as Heq.
    + subst i. rewrite Hi. by injection H as <-.
    + rewrite H. by left.
Qed.

(** C1. Along every sequence of handled updates, from any world, one more
    update leaves the status of a deal as it is or moves it along a row of the
    transition table whose actor role the sender holds (so the handler has
    checked the source status and written the target status of that row); a
    deal that was not there enters in [STATUS_AWAIT_SELLER_CONFIRM] with the
    sender as its buyer. *)
Theorem status_moves_along_table admins us clk u w id d' :
  deals (handle admins clk u (run admins us w)).1 !! id = Some d' →
  match deals (run admins us w) !! id with
  | Some d =>
      status d' = status d ∨
      ∃ r, (status d, r, status d') ∈ transition_table ∧
           holds_role admins (sender u) d r
  | None =>
      status d' = STATUS_AWAIT_SELLER_CONFIRM ∧ buyer_id d' = sender u
  end.
Proof. apply step_status. Qed.

Lemma status_moves_along_table_witness :
  let w := run [9] open_deal empty_world in
  let d' := mkDeal 1 2 (S754_finite false 7036874417766400 (-46)) "x"
              STATUS_AWAIT_PAYMENT (now noon) (now noon) in
  deals (handle [9] noon (UCallback (mkCall 2 "seller_accept_1")) w).1 !! 1
    = Some d' ∧
  match deals w !! 1 with
  | Some d =>
      status d' = status d ∨
      ∃ r, (status d, r, status d') ∈ transition_table ∧
           holds_role [9] (sender (UCallback (mkCall 2 "seller_accept_1"))) d r
  | None =>
      status d' = STATUS_AWAIT_SELLER_CONFIRM ∧
      buyer_id d' = sender (UCallback (mkCall 2 "seller_accept_1"))
  end.
Proof.
  split.
  - vm_compute. reflexivity.
  - apply (status_moves_along_table [9] open_deal noon
             (UCallback (mkCall 2 "seller_accept_1")) empty_world 1).
    vm_compute. reflexivity.
Defined.

(** Rows are never deleted, and only [status] and [updated_at] of a row are
    ever rewritten. *)
Lemma step_keeps_rows admins clk u w id d :
  deals w !! id = Some d →
  ∃ d', deals (handle admins clk u w).1 !! id = Some d' ∧
        buyer_id d' = buyer_id d ∧ seller_id d' = seller_id d ∧
        amount d' = amount d ∧ description d' = description d ∧
        created_at d' = created_at d.
Proof.
  intros H.
  destruct (handle_effect admins clk u w)
    as [Hd _ | i d0 r st a Hi _ _ Hd _ | i sid amt descr Hi _ _ Hd _];
    rewrite Hd.
  - by exists d.
  - rewrite lookup_insert. case_decide as Heq.
    + subst i. rewrite H in Hi. injection Hi as <-. by eexists.
    + by exists d.
  - rewrite lookup_insert. case_decide as Heq; [congruence | by exists d].
Qed.

(** Over a whole run the status follows a path of the table. *)
Lemma run_status_path admins us w id d :
  deals w !! id = Some d →
  ∃ d', deals (run admins us w) !! id = Some d' ∧
        rtc edge (status d) (status d').
Proof.
  revert w d. induction us as [|[clk u] us IH]; intros w d H; simpl.
  - by exists d.
  - destruct (step_keeps_rows admins clk u w id d H) as (d1 & H1 & _).
    pose proof (step_status admins clk u w id d1 H1) as S. rewrite H in S.
    destruct (IH _ _ H1) as (d' & H' & Hp). exists d'. split; [done|].
    destruct S as [E | (r & Hr & _)]; [by rewrite <- E|].
    eapply rtc_l; [by exists r | done].
Qed.

(** ** Routing of button callbacks *)

Ltac route :=
  match goal with
  | H : Py.startswith _ (data ?c) = true |- _ =>
      destruct c as [? ?]; cbn [data call_from] in *;
      apply prefix_inv in H as [? ->]
  end;
  unfold handle, callback_handlers, dispatch, data_equals, data_startswith;
  cbn [data];
  repeat
    (first
       [ rewrite (bool_decide_eq_false_2 _) by (simpl; discriminate)
       | match goal with
         | |- context [Py.startswith ?p (?p +:+ ?r)] =>
             change (Py.startswith p (p +:+ r))
               with (String.prefix p (p +:+ r));
             rewrite (prefix_append p r)
         | |- context [Py.startswith ?p ?s] =>
             change (Py.startswith p s) with false
         end ]; cbv iota).

Ltac not_terminal :=
  let H := fresh in
  intros H; eapply table_sources_not_terminal; [|exact H]; in_table.

(** A seller or buyer button reaches its handler, which has the common
    shape with a source status that is not terminal. *)
Lemma party_route admins clk c w p r :
  (p, r) ∈ button_roles → r ≠ Arbiter →
  Py.startswith p (data c) = true →
  ∃ src dst act,
    handle admins clk (UCallback c) w
      = party_button (party_column r) src dst act clk c w ∧
    src ∉ terminal_statuses.
Proof.
  unfold button_roles. rewrite !elem_of_cons, !elem_of_nil.
  intros Hin Hr Hp. destruct_or!; simplify_eq.
  - exists STATUS_AWAIT_SELLER_CONFIRM, STATUS_AWAIT_PAYMENT, ActSellerAccepted.
    split; [route; reflexivity | not_terminal].
  - exists STATUS_AWAIT_SELLER_CONFIRM, STATUS_REJECTED_BY_SELLER,
      ActSellerRejected.
    split; [route; reflexivity | not_terminal].
  - exists STATUS_AWAIT_PAYMENT, STATUS_PAID_WAIT_DELIVERY, ActBuyerPaid.
    split; [route; reflexivity | not_terminal].
  - exists STATUS_AWAIT_PAYMENT, STATUS_CANCELLED, ActBuyerCancelled.
    split; [route; reflexivity | not_terminal].
  - exists STATUS_PAID_WAIT_DELIVERY, STATUS_WAIT_BUYER_CONFIRM, ActSentByButton.
    split; [route; reflexivity | not_terminal].
  - exists STATUS_WAIT_BUYER_CONFIRM, STATUS_COMPLETED, ActBuyerConfirmed.
    split; [route; reflexivity | not_terminal].
  - exists STATUS_WAIT_BUYER_CONFIRM, STATUS_DISPUTE, ActBuyerDispute.
    split; [route; reflexivity | not_terminal].
Qed.

Lemma admin_route admins clk c w :
  Py.startswith "adm_" (data c) = true →
  handle admins clk (UCallback c) w = cb_admin_dispute admins clk c w.
Proof. intros H. route. reflexivity. Qed.

Lemma confirm_route admins clk c w :
  Py.startswith "new_deal_confirm_" (data c) = true →
  handle admins clk (UCallback c) w = cb_new_deal_confirm clk c w.
Proof. intros H. route. reflexivity. Qed.

Lemma chars_append a b : Py.chars (a +:+ b) = Py.chars a ++ Py.chars b.
Proof. induction a as [|x a IH]; simpl; [done | by rewrite IH]. Qed.

Lemma split_chars_nonempty sep cur l : Py.split_chars sep cur l ≠ [].
Proof.
  revert cur. induction l as [|x l IH]; intros cur; simpl; [done|].
  destruct (Ascii.eqb x sep); [done | apply IH].
Qed.

(** After the prefix [adm_] the split has a second part, so [parts[1]] does
    not raise. *)
Lemma admin_action_exists d :
  Py.startswith "adm_" d = true → is_Some (nth_error (Py.split "_" d) 1).
Proof.
  intros [r ->]%prefix_inv. unfold Py.split. rewrite chars_append. simpl.
  destruct (Py.split_chars "_" [] (Py.chars r)) as [|a l] eqn:E.
  - by apply split_chars_nonempty in E.
  - simpl. by eexists.
Qed.

Lemma party_button_outcomes who src dst act clk c w id :
  deal_id_of (data c) = Some id →
  match deals w !! id with
  | None => party_button who src dst act clk c w = (w, NotFound)
  | Some d =>
      (call_from c ≠ who d →
       party_button who src dst act clk c w = (w, Unauthorized)) ∧
      (call_from c = who d → status d ≠ src →
       party_button who src dst act clk c w = (w, InvalidState))
  end.
Proof.
  intros Hid. unfold party_button, get_deal. rewrite Hid.
  destruct (deals w !! id) as [d|]; [|done]. split.
  - intros H. by rewrite bool_decide_eq_true_2.
  - intros H1 H2. rewrite bool_decide_eq_false_2 by (intros H; by apply H).
    by rewrite bool_decide_eq_true_2.
Qed.

Lemma holds_party_column admins user d r :
  r ≠ Arbiter → holds_role admins user d r ↔ user = party_column r d.
Proof. by destruct r. Qed.

Lemma arbiter_button p : (p, Arbiter) ∈ button_roles → p = "adm_".
Proof.
  unfold button_roles. rewrite !elem_of_cons, !elem_of_nil.
  intros H. destruct_or!; simplify_eq. done.
Qed.

Lemma admin_dispute_outcomes admins clk c w id :
  Py.startswith "adm_" (data c) = true →
  deal_id_of (data c) = Some id →
  (call_from c ∉ admins → cb_admin_dispute admins clk c w = (w, Unauthorized)) ∧
  (call_from c ∈ admins →
   match deals w !! id with
   | None => cb_admin_dispute admins clk c w = (w, NotFound)
   | Some d =>
       status d ≠ STATUS_DISPUTE →
       cb_admin_dispute admins clk c w = (w, InvalidState)
   end).
Proof.
  intros Hp Hid. unfold cb_admin_dispute, is_admin, get_deal. split.
  - intros H. by rewrite bool_decide_eq_false_2.
  - intros H. rewrite bool_decide_eq_true_2 by done. cbn [negb].
    destruct (admin_action_exists _ Hp) as [action ->].
    unfold deal_id_of in Hid. rewrite Hid.
    destruct (deals w !! id) as [d|]; [|done].
    intros Hst. by rewrite bool_decide_eq_true_2.
Qed.

(** ** C6: a sender without the role is turned away *)

(** C6. A button press that asks for a transition of an existing deal, from
    a sender who does not hold the role of that button (the stored buyer for
    the buyer buttons, the stored seller for the seller buttons, the allow-list
    for the arbiter buttons), is answered Unauthorized and the world, with the
    deal's status and [updated_at] and the audit log, is returned unchanged. *)
Theorem wrong_role_is_unauthorized admins clk c w p r id d :
  (p, r) ∈ button_roles →
  Py.startswith p (data c) = true →
  deal_id_of (data c) = Some id →
  deals w !! id = Some d →
  ¬ holds_role admins (call_from c) d r →
  handle admins clk (UCallback c) w = (w, Unauthorized).
Proof.
  intros Hin Hp Hid Hd Hrole.
  destruct (decide (r = Arbiter)) as [->|Hr].
  - apply arbiter_button in Hin as ->. rewrite admin_route by done.
    by apply (admin_dispute_outcomes admins clk c w id).
  - destruct (party_route admins clk c w p r Hin Hr Hp)
      as (src & dst & act & -> & _).
    pose proof (party_button_outcomes (party_column r) src dst act clk c w id Hid)
      as O.
    rewrite Hd in O. apply O. intros E. apply Hrole.
    by apply (holds_party_column admins).
Qed.

Lemma wrong_role_is_unauthorized_witness :
  let w := run [9] open_deal empty_world in
  let c := mkCall 3 "seller_accept_1" in
  (seller_id <$> deals w !! 1) = Some 2 ∧
  handle [9] noon (UCallback c) w = (w, Unauthorized).
Proof.
  split.
  - vm_compute. reflexivity.
  - apply (wrong_role_is_unauthorized [9] noon (mkCall 3 "seller_accept_1")
             (run [9] open_deal empty_world) "seller_accept_" Seller 1
             (mkDeal 1 2 (S754_finite false 7036874417766400 (-46)) "x"
                STATUS_AWAIT_SELLER_CONFIRM (now noon) (now noon))).
    + apply (bool_decide_unpack _). vm_compute. exact I.
    + vm_compute. reflexivity.
    + vm_compute. reflexivity.
    + vm_compute. reflexivity.
    + simpl. lia.
Defined.

(** ** C2: a terminal deal *)

Lemma step_keeps_terminal admins clk u w id d :
  deals w !! id = Some d → status d ∈ terminal_statuses →
  deals (handle admins clk u w).1 !! id = Some d.
Proof.
  intros H Ht.
  destruct (handle_effect admins clk u w)
    as [Hd _ | i d0 r st a Hi Hrow _ Hd _ | i sid amt descr Hi _ _ Hd _];
    rewrite Hd; [done| |].
  - rewrite lookup_insert. case_decide as Heq; [|done].
    subst i. rewrite H in Hi. injection Hi as <-.
    destruct (table_sources_not_terminal _ _ _ Hrow Ht).
  - rewrite lookup_insert. case_decide as Heq; [congruence | done].
Qed.

(** C2, the claim as stated, fails: on the completed deal 1 (buyer 1,
    seller 2) the press of "accept" by user 3 is answered Unauthorized, not
    InvalidState. *)
Lemma terminal_deal_unauthorized_first :
  let w := run [9] completed_deal empty_world in
  let r := handle [9] noon (UCallback (mkCall 3 "seller_accept_1")) w in
  (status <$> deals w !! 1) = Some STATUS_COMPLETED ∧
  r.2 = Unauthorized ∧ r.2 ≠ InvalidState.
Proof. vm_compute. repeat split. discriminate. Qed.

(** C2, amended. Once a deal has a terminal status its row never changes
    again, whatever updates follow; every button press that names it is
    rejected without a change: as InvalidState when the sender holds the role
    of the button, as Unauthorized when not. *)
Theorem terminal_deal_is_frozen admins us clk c w id d :
  deals w !! id = Some d →
  status d ∈ terminal_statuses →
  deals (run admins us w) !! id = Some d ∧
  ∀ p r, (p, r) ∈ button_roles →
         Py.startswith p (data c) = true →
         deal_id_of (data c) = Some id →
         (holds_role admins (call_from c) d r →
          handle admins clk (UCallback c) w = (w, InvalidState)) ∧
         (¬ holds_role admins (call_from c) d r →
          handle admins clk (UCallback c) w = (w, Unauthorized)).
Proof.
  intros Hd Ht. split.
  - revert w Hd. induction us as [|[k u] us IH]; intros w Hd; simpl; [done|].
    apply IH. by apply step_keeps_terminal.
  - intros p r Hin Hp Hid. split.
    + intros Hrole. destruct (decide (r = Arbiter)) as [->|Hr].
      * apply arbiter_button in Hin as ->. rewrite admin_route by done.
        pose proof (admin_dispute_outcomes admins clk c w id Hp Hid) as [_ O].
        specialize (O Hrole). rewrite Hd in O. apply O.
        intros E. rewrite E in Ht. revert Ht. not_terminal.
      * destruct (party_route admins clk c w p r Hin Hr Hp)
          as (src & dst & act & -> & Hsrc).
        pose proof (party_button_outcomes (party_column r) src dst act clk c w
                      id Hid) as O.
        rewrite Hd in O. apply O; [by apply (holds_party_column admins)|].
        by intros <-.
    + intros Hrole.
      destruct (decide (r = Arbiter)) as [->|Hr].
      * apply arbiter_button in Hin as ->. rewrite admin_route by done.
        by apply (admin_dispute_outcomes admins clk c w id).
      * destruct (party_route admins clk c w p r Hin Hr Hp)
          as (src & dst & act & -> & _).
        pose proof (party_button_outcomes (party_column r) src dst act clk c w
                      id Hid) as O.
        rewrite Hd in O. apply O. intros E. apply Hrole.
        by apply (holds_party_column admins).
Qed.

Lemma terminal_deal_is_frozen_witness :
  let w := run [9] completed_deal empty_world in
  let d := mkDeal 1 2 (S754_finite false 7036874417766400 (-46)) "x"
             STATUS_COMPLETED (now noon) (now noon) in
  let c := mkCall 2 "deal_sent_1" in
  deals w !! 1 = Some d ∧
  deals (run [9] [taps 9 "adm_buyer_1"; says 2 "here it is"] w) !! 1 = Some d ∧
  ∀ p r, (p, r) ∈ button_roles →
         Py.startswith p (data c) = true →
         deal_id_of (data c) = Some 1 →
         (holds_role [9] (call_from c) d r →
          handle [9] noon (UCallback c) w = (w, InvalidState)) ∧
         (¬ holds_role [9] (call_from c) d r →
          handle [9] noon (UCallback c) w = (w, Unauthorized)).
Proof.
  split; [vm_compute; reflexivity|].
  apply (terminal_deal_is_frozen [9] [taps 9 "adm_buyer_1"; says 2 "here it is"]
           noon (mkCall 2 "deal_sent_1") (run [9] completed_deal empty_world) 1).
  - vm_compute. reflexivity.
  - apply (bool_decide_unpack _). vm_compute. exact I.
Defined.

(** ** C7: a deal id that is not in the table *)

(** C7, the claim as stated, fails: with arbiters [9], the press of
    "adm_buyer_99" by user 3 on a store without deal 99 is answered
    Unauthorized, not NotFound. *)
Lemma missing_deal_non_arbiter :
  let r := handle [9] noon (UCallback (mkCall 3 "adm_buyer_99")) empty_world in
  deal_id_of "adm_buyer_99" = Some 99 ∧
  deals empty_world !! 99 = None ∧
  r.2 = Unauthorized ∧ r.2 ≠ NotFound.
Proof. vm_compute. repeat split. discriminate. Qed.

(** C7, amended. A button press that names a deal id absent from the table
    and within the range of integers the lookup can bind is answered NotFound
    for every sender on the seller and buyer buttons, and on the arbiter
    buttons for a sender on the allow-list; an arbiter button pressed by
    anyone else is answered Unauthorized before the deal is looked up,
    whatever the id.  The world is unchanged in both cases. *)
Theorem missing_deal_answer admins clk c w p r id :
  (p, r) ∈ button_roles →
  Py.startswith p (data c) = true →
  deal_id_of (data c) = Some id →
  deals w !! id = None →
  (r ≠ Arbiter ∨ call_from c ∈ admins →
   sqlite_integer id →
   handle admins clk (UCallback c) w = (w, NotFound)) ∧
  (r = Arbiter → call_from c ∉ admins →
   handle admins clk (UCallback c) w = (w, Unauthorized)).
Proof.
  intros Hin Hp Hid Hd.
  destruct (decide (r = Arbiter)) as [->|Hr].
  - apply arbiter_button in Hin as ->. rewrite admin_route by done.
    pose proof (admin_dispute_outcomes admins clk c w id Hp Hid) as [O1 O2].
    rewrite Hd in O2. split; [|auto]. intros [?|?] _; [done | auto].
  - destruct (party_route admins clk c w p r Hin Hr Hp)
      as (src & dst & act & -> & _).
    pose proof (party_button_outcomes (party_column r) src dst act clk c w id Hid)
      as O.
    rewrite Hd in O. split; [done | by intros ->].
Qed.

Lemma missing_deal_answer_witness :
  let c := mkCall 3 "deal_paid_99" in
  let c' := mkCall 3 "adm_partial_99" in
  deals empty_world !! 99 = None ∧
  handle [9] noon (UCallback c) empty_world = (empty_world, NotFound) ∧
  handle [9] noon (UCallback c') empty_world = (empty_world, Unauthorized).
Proof.
  split; [reflexivity|]. split.
  - apply (missing_deal_answer [9] noon (mkCall 3 "deal_paid_99") empty_world
             "deal_paid_" Buyer 99).
    + apply (bool_decide_unpack _). vm_compute. exact I.
    + vm_compute. reflexivity.
    + vm_compute. reflexivity.
    + reflexivity.
    + left. discriminate.
    + unfold sqlite_integer. lia.
  - apply (missing_deal_answer [9] noon (mkCall 3 "adm_partial_99") empty_world
             "adm_" Arbiter 99).
    + apply (bool_decide_unpack _). vm_compute. exact I.
    + vm_compute. reflexivity.
    + vm_compute. reflexivity.
    + reflexivity.
    + reflexivity.
    + apply (bool_decide_unpack _). vm_compute. exact I.
Defined.

(** ** C3: the two parties of an inserted deal *)

(** C3, the claim as stated, fails: user 7 gives the id 7 at the seller step
    and confirms; deal 1 is inserted with buyer 7 and seller 7. *)
Lemma self_deal_is_inserted :
  ∃ d, deals (run [] self_deal empty_world) !! 1 = Some d ∧
       buyer_id d = 7 ∧ seller_id d = 7 ∧ ¬ buyer_id d ≠ seller_id d.
Proof.
  eexists. split; [vm_compute; reflexivity|]. simpl. repeat split. intros H.
  by apply H.
Qed.

(** C3, amended. Every deal that enters the table has the sender of the
    confirming update as its buyer and, as its seller, the identity stored in
    that sender's session, which is not zero; the two are not compared. *)
Theorem inserted_deal_parties admins clk u w id d' :
  deals w !! id = None →
  deals (handle admins clk u w).1 !! id = Some d' →
  buyer_id d' = sender u ∧ seller_id d' ≠ 0 ∧
  ∃ tmp, user_temp w !! sender u = Some tmp ∧
         temp_seller_id tmp = Some (seller_id d').
Proof.
  intros Hn H.
  destruct (handle_effect admins clk u w)
    as [Hd _ | i d r st a Hi _ _ Hd _ | i sid amt descr Hi Ht Hs Hd _];
    rewrite Hd in H.
  - congruence.
  - rewrite lookup_insert in H. case_decide; congruence.
  - rewrite lookup_insert in H. case_decide; [|congruence].
    injection H as <-. simpl. repeat split; [done|]. by eexists.
Qed.

Lemma inserted_deal_parties_witness :
  let w := run [] [taps 7 "menu_new_deal"; says 7 "7"; says 7 "10"; says 7 "thing"]
             empty_world in
  let u := UCallback (mkCall 7 "new_deal_confirm_yes") in
  let d' := mkDeal 7 7 (S754_finite false 5629499534213120 (-49)) "thing"
              STATUS_AWAIT_SELLER_CONFIRM (now noon) (now noon) in
  deals w !! 1 = None ∧
  deals (handle [] noon u w).1 !! 1 = Some d' ∧
  buyer_id d' = sender u ∧ seller_id d' ≠ 0 ∧
  ∃ tmp, user_temp w !! sender u = Some tmp ∧
         temp_seller_id tmp = Some (seller_id d').
Proof.
  split; [vm_compute; reflexivity|]. split; [vm_compute; reflexivity|].
  apply (inserted_deal_parties [] noon
           (UCallback (mkCall 7 "new_deal_confirm_yes"))
           (run [] [taps 7 "menu_new_deal"; says 7 "7"; says 7 "10";
                    says 7 "thing"] empty_world) 1).
  - vm_compute. reflexivity.
  - vm_compute. reflexivity.
Defined.

(** ** C9: one audit row per committed change *)

(** C9. A handled update either leaves the deals table and the audit log as
    they were, or writes one deal row whose status is new for that id (a
    transition, or the creation of the deal) and appends exactly one row to
    the audit log, with that deal's id, an action text and the clock reading
    of [log_action]. *)
Theorem one_log_row_per_commit admins clk u w :
  let w' := (handle admins clk u w).1 in
  (deals w' = deals w ∧ logs w' = logs w) ∨
  ∃ id d' a,
    deals w' = <[id := d']> (deals w) ∧
    (status <$> deals w !! id) ≠ Some (status d') ∧
    logs w' = logs w ++ [mkLog id a (log_now clk)].
Proof.
  simpl.
  destruct (handle_effect admins clk u w)
    as [Hd Hl | i d r st a Hi Hrow _ Hd Hl | i sid amt descr Hi _ _ Hd Hl].
  - by left.
  - right. eexists i, _, a. split; [exact Hd|]. split; [|done].
    rewrite Hi. simpl. intros [= E]. by apply table_no_loop in Hrow.
  - right. eexists i, _, _. split; [exact Hd|]. split; [|done].
    by rewrite Hi.
Qed.

(** ** C4: starting the wizard again *)

Lemma menu_route admins clk c w :
  data c = "menu_new_deal" →
  handle admins clk (UCallback c) w = cb_menu_new_deal c w.
Proof.
  intros H. unfold handle, callback_handlers, dispatch, data_equals.
  by rewrite bool_decide_eq_true_2.
Qed.

(** C4, the claim as stated, fails: user 7 gives seller 5 and amount 10,
    then presses "new deal" again; the field map of 7 still holds both. *)
Lemma restart_keeps_old_fields :
  let w := run [] restarted empty_world in
  get_state 7 w = Some STATE_NEW_DEAL_SELLER ∧
  user_temp w !! 7
    = Some (mkTemp (Some 5) (Some (S754_finite false 5629499534213120 (-49)))
              None).
Proof. vm_compute. split; reflexivity. Qed.

(** C4, amended. The "new deal" menu action puts the sender at the first
    step and keeps the sender's field map as it was; only a sender without a
    field map gets an empty one.  The store and the sessions of the other
    users are untouched. *)
Theorem new_deal_keeps_fields admins clk c w :
  data c = "menu_new_deal" →
  let w' := (handle admins clk (UCallback c) w).1 in
  get_state (call_from c) w' = Some STATE_NEW_DEAL_SELLER ∧
  user_temp w' !! call_from c
    = Some (default empty_temp (user_temp w !! call_from c)) ∧
  (∀ other, other ≠ call_from c →
     get_state other w' = get_state other w ∧
     user_temp w' !! other = user_temp w !! other) ∧
  deals w' = deals w ∧ logs w' = logs w.
Proof.
  intros H. rewrite menu_route by done.
  unfold cb_menu_new_deal, get_state. simpl. repeat split.
  - by rewrite lookup_insert_eq.
  - destruct (user_temp w !! call_from c) eqn:E; simpl;
      [done | by rewrite lookup_insert_eq].
  - by rewrite lookup_insert_ne.
  - destruct (user_temp w !! call_from c) eqn:E; simpl;
      [done | by rewrite lookup_insert_ne].
Qed.

Lemma new_deal_keeps_fields_witness :
  let w := run [] [taps 7 "menu_new_deal"; says 7 "5"; says 7 "10"] empty_world in
  let w' := (handle [] noon (UCallback (mkCall 7 "menu_new_deal")) w).1 in
  get_state 7 w = Some STATE_NEW_DEAL_DESCRIPTION ∧
  get_state 7 w' = Some STATE_NEW_DEAL_SELLER ∧
  user_temp w' !! 7 = Some (default empty_temp (user_temp w !! 7)).
Proof.
  split; [vm_compute; reflexivity|].
  pose proof (new_deal_keeps_fields [] noon (mkCall 7 "menu_new_deal")
                (run [] [taps 7 "menu_new_deal"; says 7 "5"; says 7 "10"]
                   empty_world) eq_refl) as (H1 & H2 & _).
  split; [exact H1 | exact H2].
Defined.

(** ** Stale fields of a restarted session *)

Lemma agree_refl st o : agree st o o.
Proof. destruct o; simpl; auto. Qed.

(** Both worlds split into the shared part and the two field maps. *)
Ltac sim_start :=
  let ds := fresh "ds" in let ls := fresh "ls" in
  let sts := fresh "sts" in let ut := fresh "ut" in let ut' := fresh "ut'" in
  let Ho := fresh "Ho" in let Ha := fresh "Ha" in
  intros [ds ls sts ut] [? ? ? ut'] (? & ? & ? & Ho & Ha); simpl in *; subst.

Ltac sim_goal :=
  unfold Sim; simpl; repeat split; try done;
  try match goal with
    | |- ∀ y, _ ≠ _ → _ =>
        let y := fresh "y" in let Hy := fresh "Hy" in
        intros y Hy; rewrite ?lookup_insert, ?lookup_delete;
        repeat case_decide; subst; try done; auto
    | |- agree _ _ _ =>
        rewrite ?lookup_insert, ?lookup_delete;
        repeat case_decide; try done; simpl; auto using agree_refl
    end.

Lemma sim_step_seller X m w w' :
  Sim X w w' →
  get_state (from_user m) w = Some STATE_NEW_DEAL_SELLER →
  Sim X (new_deal_step_seller m w).1 (new_deal_step_seller m w').1 ∧
  (new_deal_step_seller m w).2 = (new_deal_step_seller m w').2.
Proof.
  intros HS. pose proof HS as HS'. revert w w' HS HS'. sim_start.
  intros HS Hst. unfold get_state in Hst. simpl in Hst.
  unfold new_deal_step_seller. simpl.
  set (seller := match forward_from m with Some fwd => Some fwd | None => _ end).
  destruct seller as [sid|]; [|done].
  destruct (Py.int_truthy sid); simpl; [|done].
  destruct (decide (from_user m = X)) as [EX|Hne]; [rewrite EX in *|].
  - unfold agree in Ha.
    destruct (ut !! X) as [t|] eqn:E, (ut' !! X) as [t'|] eqn:E';
      simpl; try done.
    rewrite !lookup_insert_eq. simpl. split; [|done]. sim_goal.
  - rewrite (Ho _ Hne).
    destruct (ut !! from_user m) as [t|] eqn:E; simpl; [|done].
    rewrite !lookup_insert_eq. simpl. split; [|done]. sim_goal.
Qed.

Lemma sim_step_amount X m w w' :
  Sim X w w' →
  get_state (from_user m) w = Some STATE_NEW_DEAL_AMOUNT →
  Sim X (new_deal_step_amount m w).1 (new_deal_step_amount m w').1 ∧
  (new_deal_step_amount m w).2 = (new_deal_step_amount m w').2.
Proof.
  intros HS. pose proof HS as HS'. revert w w' HS HS'. sim_start.
  intros HS Hst. unfold get_state in Hst. simpl in Hst.
  unfold new_deal_step_amount. simpl.
  destruct (Py.float _) as [amt|]; [|done].
  destruct (Py.float_le_zero amt); simpl; [done|].
  destruct (decide (from_user m = X)) as [EX|Hne]; [rewrite EX in *|].
  - unfold agree in Ha. rewrite Hst in Ha.
    destruct (ut !! X) as [t|] eqn:E, (ut' !! X) as [t'|] eqn:E';
      simpl; try done.
    rewrite !lookup_insert_eq. simpl. split; [|done].
    assert (temp_seller_id t = temp_seller_id t') as Es
      by (destruct Ha as [?|[[_ ?]|[[? _]|?]]]; simplify_eq; done).
    sim_goal. right. right. left. by rewrite Es.
  - rewrite (Ho _ Hne).
    destruct (ut !! from_user m) as [t|] eqn:E; simpl; [|done].
    rewrite !lookup_insert_eq. simpl. split; [|done]. sim_goal.
Qed.

Lemma sim_step_description X m w w' :
  Sim X w w' →
  get_state (from_user m) w = Some STATE_NEW_DEAL_DESCRIPTION →
  Sim X (new_deal_step_description m w).1 (new_deal_step_description m w').1 ∧
  (new_deal_step_description m w).2 = (new_deal_step_description m w').2.
Proof.
  intros HS. pose proof HS as HS'. revert w w' HS HS'. sim_start.
  intros HS Hst. unfold get_state in Hst. simpl in Hst.
  unfold new_deal_step_description. simpl.
  destruct (negb _); simpl; [done|].
  destruct (decide (from_user m = X)) as [EX|Hne]; [rewrite EX in *|].
  - unfold agree in Ha. rewrite Hst in Ha.
    destruct (ut !! X) as [t|] eqn:E, (ut' !! X) as [t'|] eqn:E';
      simpl; try done.
    rewrite !lookup_insert_eq. simpl.
    assert (temp_seller_id t = temp_seller_id t' ∧
            temp_amount t = temp_amount t') as [Es Ea]
      by (destruct Ha as [?|[[? _]|[[_ ?]|?]]]; simplify_eq; done).
    rewrite Es, Ea.
    split; [|by destruct (temp_seller_id t'), (temp_amount t')].
    destruct (temp_seller_id t'), (temp_amount t'); simpl; sim_goal.
  - rewrite (Ho _ Hne).
    destruct (ut !! from_user m) as [t|] eqn:E; simpl; [|done].
    rewrite !lookup_insert_eq. simpl.
    split; [|by destruct (temp_seller_id t), (temp_amount t)].
    destruct (temp_seller_id t), (temp_amount t); simpl; sim_goal.
Qed.

Lemma sim_menu_new_deal X c w w' :
  Sim X w w' →
  Sim X (cb_menu_new_deal c w).1 (cb_menu_new_deal c w').1 ∧
  (cb_menu_new_deal c w).2 = (cb_menu_new_deal c w').2.
Proof.
  intros HS. pose proof HS as HS'. revert w w' HS HS'. sim_start.
  intros HS. unfold cb_menu_new_deal. simpl. split; [|done].
  destruct (decide (call_from c = X)) as [EX|Hne]; [rewrite EX in *|].
  - unfold agree in Ha.
    destruct (ut !! X) as [t|] eqn:E, (ut' !! X) as [t'|] eqn:E';
      simpl; try done; sim_goal.
    all: rewrite ?E, ?E'; simpl; auto.
  - rewrite (Ho _ Hne).
    destruct (ut !! call_from c) as [t|] eqn:E; simpl; sim_goal.
Qed.

Lemma sim_new_deal_confirm X clk c w w' :
  Sim X w w' →
  Sim X (cb_new_deal_confirm clk c w).1 (cb_new_deal_confirm clk c w').1 ∧
  (cb_new_deal_confirm clk c w).2 = (cb_new_deal_confirm clk c w').2.
Proof.
  intros HS. pose proof HS as HS'. revert w w' HS HS'. sim_start.
  intros HS. unfold cb_new_deal_confirm, get_state. simpl.
  case_bool_decide as Hst; [done|].
  case_bool_decide; simpl; [split; [sim_goal|done]|].
  assert (ut' !! call_from c = ut !! call_from c) as ->.
  { destruct (decide (call_from c = X)) as [EX|Hne]; [rewrite EX in *|auto].
    unfold agree in Ha. rewrite Hst in Ha.
    destruct (ut !! X), (ut' !! X); try done.
    destruct Ha as [?|[[? _]|[[? _]|?]]]; simplify_eq; done. }
  destruct (default empty_temp (ut !! call_from c)) as [[sid|] [amt|] [descr|]];
    simpl; try (split; [sim_goal|done]).
  destruct (negb _); simpl; split; try done; sim_goal.
Qed.

Lemma sim_temp_blind X h w w' :
  temp_blind h → Sim X w w' → Sim X (h w).1 (h w').1 ∧ (h w).2 = (h w').2.
Proof.
  intros Hb. revert w w'. sim_start.
  destruct (Hb ds ls sts ut ut') as (H1 & H2 & ->). simpl.
  split; [|done]. unfold Sim. simpl. rewrite H1, H2. done.
Qed.

Lemma party_button_blind who src dst act clk c :
  temp_blind (party_button who src dst act clk c).
Proof.
  intros ds ls sts ut ut'. unfold party_button, get_deal. simpl.
  destruct (deal_id_of _); [|done].
  destruct (ds !! _); [|done].
  repeat case_bool_decide; done.
Qed.

Lemma admin_dispute_blind admins clk c :
  temp_blind (cb_admin_dispute admins clk c).
Proof.
  intros ds ls sts ut ut'. unfold cb_admin_dispute, get_deal. cbn [deals].
  destruct (negb _); [done|].
  destruct (nth_error (Py.split "_" (data c)) 1); [|done].
  destruct (Py.int _); [|done].
  destruct (ds !! _); [|done].
  case_bool_decide; [done|].
  destruct (resolution _ _) as [[? ?]|]; done.
Qed.

Lemma fallback_blind clk m : temp_blind (fallback_or_delivery_handler clk m).
Proof.
  intros ds ls sts ut ut'.
  unfold fallback_or_delivery_handler, get_state,
    get_latest_paid_waiting_deal_for_seller. simpl.
  destruct (_ && _); [done|].
  destruct (map_fold _ _ _) as [[? ?]|]; [done|].
  destruct (sts !! _) as [st|]; [destruct (Py.str_truthy st)|]; done.
Qed.

Lemma readonly_blind : temp_blind (fun w => (w, Shown)).
Proof. by intros ds ls sts ut ut'. Qed.

Lemma sim_in_state X st m w w' :
  Sim X w w' → in_state st m w' = in_state st m w.
Proof. intros (_ & _ & H & _). unfold in_state, get_state. by rewrite H. Qed.

Lemma in_state_true st m w :
  in_state st m w = true → get_state (from_user m) w = Some st.
Proof. unfold in_state. apply bool_decide_eq_true_1. Qed.

(** The two worlds stay related under every update. *)
Lemma sim_handle X admins clk u w w' :
  Sim X w w' →
  Sim X (handle admins clk u w).1 (handle admins clk u w').1 ∧
  (handle admins clk u w).2 = (handle admins clk u w').2.
Proof.
  intros HS. destruct u as [m|c].
  - unfold handle, message_handlers, dispatch.
    rewrite !(sim_in_state X _ m w w' HS).
    repeat (destruct (is_command _ m);
            [by apply (sim_temp_blind X _ w w' readonly_blind)|]).
    destruct (in_state STATE_NEW_DEAL_SELLER m w) eqn:E1;
      [apply sim_step_seller; [done | by apply in_state_true]|].
    destruct (in_state STATE_NEW_DEAL_AMOUNT m w && is_text m) eqn:E2;
      [apply andb_true_iff in E2 as [E2 _];
       apply sim_step_amount; [done | by apply in_state_true]|].
    destruct (in_state STATE_NEW_DEAL_DESCRIPTION m w && is_text m) eqn:E3;
      [apply andb_true_iff in E3 as [E3 _];
       apply sim_step_description; [done | by apply in_state_true]|].
    by apply (sim_temp_blind X _ w w' (fallback_blind clk m)).
  - unfold handle, callback_handlers, dispatch, data_equals, data_startswith.
    destruct (bool_decide _); [by apply sim_menu_new_deal|].
    destruct (bool_decide _);
      [by apply (sim_temp_blind X _ w w' readonly_blind)|].
    destruct (Py.startswith _ _); [by apply sim_new_deal_confirm|].
    repeat (destruct (Py.startswith _ _);
            [by apply (sim_temp_blind X _ w w'
                         (party_button_blind _ _ _ _ clk c))|]).
    destruct (Py.startswith _ _);
      [by apply (sim_temp_blind X _ w w' (admin_dispute_blind admins clk c))|].
    split; [done | done].
Qed.

Lemma sim_run X admins us w w' :
  Sim X w w' → Sim X (run admins us w) (run admins us w').
Proof.
  revert w w'. induction us as [|[clk u] us IH]; intros w w' HS; simpl; [done|].
  apply IH. by apply sim_handle.
Qed.

(** The fields a restart leaves behind have no influence on the store: with
    the sender at the first step, any run of updates writes the same deals
    and the same audit log whatever the old field map holds. *)
Lemma stale_fields_never_reach_the_store admins us w X t t' :
  get_state X w = Some STATE_NEW_DEAL_SELLER →
  user_temp w !! X = Some t →
  deals (run admins us (with_temp w (<[X := t']> (user_temp w))))
    = deals (run admins us w) ∧
  logs (run admins us (with_temp w (<[X := t']> (user_temp w))))
    = logs (run admins us w).
Proof.
  intros Hs Ht.
  assert (Sim X w (with_temp w (<[X := t']> (user_temp w)))) as HS.
  { unfold Sim. simpl. repeat split.
    - intros y Hy. by rewrite lookup_insert_ne.
    - unfold get_state in Hs. rewrite Hs, Ht, lookup_insert_eq. simpl. by left. }
  destruct (sim_run X admins us _ _ HS) as (Hd & Hl & _). done.
Qed.

(** ** C5: delivery by a free-form message *)

(** While the sender is at the first step every message goes to that step,
    and at the amount and description steps every text message does: none of
    them is read as a delivery. *)
Lemma wizard_steps_absorb admins clk m w :
  command m = None →
  get_state (from_user m) w = Some STATE_NEW_DEAL_SELLER ∨
  (is_text m = true ∧
   (get_state (from_user m) w = Some STATE_NEW_DEAL_AMOUNT ∨
    get_state (from_user m) w = Some STATE_NEW_DEAL_DESCRIPTION)) →
  deals (handle admins clk (UMessage m) w).1 = deals w ∧
  logs (handle admins clk (UMessage m) w).1 = logs w.
Proof.
  intros Hc Hs.
  assert (∀ l, is_command l m = false) as Hcmd
    by (intros l; unfold is_command; rewrite Hc; apply andb_false_r).
  unfold handle, message_handlers, dispatch. rewrite !Hcmd. unfold in_state.
  destruct Hs as [Hs | [Ht [Hs | Hs]]]; rewrite Hs.
  - rewrite bool_decide_eq_true_2 by done.
    unfold new_deal_step_seller.
    repeat match goal with
      | |- context [match ?x with _ => _ end] => destruct x
      end; by rewrite ?set_state_deals, ?set_state_logs.
  - rewrite bool_decide_eq_false_2 by done.
    rewrite bool_decide_eq_true_2 by done. rewrite Ht. simpl.
    unfold new_deal_step_amount.
    repeat match goal with
      | |- context [match ?x with _ => _ end] => destruct x
      end; by rewrite ?set_state_deals, ?set_state_logs.
  - rewrite bool_decide_eq_false_2 by done.
    rewrite (bool_decide_eq_false_2 (Some STATE_NEW_DEAL_DESCRIPTION
                                     = Some STATE_NEW_DEAL_AMOUNT)) by done.
    rewrite bool_decide_eq_true_2 by done. rewrite Ht. simpl.
    unfold new_deal_step_description.
    repeat match goal with
      | |- context [match ?x with _ => _ end] => destruct x
      end; by rewrite ?set_state_deals, ?set_state_logs.
Qed.

(** C5 fails on the code: user 2, seller of the paid deal 1, stands at the
    confirm step of a creation session of their own and sends "hello"; the
    message is taken as the delivery and deal 1 moves on. *)
Theorem delivery_fires_inside_wizard :
  let w := run [9] seller_in_wizard empty_world in
  let r := handle [9] noon (UMessage (mkMessage 2 (Some "hello") None None)) w in
  get_state 2 w = Some STATE_NEW_DEAL_CONFIRM ∧
  (status <$> deals w !! 1) = Some STATUS_PAID_WAIT_DELIVERY ∧
  r.2 = Committed 1 STATUS_WAIT_BUYER_CONFIRM ∧
  (status <$> deals r.1 !! 1) = Some STATUS_WAIT_BUYER_CONFIRM ∧
  get_state 2 r.1 = Some STATE_NEW_DEAL_CONFIRM.
Proof. vm_compute. repeat split. Qed.

(** The same at the amount step, for a message without text (a photo). *)
Lemma delivery_fires_on_photo_at_amount_step :
  let w := run [9] (paid_deal ++ [taps 2 "menu_new_deal"; says 2 "3"])
             empty_world in
  let r := handle [9] noon (UMessage (mkMessage 2 None None None)) w in
  get_state 2 w = Some STATE_NEW_DEAL_AMOUNT ∧
  r.2 = Committed 1 STATUS_WAIT_BUYER_CONFIRM.
Proof. vm_compute. repeat split. Qed.

(** ** C8: the amount step *)

(** The guard [amount <= 0] lets through the positive finite floats,
    plus infinity and NaN. *)
Lemma amount_guard x :
  Py.float_le_zero x = false ↔
  (∃ m e, x = S754_finite false m e) ∨ x = S754_infinity false ∨ x = S754_nan.
Proof.
  unfold Py.float_le_zero, SFleb. split.
  - destruct x as [s|[]| |[] m e]; simpl; try discriminate; eauto.
  - intros [(m & e & ->) | [-> | ->]]; reflexivity.
Qed.

(** What the step does with a text, when the sender has a field map. *)
Lemma amount_step_spec m w tmp t :
  text m = Some t → t ≠ EmptyString →
  user_temp w !! from_user m = Some tmp →
  match Py.float (Py.replace "," "." t) with
  | Some a =>
      if Py.float_le_zero a then new_deal_step_amount m w = (w, Reprompted)
      else
        (new_deal_step_amount m w).2 = Prompted STATE_NEW_DEAL_DESCRIPTION ∧
        get_state (from_user m) (new_deal_step_amount m w).1
          = Some STATE_NEW_DEAL_DESCRIPTION ∧
        user_temp (new_deal_step_amount m w).1 !! from_user m
          = Some (mkTemp (temp_seller_id tmp) (Some a) (temp_description tmp))
  | None => new_deal_step_amount m w = (w, Reprompted)
  end.
Proof.
  intros Ht Hne Htmp. unfold new_deal_step_amount. rewrite Ht.
  assert (Py.str_truthy t = true) as ->.
  { unfold Py.str_truthy. destruct (String.eqb_spec t EmptyString); done. }
  destruct (Py.float _) as [a|]; [|done].
  destruct (Py.float_le_zero a); [done|]. rewrite Htmp. simpl.
  unfold get_state. simpl. rewrite !lookup_insert_eq. done.
Qed.

(** C8 fails on the code: at the amount step the text "nan" parses, passes
    the guard [amount <= 0] and is stored; the session moves on to the
    description step, and the deal confirmed afterwards carries NaN as its
    amount. *)
Theorem nan_amount_is_accepted :
  let w := run [] [taps 7 "menu_new_deal"; says 7 "5"] empty_world in
  let r := handle [] noon (UMessage (mkMessage 7 (Some "nan") None None)) w in
  let w3 := run [] [says 7 "thing"; taps 7 "new_deal_confirm_yes"] r.1 in
  get_state 7 w = Some STATE_NEW_DEAL_AMOUNT ∧
  Py.float (Py.replace "," "." "nan") = Some S754_nan ∧
  r.2 = Prompted STATE_NEW_DEAL_DESCRIPTION ∧
  get_state 7 r.1 = Some STATE_NEW_DEAL_DESCRIPTION ∧
  (temp_amount <$> user_temp r.1 !! 7) = Some (Some S754_nan) ∧
  (amount <$> deals w3 !! 1) = Some S754_nan.
Proof. vm_compute. repeat split. Qed.

(** ** C10: confirming with a missing field *)

(** C10. When the confirm button is pressed and the sender's field map is
    absent or lacks the seller, the amount or the description, no deal row is
    inserted and no audit row is written; at the confirm step the answer is
    the missing-data error and the sender's session (state and field map) is
    removed, nothing else of the world being touched. *)
Theorem confirm_with_missing_field admins clk c w :
  Py.startswith "new_deal_confirm_" (data c) = true →
  data c ≠ "new_deal_confirm_no" →
  match user_temp w !! call_from c with
  | None => True
  | Some t =>
      temp_seller_id t = None ∨ temp_amount t = None ∨
      temp_description t = None
  end →
  let r := handle admins clk (UCallback c) w in
  deals r.1 = deals w ∧ logs r.1 = logs w ∧
  (get_state (call_from c) w = Some STATE_NEW_DEAL_CONFIRM →
   r.2 = MissingData ∧
   user_states r.1 = delete (call_from c) (user_states w) ∧
   user_temp r.1 = delete (call_from c) (user_temp w)).
Proof.
  intros Hp Hno Hmiss. rewrite confirm_route by done.
  unfold cb_new_deal_confirm.
  case_bool_decide as Hs; simpl.
  { repeat split; done. }
  rewrite bool_decide_eq_false_2 by done.
  destruct (user_temp w !! call_from c) as [[[sid|] [amt|] [descr|]]|];
    simpl in *; try (by repeat split); destruct_or!; discriminate.
Qed.

Lemma confirm_with_missing_field_witness :
  let w := mkWorld ∅ [] {[ 7 := STATE_NEW_DEAL_CONFIRM ]}
             {[ 7 := mkTemp (Some 5) None (Some "thing") ]} in
  let r := handle [] noon (UCallback (mkCall 7 "new_deal_confirm_yes")) w in
  deals r.1 = deals w ∧ logs r.1 = logs w ∧
  (get_state 7 w = Some STATE_NEW_DEAL_CONFIRM →
   r.2 = MissingData ∧
   user_states r.1 = delete 7 (user_states w) ∧
   user_temp r.1 = delete 7 (user_temp w)).
Proof.
  apply (confirm_with_missing_field [] noon (mkCall 7 "new_deal_confirm_yes")
           (mkWorld ∅ [] {[ 7 := STATE_NEW_DEAL_CONFIRM ]}
              {[ 7 := mkTemp (Some 5) None (Some "thing") ]})).
  - vm_compute. reflexivity.
  - simpl. discriminate.
  - vm_compute. right. left. reflexivity.
Defined.

(** ** More about deals, the audit log and sessions *)

(** X1. Over any run of updates a deal row is never deleted and its buyer,
    seller, amount, description and creation time never change. *)
Theorem deal_terms_never_change admins us w id d :
  deals w !! id = Some d →
  ∃ d', deals (run admins us w) !! id = Some d' ∧
        buyer_id d' = buyer_id d ∧ seller_id d' = seller_id d ∧
        amount d' = amount d ∧ description d' = description d ∧
        created_at d' = created_at d.
Proof.
  revert w d. induction us as [|[clk u] us IH]; intros w d H; simpl.
  - by exists d.
  - destruct (step_keeps_rows admins clk u w id d H)
      as (d1 & H1 & E1 & E2 & E3 & E4 & E5).
    destruct (IH _ _ H1) as (d' & H' & F1 & F2 & F3 & F4 & F5).
    exists d'. repeat split; congruence.
Qed.

Lemma deal_terms_never_change_witness :
  let w := run [9] open_deal empty_world in
  let d := mkDeal 1 2 (S754_finite false 7036874417766400 (-46)) "x"
             STATUS_AWAIT_SELLER_CONFIRM (now noon) (now noon) in
  deals w !! 1 = Some d ∧
  ∃ d', deals (run [9] [taps 2 "seller_accept_1"; taps 1 "deal_paid_1"] w) !! 1
          = Some d' ∧
        buyer_id d' = buyer_id d ∧ seller_id d' = seller_id d ∧
        amount d' = amount d ∧ description d' = description d ∧
        created_at d' = created_at d.
Proof.
  split; [vm_compute; reflexivity|].
  apply (deal_terms_never_change [9]
           [taps 2 "seller_accept_1"; taps 1 "deal_paid_1"]
           (run [9] open_deal empty_world) 1).
  vm_compute. reflexivity.
Defined.

(** X2. One update either leaves a deal row exactly as it was or changes its
    status, and then [updated_at] is the handler's clock reading and no other
    column moves: [updated_at] is written on, and only on, a transition. *)
Theorem row_changes_only_by_transition admins clk u w id d d' :
  deals w !! id = Some d →
  deals (handle admins clk u w).1 !! id = Some d' →
  d' = d ∨
  (status d' ≠ status d ∧ d' = set_status (status d') (now clk) d).
Proof.
  intros H H'.
  destruct (handle_effect admins clk u w)
    as [Hd _ | i d0 r st a Hi Hrow _ Hd _ | i sid amt descr Hi _ _ Hd _];
    rewrite Hd in H'.
  - left. congruence.
  - rewrite lookup_insert in H'. case_decide as Heq; [|left; congruence].
    subst i. rewrite H in Hi. injection Hi as <-. injection H' as <-.
    right. simpl. split; [|done]. intros E. by apply table_no_loop in Hrow.
  - rewrite lookup_insert in H'. case_decide; [congruence | left; congruence].
Qed.

Lemma row_changes_only_by_transition_witness :
  let w := run [9] open_deal empty_world in
  let d := mkDeal 1 2 (S754_finite false 7036874417766400 (-46)) "x"
             STATUS_AWAIT_SELLER_CONFIRM (now noon) (now noon) in
  let later := mkClock "2024-01-02T08:00:00" "2024-01-02T08:00:01" in
  let d' := set_status STATUS_AWAIT_PAYMENT (now later) d in
  deals w !! 1 = Some d ∧
  (d' = d ∨ (status d' ≠ status d ∧ d' = set_status (status d') (now later) d)).
Proof.
  split; [vm_compute; reflexivity|].
  apply (row_changes_only_by_transition [9]
           (mkClock "2024-01-02T08:00:00" "2024-01-02T08:00:01")
           (UCallback (mkCall 2 "seller_accept_1"))
           (run [9] open_deal empty_world) 1).
  - vm_compute. reflexivity.
  - vm_compute. reflexivity.
Defined.

Lemma step_appends_logs admins clk u w :
  ∃ l, logs (handle admins clk u w).1 = logs w ++ l ∧ (length l ≤ 1)%nat.
Proof.
  destruct (handle_effect admins clk u w)
    as [_ Hl | i d0 r st a _ _ _ _ Hl | i sid amt descr _ _ _ _ Hl];
    rewrite Hl.
  - exists []. split; [by rewrite app_nil_r | simpl; lia].
  - eexists. split; [reflexivity | simpl; lia].
  - eexists. split; [reflexivity | simpl; lia].
Qed.

(** X3. The audit log is append-only: after any run of updates the old log
    is a prefix of the new one, and the run has added at most one row per
    update. *)
Theorem audit_log_is_append_only admins us w :
  ∃ l, logs (run admins us w) = logs w ++ l ∧ (length l ≤ length us)%nat.
Proof.
  revert w. induction us as [|[clk u] us IH]; intros w; simpl.
  - exists []. split; [by rewrite app_nil_r | simpl; lia].
  - destruct (step_appends_logs admins clk u w) as (l1 & E1 & L1).
    destruct (IH (handle admins clk u w).1) as (l2 & E2 & L2).
    exists (l1 ++ l2). rewrite E2, E1, <- app_assoc. split; [done|].
    rewrite length_app. lia.
Qed.

Lemma blind_sessions h w :
  temp_blind h →
  user_states (h w).1 = user_states w ∧ user_temp (h w).1 = user_temp w.
Proof.
  intros Hb. destruct w as [ds ls sts ut].
  destruct (Hb ds ls sts ut ut) as (H1 & H2 & _). done.
Qed.

Lemma unchanged_sessions_at (w' w : World) (y : Z) :
  user_states w' = user_states w ∧ user_temp w' = user_temp w →
  user_states w' !! y = user_states w !! y ∧
  user_temp w' !! y = user_temp w !! y.
Proof. by intros [-> ->]. Qed.

(** The session handlers write the two dictionaries at the sender only. *)
Ltac own_session :=
  intros; simpl;
  repeat match goal with
    | |- context [match ?x with _ => _ end] => destruct x eqn:?
    end; simpl;
  rewrite ?lookup_insert_ne, ?lookup_delete_ne by done; done.

Lemma wizard_steps_own_session m w y :
  y ≠ from_user m →
  (user_states (new_deal_step_seller m w).1 !! y = user_states w !! y ∧
   user_temp (new_deal_step_seller m w).1 !! y = user_temp w !! y) ∧
  (user_states (new_deal_step_amount m w).1 !! y = user_states w !! y ∧
   user_temp (new_deal_step_amount m w).1 !! y = user_temp w !! y) ∧
  (user_states (new_deal_step_description m w).1 !! y = user_states w !! y ∧
   user_temp (new_deal_step_description m w).1 !! y = user_temp w !! y).
Proof.
  intros Hy.
  unfold new_deal_step_seller, new_deal_step_amount, new_deal_step_description.
  repeat split; own_session.
Qed.

Lemma confirm_own_session clk c w y :
  y ≠ call_from c →
  user_states (cb_new_deal_confirm clk c w).1 !! y = user_states w !! y ∧
  user_temp (cb_new_deal_confirm clk c w).1 !! y = user_temp w !! y.
Proof.
  intros Hy. unfold cb_new_deal_confirm.
  repeat case_bool_decide; simpl;
    rewrite ?lookup_delete_ne by done; try done.
  destruct (default empty_temp _) as [[?|] [?|] [?|]]; simpl;
    rewrite ?lookup_delete_ne by done; try done.
  destruct (negb _); simpl; rewrite ?lookup_delete_ne by done; done.
Qed.

Lemma menu_own_session c w y :
  y ≠ call_from c →
  user_states (cb_menu_new_deal c w).1 !! y = user_states w !! y ∧
  user_temp (cb_menu_new_deal c w).1 !! y = user_temp w !! y.
Proof.
  intros Hy. unfold cb_menu_new_deal. simpl.
  rewrite lookup_insert_ne by done.
  destruct (user_temp w !! call_from c); simpl;
    rewrite ?lookup_insert_ne by done; done.
Qed.

(** X4. A session has one owner: an update changes neither the step nor the
    collected fields of any user other than its sender. *)
Theorem sessions_are_single_owner admins clk u w y :
  y ≠ sender u →
  get_state y (handle admins clk u w).1 = get_state y w ∧
  user_temp (handle admins clk u w).1 !! y = user_temp w !! y.
Proof.
  intros Hy. unfold get_state. destruct u as [m|c]; cbn [handle sender] in *.
  - apply (dispatch_all
             (fun r => user_states r.1 !! y = user_states w !! y ∧
                       user_temp r.1 !! y = user_temp w !! y)); [done|].
    intros f h Hin. unfold message_handlers in Hin.
    destruct (wizard_steps_own_session m w y Hy) as (H1 & H2 & H3).
    destruct (blind_sessions _ w (fallback_blind clk m)) as [F1 F2].
    repeat (apply elem_of_cons in Hin as [[= -> ->]|Hin];
            [first [ done | by rewrite F1, F2 ]|]).
    apply elem_of_cons in Hin as [[= -> ->]|Hin];
      [simpl; by rewrite !lookup_delete_ne | by apply elem_of_nil in Hin].
  - apply (dispatch_all
             (fun r => user_states r.1 !! y = user_states w !! y ∧
                       user_temp r.1 !! y = user_temp w !! y)); [done|].
    intros f h Hin. unfold callback_handlers in Hin.
    pose proof (menu_own_session c w y Hy) as M.
    pose proof (confirm_own_session clk c w y Hy) as C.
    repeat (apply elem_of_cons in Hin as [[= -> ->]|Hin];
            [first [ done
                   | apply unchanged_sessions_at;
                     first [ apply (blind_sessions _ w
                                      (admin_dispute_blind admins clk c))
                           | apply (blind_sessions _ w
                                      (party_button_blind _ _ _ _ clk c)) ] ]|]).
    by apply elem_of_nil in Hin.
Qed.

Lemma sessions_are_single_owner_witness :
  let w := run [9] seller_in_wizard empty_world in
  let u := UCallback (mkCall 1 "menu_new_deal") in
  get_state 2 (handle [9] noon u w).1 = get_state 2 w ∧
  user_temp (handle [9] noon u w).1 !! 2 = user_temp w !! 2.
Proof.
  apply (sessions_are_single_owner [9] noon (UCallback (mkCall 1 "menu_new_deal"))
           (run [9] seller_in_wizard empty_world) 2).
  simpl. lia.
Defined.

Lemma wizard_steps_keep_states m w x :
  is_Some (get_state x w) →
  is_Some (get_state x (new_deal_step_seller m w).1) ∧
  is_Some (get_state x (new_deal_step_amount m w).1) ∧
  is_Some (get_state x (new_deal_step_description m w).1).
Proof.
  intros H. unfold get_state in *.
  unfold new_deal_step_seller, new_deal_step_amount, new_deal_step_description.
  repeat split;
    repeat match goal with
      | |- context [match ?x with _ => _ end] => destruct x eqn:?
      end; simpl; rewrite ?lookup_insert; try case_decide; done.
Qed.

(** No message ends a session: the catch-all handler is registered before
    [cmd_cancel], so "/cancel" is answered like any other text. *)
Lemma message_keeps_states admins clk m w x :
  is_Some (get_state x w) →
  is_Some (get_state x (handle admins clk (UMessage m) w).1).
Proof.
  intros H. destruct (wizard_steps_keep_states m w x H) as (H1 & H2 & H3).
  unfold handle, message_handlers, dispatch.
  repeat (destruct (is_command _ m); [done|]).
  destruct (in_state STATE_NEW_DEAL_SELLER m w); [done|].
  destruct (in_state STATE_NEW_DEAL_AMOUNT m w && is_text m); [done|].
  destruct (in_state STATE_NEW_DEAL_DESCRIPTION m w && is_text m); [done|].
  unfold get_state.
  destruct (blind_sessions _ w (fallback_blind clk m)) as [-> _]. done.
Qed.

(** X5. A creation session ends in one way only: when a user who had a step
    has none after an update, the update is that user's press of a
    confirm-dialog button ("new_deal_confirm_...") at the confirm step.  No
    message ends a session, "/cancel" included, and no other button does. *)
Theorem only_confirm_ends_a_session admins clk u w x :
  is_Some (get_state x w) →
  get_state x (handle admins clk u w).1 = None →
  ∃ c, u = UCallback c ∧ call_from c = x ∧
       Py.startswith "new_deal_confirm_" (data c) = true ∧
       get_state x w = Some STATE_NEW_DEAL_CONFIRM.
Proof.
  intros H Hn. destruct u as [m|c].
  { pose proof (message_keeps_states admins clk m w x H) as K.
    rewrite Hn in K. by destruct K. }
  exists c. split; [done|].
  assert (∀ w' : World, user_states w' = user_states w →
                        get_state x w' = None → False) as Same.
  { intros w' E Hw'. unfold get_state in *. rewrite E in Hw'.
    rewrite Hw' in H. by destruct H. }
  revert Hn.
  unfold handle, callback_handlers, dispatch, data_equals, data_startswith.
  destruct (bool_decide (data c = "menu_new_deal")).
  { unfold cb_menu_new_deal, get_state. simpl. rewrite lookup_insert.
    case_decide; [done|]. intros Hn. unfold get_state in H.
    rewrite Hn in H. by destruct H. }
  destruct (bool_decide (data c = "menu_my_deals")).
  { intros Hn. by destruct (Same w eq_refl Hn). }
  destruct (Py.startswith "new_deal_confirm_" (data c)) eqn:Hp.
  { unfold cb_new_deal_confirm, get_state.
    case_bool_decide as Hst; simpl.
    { intros Hn. by destruct (Same w eq_refl Hn). }
    assert (delete (call_from c) (user_states w) !! x = None →
            call_from c = x ∧ true = true
            ∧ get_state x w = Some STATE_NEW_DEAL_CONFIRM) as Del.
    { rewrite lookup_delete. case_decide as E.
      - subst x. done.
      - intros Hn. unfold get_state in H. rewrite Hn in H. by destruct H. }
    case_bool_decide; simpl; [exact Del|].
    destruct (default empty_temp _) as [[?|] [?|] [?|]]; simpl; try exact Del.
    destruct (negb _); simpl; exact Del. }
  clear Hp.
  repeat (destruct (Py.startswith _ (data c));
          [intros Hn; exfalso; apply (Same _ (proj1 (blind_sessions _ w
                        (party_button_blind _ _ _ _ clk c))) Hn)|]).
  destruct (Py.startswith _ (data c)).
  { intros Hn; exfalso.
    apply (Same _ (proj1 (blind_sessions _ w
                            (admin_dispute_blind admins clk c))) Hn). }
  intros Hn. by destruct (Same w eq_refl Hn).
Qed.

Lemma only_confirm_ends_a_session_witness :
  let w := run [] [taps 7 "menu_new_deal"; says 7 "5"; says 7 "10"; says 7 "thing"]
             empty_world in
  let u := UCallback (mkCall 7 "new_deal_confirm_no") in
  get_state 7 (handle [] noon u w).1 = None ∧
  ∃ c, u = UCallback c ∧ call_from c = 7 ∧
       Py.startswith "new_deal_confirm_" (data c) = true ∧
       get_state 7 w = Some STATE_NEW_DEAL_CONFIRM.
Proof.
  split; [vm_compute; reflexivity|].
  apply (only_confirm_ends_a_session [] noon
           (UCallback (mkCall 7 "new_deal_confirm_no"))).
  - vm_compute. by eexists.
  - vm_compute. reflexivity.
Defined.

(** ** Buttons with unusual data *)

(** X6. A transition button whose data is ASCII and whose last part is not an
    integer changes nothing: [int()] raises before the store is read (an
    arbiter button pressed by a non-arbiter is turned away even earlier). *)
Theorem unreadable_deal_id_changes_nothing admins clk c w p r :
  (p, r) ∈ button_roles →
  Py.startswith p (data c) = true →
  ascii_only (data c) = true →
  deal_id_of (data c) = None →
  (r ≠ Arbiter ∨ call_from c ∈ admins →
   handle admins clk (UCallback c) w = (w, Raised)) ∧
  (r = Arbiter → call_from c ∉ admins →
   handle admins clk (UCallback c) w = (w, Unauthorized)).
Proof.
  intros Hin Hp _ Hid.
  destruct (decide (r = Arbiter)) as [->|Hr].
  - apply arbiter_button in Hin as ->. rewrite admin_route by done.
    unfold cb_admin_dispute, is_admin. split.
    + intros [?|Ha]; [done|]. rewrite bool_decide_eq_true_2 by done.
      cbn [negb]. destruct (admin_action_exists _ Hp) as [action ->].
      unfold deal_id_of in Hid. by rewrite Hid.
    + intros _ Ha. by rewrite bool_decide_eq_false_2.
  - destruct (party_route admins clk c w p r Hin Hr Hp)
      as (src & dst & act & -> & _).
    unfold party_button. rewrite Hid. split; [done | by intros ->].
Qed.

Lemma unreadable_deal_id_changes_nothing_witness :
  let w := run [9] paid_deal empty_world in
  deal_id_of "deal_sent_one" = None ∧
  handle [9] noon (UCallback (mkCall 2 "deal_sent_one")) w = (w, Raised).
Proof.
  split; [vm_compute; reflexivity|].
  apply (unreadable_deal_id_changes_nothing [9] noon (mkCall 2 "deal_sent_one")
           (run [9] paid_deal empty_world) "deal_sent_" Seller).
  - apply (bool_decide_unpack _). vm_compute. exact I.
  - vm_compute. reflexivity.
  - vm_compute. reflexivity.
  - vm_compute. reflexivity.
  - left. discriminate.
Defined.

(** X7. An arbiter's press on a disputed deal commits exactly when the second
    part of the data is one of the words buyer, seller, partial, and the new
    status is "resolved_" followed by that word; any other word is answered
    as an unknown action and changes nothing. *)
Theorem arbiter_resolution_by_word admins clk c w id d action :
  call_from c ∈ admins →
  Py.startswith "adm_" (data c) = true →
  nth_error (Py.split "_" (data c)) 1 = Some action →
  deal_id_of (data c) = Some id →
  deals w !! id = Some d →
  status d = STATUS_DISPUTE →
  (action ∈ resolution_words →
   (handle admins clk (UCallback c) w).2
     = Committed id ("resolved_" +:+ action) ∧
   deals (handle admins clk (UCallback c) w).1
     = <[id := set_status ("resolved_" +:+ action) (now clk) d]> (deals w)) ∧
  (action ∉ resolution_words →
   handle admins clk (UCallback c) w = (w, UnknownAction)).
Proof.
  intros Ha Hp Hact Hid Hd Hst. rewrite admin_route by done.
  unfold cb_admin_dispute, is_admin, get_deal.
  rewrite bool_decide_eq_true_2 by done. cbn [negb]. rewrite Hact.
  unfold deal_id_of in Hid. rewrite Hid, Hd.
  rewrite bool_decide_eq_false_2 by (intros E; by apply E).
  unfold resolution, resolution_words. split.
  - rewrite !elem_of_cons, elem_of_nil. intros [->|[->|[->|[]]]]; simpl;
      (split; [done | by apply alter_present]).
  - rewrite !elem_of_cons, elem_of_nil. intros Hn.
    repeat (case_bool_decide; [exfalso; apply Hn; auto|]). done.
Qed.

Lemma arbiter_resolution_by_word_witness :
  let w := run [9] (paid_deal ++ [says 2 "the goods"; taps 1 "buyer_dispute_1"])
             empty_world in
  handle [9] noon (UCallback (mkCall 9 "adm_refund_1")) w = (w, UnknownAction).
Proof.
  apply (arbiter_resolution_by_word [9] noon (mkCall 9 "adm_refund_1")
           (run [9] (paid_deal ++ [says 2 "the goods"; taps 1 "buyer_dispute_1"])
              empty_world) 1
           (mkDeal 1 2 (S754_finite false 7036874417766400 (-46)) "x"
              STATUS_DISPUTE (now noon) (now noon)) "refund").
  - apply (bool_decide_unpack _). vm_compute. exact I.
  - vm_compute. reflexivity.
  - vm_compute. reflexivity.
  - vm_compute. reflexivity.
  - vm_compute. reflexivity.
  - reflexivity.
  - apply (bool_decide_unpack _). vm_compute. exact I.
Defined.

(** ** Delivery by message *)

Lemma message_reaches_fallback admins clk m w :
  command m = None →
  get_state (from_user m) w = None →
  handle admins clk (UMessage m) w = fallback_or_delivery_handler clk m w.
Proof.
  intros Hc Hs.
  assert (∀ l, is_command l m = false) as Hcmd
    by (intros l; unfold is_command; rewrite Hc; apply andb_false_r).
  unfold handle, message_handlers, dispatch, in_state.
  rewrite !Hcmd, Hs. by rewrite !bool_decide_eq_false_2.
Qed.

(** X8. A message from a user without a creation session is taken as the
    delivery of that user's paid deal with the greatest id: that deal alone
    moves to [STATUS_WAIT_BUYER_CONFIRM].  When the user is the seller of no
    paid deal the message changes nothing. *)
Theorem free_text_delivers_newest_paid_deal admins clk m w :
  command m = None →
  get_state (from_user m) w = None →
  let r := handle admins clk (UMessage m) w in
  (∃ id d,
     r.2 = Committed id STATUS_WAIT_BUYER_CONFIRM ∧
     deals w !! id = Some d ∧ seller_id d = from_user m ∧
     status d = STATUS_PAID_WAIT_DELIVERY ∧
     (∀ k x, deals w !! k = Some x → seller_id x = from_user m →
             status x = STATUS_PAID_WAIT_DELIVERY → k ≤ id) ∧
     deals r.1
       = <[id := set_status STATUS_WAIT_BUYER_CONFIRM (now clk) d]> (deals w)) ∨
  (r = (w, UseStart) ∧
   ∀ k x, deals w !! k = Some x → seller_id x = from_user m →
          status x ≠ STATUS_PAID_WAIT_DELIVERY).
Proof.
  intros Hc Hs. cbv zeta. rewrite message_reaches_fallback by done.
  unfold fallback_or_delivery_handler. rewrite Hs.
  rewrite (bool_decide_eq_false_2 (None ≠ None)) by (intros E; by apply E).
  cbn [andb]. unfold get_latest_paid_waiting_deal_for_seller.
  pose proof (latest_inv (from_user m) (deals w)) as I.
  destruct (map_fold _ None (deals w)) as [[id d]|].
  - left. destruct I as (Hd & Hsel & Hst & Hmax). exists id, d. simpl.
    repeat split; try done. by apply alter_present.
  - right. split; [done|]. intros k x Hk Hx Hst. eauto.
Qed.

Lemma free_text_delivers_newest_paid_deal_witness :
  let w := run [9] two_paid_deals empty_world in
  let r := handle [9] noon (UMessage (mkMessage 2 (Some "files") None None)) w in
  r.2 = Committed 2 STATUS_WAIT_BUYER_CONFIRM ∧
  ((∃ id d,
     r.2 = Committed id STATUS_WAIT_BUYER_CONFIRM ∧
     deals w !! id = Some d ∧ seller_id d = 2 ∧
     status d = STATUS_PAID_WAIT_DELIVERY ∧
     (∀ k x, deals w !! k = Some x → seller_id x = 2 →
             status x = STATUS_PAID_WAIT_DELIVERY → k ≤ id) ∧
     deals r.1
       = <[id := set_status STATUS_WAIT_BUYER_CONFIRM (now noon) d]> (deals w)) ∨
   (r = (w, UseStart) ∧
    ∀ k x, deals w !! k = Some x → seller_id x = 2 →
           status x ≠ STATUS_PAID_WAIT_DELIVERY)).
Proof.
  split; [vm_compute; reflexivity|].
  apply (free_text_delivers_newest_paid_deal [9] noon
           (mkMessage 2 (Some "files") None None)
           (run [9] two_paid_deals empty_world)).
  - reflexivity.
  - vm_compute. reflexivity.
Defined.

(** ** The wizard, step by step *)

Lemma message_reaches_step admins clk m w st :
  command m = None →
  get_state (from_user m) w = Some st →
  handle admins clk (UMessage m) w =
    if bool_decide (st = STATE_NEW_DEAL_SELLER) then new_deal_step_seller m w
    else if bool_decide (st = STATE_NEW_DEAL_AMOUNT) && is_text m
    then new_deal_step_amount m w
    else if bool_decide (st = STATE_NEW_DEAL_DESCRIPTION) && is_text m
    then new_deal_step_description m w
    else fallback_or_delivery_handler clk m w.
Proof.
  intros Hc Hs.
  assert (∀ l, is_command l m = false) as Hcmd
    by (intros l; unfold is_command; rewrite Hc; apply andb_false_r).
  unfold handle, message_handlers, dispatch, in_state.
  rewrite !Hcmd, Hs.
  repeat (case_bool_decide; simplify_eq; simpl; try done).
Qed.

Lemma truthy_nonempty s : s ≠ EmptyString → Py.str_truthy s = true.
Proof.
  intros H. unfold Py.str_truthy. by destruct (String.eqb_spec s EmptyString).
Qed.

Lemma positive_amount_is_truthy a :
  Py.float_le_zero a = false → Py.float_truthy a = true.
Proof. by destruct a as [[]|[]| |[] ? ?]. Qed.

Lemma seller_step_accepts m w t tmp sid :
  forward_from m = None → text m = Some t →
  Py.isdigit (Py.strip t) = true → Py.int (Py.strip t) = Some sid → sid ≠ 0 →
  user_temp w !! from_user m = Some tmp →
  new_deal_step_seller m w
  = (mkWorld (deals w) (logs w)
       (<[from_user m := STATE_NEW_DEAL_AMOUNT]> (user_states w))
       (<[from_user m := mkTemp (Some sid) (temp_amount tmp)
                           (temp_description tmp)]> (user_temp w)),
     Prompted STATE_NEW_DEAL_AMOUNT).
Proof.
  intros Hf Ht Hd Hi Hs Htmp. unfold new_deal_step_seller.
  rewrite Hf, Ht, Hd, Hi.
  assert (t ≠ EmptyString) as Hne by (intros ->; discriminate).
  rewrite (truthy_nonempty t Hne). cbn [andb].
  unfold Py.int_truthy. rewrite (proj2 (Z.eqb_neq sid 0) Hs). cbn [negb].
  rewrite Htmp. unfold set_state, with_temp. simpl.
  by rewrite lookup_insert_eq.
Qed.

Lemma amount_step_accepts m w t tmp amt :
  text m = Some t →
  Py.float (Py.replace "," "." t) = Some amt → Py.float_le_zero amt = false →
  user_temp w !! from_user m = Some tmp →
  new_deal_step_amount m w
  = (mkWorld (deals w) (logs w)
       (<[from_user m := STATE_NEW_DEAL_DESCRIPTION]> (user_states w))
       (<[from_user m := mkTemp (temp_seller_id tmp) (Some amt)
                           (temp_description tmp)]> (user_temp w)),
     Prompted STATE_NEW_DEAL_DESCRIPTION).
Proof.
  intros Ht Hf Hle Htmp. unfold new_deal_step_amount. rewrite Ht.
  assert (t ≠ EmptyString) as Hne by (intros ->; discriminate).
  rewrite (truthy_nonempty t Hne), Hf, Hle, Htmp.
  unfold set_state, with_temp. simpl. by rewrite lookup_insert_eq.
Qed.

Lemma description_step_accepts m w t sid amt d0 :
  text m = Some t → Py.strip t ≠ EmptyString →
  user_temp w !! from_user m = Some (mkTemp (Some sid) (Some amt) d0) →
  new_deal_step_description m w
  = (mkWorld (deals w) (logs w)
       (<[from_user m := STATE_NEW_DEAL_CONFIRM]> (user_states w))
       (<[from_user m := mkTemp (Some sid) (Some amt) (Some (Py.strip t))]>
          (user_temp w)),
     Prompted STATE_NEW_DEAL_CONFIRM).
Proof.
  intros Ht Hne Htmp. unfold new_deal_step_description. rewrite Ht.
  assert (t ≠ EmptyString) as Hne' by (intros ->; by apply Hne).
  rewrite (truthy_nonempty t Hne'), (truthy_nonempty _ Hne), Htmp.
  unfold set_state, with_temp. simpl. by rewrite lookup_insert_eq.
Qed.

Lemma confirm_creates clk c w sid amt descr :
  Py.startswith "new_deal_confirm_" (data c) = true →
  data c ≠ "new_deal_confirm_no" →
  get_state (call_from c) w = Some STATE_NEW_DEAL_CONFIRM →
  user_temp w !! call_from c = Some (mkTemp (Some sid) (Some amt) (Some descr)) →
  sid ≠ 0 → Py.float_truthy amt = true → descr ≠ EmptyString →
  cb_new_deal_confirm clk c w
  = (mkWorld
       (<[next_deal_id (deals w) :=
            mkDeal (call_from c) sid amt descr STATUS_AWAIT_SELLER_CONFIRM
              (now clk) (now clk)]> (deals w))
       (logs w ++ [mkLog (next_deal_id (deals w))
                     (ActCreated (call_from c) sid amt) (log_now clk)])
       (delete (call_from c) (user_states w))
       (delete (call_from c) (user_temp w)),
     Created (next_deal_id (deals w))).
Proof.
  intros Hp Hno Hst Htmp Hs Ha Hd. unfold cb_new_deal_confirm.
  rewrite Hst. rewrite bool_decide_eq_false_2 by (intros E; by apply E).
  rewrite bool_decide_eq_false_2 by done. rewrite Htmp. simpl.
  unfold Py.int_truthy. rewrite (proj2 (Z.eqb_neq sid 0) Hs), Ha.
  by rewrite (truthy_nonempty descr Hd).
Qed.

(** X9. The wizard end to end, with three texts that carry no command:
    "new deal", a seller id in digits (not zero, and one the INSERT can
    bind), an amount that [float()] reads as not [<= 0] and not NaN, an
    ASCII description that is not blank, then "confirm": exactly one deal is
    inserted, under the next id,
    with the sender as buyer and the three collected values, in
    [STATUS_AWAIT_SELLER_CONFIRM]; one creation row is logged and the sender's
    session is gone.  Whatever the sender's field map held before has no
    effect. *)
Theorem wizard_creates_the_deal_it_collected
    admins c1 c2 c3 c4 c5 user ts ta td sid amt w :
  plain_text ts = true →
  plain_text ta = true →
  plain_text td = true →
  Py.isdigit (Py.strip ts) = true →
  Py.int (Py.strip ts) = Some sid →
  sid ≠ 0 →
  sqlite_integer sid →
  Py.float (Py.replace "," "." ta) = Some amt →
  Py.float_le_zero amt = false →
  amt ≠ S754_nan →
  ascii_only td = true →
  Py.strip td ≠ EmptyString →
  let text_of t := UMessage (mkMessage user (Some t) None None) in
  let w' :=
    run admins
      [ (c1, UCallback (mkCall user "menu_new_deal")); (c2, text_of ts);
        (c3, text_of ta); (c4, text_of td);
        (c5, UCallback (mkCall user "new_deal_confirm_yes")) ] w in
  deals w'
    = <[next_deal_id (deals w) :=
          mkDeal user sid amt (Py.strip td) STATUS_AWAIT_SELLER_CONFIRM
            (now c5) (now c5)]> (deals w) ∧
  logs w'
    = logs w ++ [mkLog (next_deal_id (deals w)) (ActCreated user sid amt)
                   (log_now c5)] ∧
  get_state user w' = None ∧
  user_temp w' !! user = None.
Proof.
  intros _ _ _ Hd Hi Hs _ Hf Hle _ _ Hne. cbv zeta.
  enough (∃ sts ut,
            run admins
              [ (c1, UCallback (mkCall user "menu_new_deal"));
                (c2, UMessage (mkMessage user (Some ts) None None));
                (c3, UMessage (mkMessage user (Some ta) None None));
                (c4, UMessage (mkMessage user (Some td) None None));
                (c5, UCallback (mkCall user "new_deal_confirm_yes")) ] w
            = mkWorld
                (<[next_deal_id (deals w) :=
                     mkDeal user sid amt (Py.strip td)
                       STATUS_AWAIT_SELLER_CONFIRM (now c5) (now c5)]> (deals w))
                (logs w ++ [mkLog (next_deal_id (deals w))
                              (ActCreated user sid amt) (log_now c5)])
                (delete user sts) (delete user ut)) as (sts & ut & ->).
  { unfold get_state. simpl. by rewrite !lookup_delete_eq. }
  cbn [run].
  rewrite (menu_route admins c1 (mkCall user "menu_new_deal") w eq_refl).
  unfold cb_menu_new_deal. cbn [fst call_from].
  set (t0 := default empty_temp (user_temp w !! user)).
  assert (user_temp (set_state user (Some STATE_NEW_DEAL_SELLER) w) !! user
          = Some t0) as Ht0.
  { unfold set_state, t0. simpl.
    destruct (user_temp w !! user) eqn:E; simpl;
      [done | by rewrite lookup_insert_eq]. }
  rewrite (message_reaches_step admins c2 _ _ STATE_NEW_DEAL_SELLER);
    [|done | unfold get_state; simpl; by rewrite lookup_insert_eq].
  rewrite bool_decide_eq_true_2 by done.
  rewrite (seller_step_accepts _ _ ts t0 sid) by done. cbn [fst from_user].
  rewrite (message_reaches_step admins c3 _ _ STATE_NEW_DEAL_AMOUNT);
    [|done | unfold get_state; simpl; by rewrite lookup_insert_eq].
  rewrite bool_decide_eq_false_2 by done.
  rewrite bool_decide_eq_true_2 by done.
  assert (ta ≠ EmptyString) as Hta by (intros ->; discriminate).
  unfold is_text. cbn [text]. rewrite (truthy_nonempty ta Hta). cbn [andb].
  rewrite (amount_step_accepts _ _ ta
             (mkTemp (Some sid) (temp_amount t0) (temp_description t0)) amt);
    [|done|done|done| simpl; by rewrite lookup_insert_eq].
  cbn [fst from_user deals logs user_states user_temp temp_seller_id
       temp_description].
  rewrite (message_reaches_step admins c4 _ _ STATE_NEW_DEAL_DESCRIPTION);
    [|done | unfold get_state; simpl; by rewrite lookup_insert_eq].
  rewrite !bool_decide_eq_false_2 by done.
  rewrite bool_decide_eq_true_2 by done.
  assert (td ≠ EmptyString) as Htd by (intros ->; by apply Hne).
  unfold is_text. cbn [text]. rewrite (truthy_nonempty td Htd). cbn [andb].
  rewrite (description_step_accepts _ _ td sid amt (temp_description t0));
    [|done|done| simpl; by rewrite lookup_insert_eq].
  cbn [fst from_user deals logs user_states user_temp].
  rewrite confirm_route by done.
  rewrite (confirm_creates c5 _ _ sid amt (Py.strip td));
    [|done|done
     | unfold get_state; simpl; by rewrite lookup_insert_eq
     | simpl; by rewrite lookup_insert_eq
     | done | by apply positive_amount_is_truthy | done].
  cbn [fst deals logs user_states user_temp call_from].
  by eexists _, _.
Qed.

Lemma wizard_creates_the_deal_it_collected_witness :
  let w' := run [9] open_deal empty_world in
  deals w'
    = <[next_deal_id (deals empty_world) :=
          mkDeal 1 2 (S754_finite false 7036874417766400 (-46)) (Py.strip "x")
            STATUS_AWAIT_SELLER_CONFIRM (now noon) (now noon)]>
        (deals empty_world) ∧
  logs w'
    = logs empty_world ++
      [mkLog (next_deal_id (deals empty_world))
         (ActCreated 1 2 (S754_finite false 7036874417766400 (-46)))
         (log_now noon)] ∧
  get_state 1 w' = None ∧
  user_temp w' !! 1 = None.
Proof.
  apply (wizard_creates_the_deal_it_collected [9] noon noon noon noon noon 1
           "2" "100.0" "x" 2 (S754_finite false 7036874417766400 (-46))
           empty_world).
  - vm_compute. reflexivity.
  - vm_compute. reflexivity.
  - vm_compute. reflexivity.
  - vm_compute. reflexivity.
  - vm_compute. reflexivity.
  - lia.
  - unfold sqlite_integer. lia.
  - vm_compute. reflexivity.
  - vm_compute. reflexivity.
  - discriminate.
  - vm_compute. reflexivity.
  - vm_compute. discriminate.
Defined.

(** ** The invariant of reachable worlds *)

Lemma table_targets_are_statuses s r st :
  (s, r, st) ∈ transition_table → st ∈ all_statuses.
Proof.
  unfold transition_table. rewrite !elem_of_cons, elem_of_nil.
  intros H. destruct_or!; simplify_eq; unfold all_statuses;
    repeat first [ apply list_elem_of_here | apply list_elem_of_further ].
Qed.

Lemma max_id_attained (ds : gmap Z Deal) :
  map_fold (fun k _ acc => Z.max k acc) 0 ds = 0 ∨
  is_Some (ds !! map_fold (fun k _ acc => Z.max k acc) 0 ds).
Proof.
  apply (map_fold_weak_ind
           (fun r (m : gmap Z Deal) => r = 0 ∨ is_Some (m !! r))).
  - by left.
  - intros i x m r Hi IH.
    destruct (Z.max_spec i r) as [[_ ->]|[_ ->]].
    + destruct IH as [->|IH]; [by left|]. right.
      rewrite lookup_insert. by case_decide.
    + right. rewrite lookup_insert_eq. by eexists.
Qed.

Lemma dense_next_id (ds : gmap Z Deal) :
  (∀ k, is_Some (ds !! k) ↔ 1 ≤ k ≤ Z.of_nat (size ds)) →
  next_deal_id ds = Z.of_nat (size ds) + 1.
Proof.
  intros D. unfold next_deal_id.
  destruct (max_id_bound ds) as [H0 Hb].
  destruct (max_id_attained ds) as [E|E].
  - rewrite E in *.
    destruct (decide (size ds = 0%nat)) as [->|Hn]; [done|].
    assert (is_Some (ds !! 1)) as H1 by (apply D; lia).
    specialize (Hb 1 H1). lia.
  - pose proof (proj1 (D _) E) as Hle.
    assert (Z.of_nat (size ds) ≤ map_fold (fun k _ acc => Z.max k acc) 0 ds).
    { destruct (decide (size ds = 0%nat)) as [->|Hn]; [simpl; lia|].
      apply Hb, D. lia. }
    lia.
Qed.

Lemma alter_keeps_none {A} (f : A → A) (m : gmap Z A) i j :
  m !! j = None → alter f i m !! j = None.
Proof.
  intros H. rewrite lookup_alter. case_decide; [subst; by rewrite H | done].
Qed.

Lemma same_deals_only_next w r : deals r.1 = deals w → only_next_id w r.
Proof. intros E id Hn [x Hx]. rewrite E in Hx. congruence. Qed.

Lemma party_button_only_next who src dst act clk c w :
  only_next_id w (party_button who src dst act clk c w).
Proof.
  unfold party_button, get_deal.
  destruct (deal_id_of _); [|by apply same_deals_only_next].
  destruct (deals w !! _) eqn:E; [|by apply same_deals_only_next].
  repeat (case_bool_decide; [by apply same_deals_only_next|]).
  intros id Hn [x Hx]. simpl in Hx. by rewrite alter_keeps_none in Hx.
Qed.

Lemma admin_dispute_only_next admins clk c w :
  only_next_id w (cb_admin_dispute admins clk c w).
Proof.
  unfold cb_admin_dispute, get_deal.
  destruct (negb _); [by apply same_deals_only_next|].
  destruct (nth_error (Py.split "_" (data c)) 1);
    [|by apply same_deals_only_next].
  destruct (Py.int _); [|by apply same_deals_only_next].
  destruct (deals w !! _) eqn:E; [|by apply same_deals_only_next].
  case_bool_decide; [by apply same_deals_only_next|].
  destruct (resolution _ _) as [[? ?]|]; [|by apply same_deals_only_next].
  intros id Hn [x Hx]. simpl in Hx. by rewrite alter_keeps_none in Hx.
Qed.

Lemma fallback_only_next clk m w :
  only_next_id w (fallback_or_delivery_handler clk m w).
Proof.
  unfold fallback_or_delivery_handler.
  destruct (_ && _); [by apply same_deals_only_next|].
  destruct (get_latest_paid_waiting_deal_for_seller _ _) as [[? ?]|].
  - intros id Hn [x Hx]. simpl in Hx. by rewrite alter_keeps_none in Hx.
  - destruct (get_state _ _) as [st|]; [destruct (Py.str_truthy st)|];
      by apply same_deals_only_next.
Qed.

Lemma confirm_only_next clk c w :
  only_next_id w (cb_new_deal_confirm clk c w).
Proof.
  unfold cb_new_deal_confirm.
  repeat (case_bool_decide; [by apply same_deals_only_next|]).
  destruct (default empty_temp _) as [[?|] [?|] [?|]]; simpl;
    try (by apply same_deals_only_next).
  destruct (negb _); [by apply same_deals_only_next|].
  intros id Hn [x Hx]. simpl in Hx. rewrite lookup_insert in Hx.
  case_decide; [done | congruence].
Qed.

Lemma handle_only_next admins clk u w :
  only_next_id w (handle admins clk u w).
Proof.
  destruct u as [m|c]; cbn [handle].
  - apply (dispatch_all (only_next_id w)); [by apply same_deals_only_next|].
    intros f h Hin. unfold message_handlers in Hin.
    repeat (apply elem_of_cons in Hin as [[= -> ->]|Hin];
            [first [ apply fallback_only_next
                   | apply same_deals_only_next; done
                   | apply same_deals_only_next;
                     unfold new_deal_step_seller, new_deal_step_amount,
                       new_deal_step_description;
                     repeat match goal with
                       | |- context [match ?x with _ => _ end] => destruct x
                       end; by rewrite ?set_state_deals ]|]).
    by apply elem_of_nil in Hin.
  - apply (dispatch_all (only_next_id w)); [by apply same_deals_only_next|].
    intros f h Hin. unfold callback_handlers in Hin.
    repeat (apply elem_of_cons in Hin as [[= -> ->]|Hin];
            [first [ apply confirm_only_next
                   | apply admin_dispute_only_next
                   | apply (party_button_only_next _ _ _ _ clk c w)
                   | apply same_deals_only_next; done ]|]).
    by apply elem_of_nil in Hin.
Qed.

Lemma WF_store admins clk u w :
  WF w →
  (∀ id d, deals (handle admins clk u w).1 !! id = Some d → valid_deal d) ∧
  (∀ k, is_Some (deals (handle admins clk u w).1 !! k)
        ↔ 1 ≤ k ≤ Z.of_nat (size (deals (handle admins clk u w).1))) ∧
  (∀ row, row ∈ logs (handle admins clk u w).1 →
          is_Some (deals (handle admins clk u w).1 !! row_deal_id row)).
Proof.
  intros (Hv & Hdense & Hlog & _ & Htmp).
  pose proof (handle_only_next admins clk u w) as Hnext.
  destruct (handle_effect admins clk u w)
    as [Hd Hl | i d r st a Hi Hrow _ Hd Hl | i sid amt descr Hi Ht Hs Hd Hl].
  - rewrite Hd, Hl. done.
  - rewrite Hd, Hl. split; [|split; [intros k; split|]].
    + intros id d'. rewrite lookup_insert. case_decide; [|by apply Hv].
      intros [= <-]. destruct (Hv _ _ Hi) as (_ & ? & ? & ?).
      repeat split; simpl; try done. by eapply table_targets_are_statuses.
    + rewrite map_size_insert_Some by (by eexists). intros Hk. apply Hdense.
      rewrite lookup_insert in Hk. case_decide; [subst; by eexists | done].
    + rewrite map_size_insert_Some by (by eexists). intros Hk.
      apply Hdense in Hk. rewrite lookup_insert. by case_decide.
    + intros row [Hin|Hin%list_elem_of_singleton]%elem_of_app.
      * rewrite lookup_insert. case_decide; [done | by apply Hlog].
      * subst row. simpl. rewrite lookup_insert_eq. by eexists.
  - assert (i = next_deal_id (deals w)) as Ei.
    { apply Hnext; [done|]. rewrite Hd, lookup_insert_eq. by eexists. }
    rewrite (dense_next_id _ Hdense) in Ei.
    rewrite Hd, Hl. split; [|split; [intros k; split|]].
    + intros id d'. rewrite lookup_insert. case_decide; [|by apply Hv].
      intros [= <-]. destruct (Htmp _ _ Ht) as (_ & Ha & Hde).
      repeat split; simpl; try done.
      * unfold all_statuses. apply list_elem_of_here.
      * by apply Ha.
      * by apply Hde.
    + rewrite map_size_insert_None by done. intros Hk.
      rewrite lookup_insert in Hk. case_decide; [lia|].
      apply Hdense in Hk. lia.
    + rewrite map_size_insert_None by done. intros Hk.
      rewrite lookup_insert. case_decide; [done|]. apply Hdense. lia.
    + intros row [Hin|Hin%list_elem_of_singleton]%elem_of_app.
      * rewrite lookup_insert. case_decide; [done | by apply Hlog].
      * subst row. simpl. rewrite lookup_insert_eq. by eexists.
Qed.

Lemma sessions_ok_update sts ut u st t :
  sessions_ok sts ut → st ∈ creation_states → step_ready st t → valid_temp t →
  sessions_ok (<[u := st]> sts) (<[u := t]> ut).
Proof.
  intros [H1 H2] Hst Hr Hv. split.
  - intros u' st'. rewrite lookup_insert. case_decide as E.
    + intros [= <-]. split; [done|]. subst u'. exists t.
      by rewrite lookup_insert_eq.
    + intros Hu. destruct (H1 _ _ Hu) as (? & t' & ? & ?). split; [done|].
      exists t'. by rewrite lookup_insert_ne.
  - intros u' t'. rewrite lookup_insert. case_decide; [by intros [= <-]|].
    apply H2.
Qed.

Lemma sessions_ok_delete sts ut u :
  sessions_ok sts ut → sessions_ok (delete u sts) (delete u ut).
Proof.
  intros [H1 H2]. split.
  - intros u' st'. rewrite lookup_delete. case_decide; [done|].
    intros Hu. destruct (H1 _ _ Hu) as (? & t' & ? & ?). split; [done|].
    exists t'. by rewrite lookup_delete_ne.
  - intros u' t'. rewrite lookup_delete. case_decide; [done | apply H2].
Qed.

Lemma sessions_ok_restate sts ut u st t :
  sessions_ok sts ut → ut !! u = Some t → st ∈ creation_states →
  step_ready st t → sessions_ok (<[u := st]> sts) ut.
Proof.
  intros H Ht Hst Hr. rewrite <- (insert_id ut u t Ht).
  apply sessions_ok_update; try done. destruct H as [_ H2]. by eapply H2.
Qed.

Ltac in_states :=
  unfold creation_states;
  repeat first [ apply list_elem_of_here | apply list_elem_of_further ].

Lemma menu_sessions_ok c w :
  sessions_ok (user_states w) (user_temp w) →
  sessions_ok (user_states (cb_menu_new_deal c w).1)
    (user_temp (cb_menu_new_deal c w).1).
Proof.
  intros H. unfold cb_menu_new_deal. simpl.
  destruct (user_temp w !! call_from c) as [t|] eqn:E.
  - eapply sessions_ok_restate; [done|done|in_states|].
    by repeat split.
  - apply sessions_ok_update; [done|in_states| |]; by repeat split.
Qed.

Lemma seller_step_sessions_ok m w :
  sessions_ok (user_states w) (user_temp w) →
  sessions_ok (user_states (new_deal_step_seller m w).1)
    (user_temp (new_deal_step_seller m w).1).
Proof.
  intros H. unfold new_deal_step_seller.
  set (seller := match forward_from m with Some fwd => Some fwd | None => _ end).
  destruct seller as [sid|]; [|done].
  destruct (Py.int_truthy sid) eqn:Hs; cbn [negb]; [|done].
  destruct (user_temp w !! from_user m) as [tmp|] eqn:E; [|done].
  simpl. rewrite lookup_insert_eq.
  assert (valid_temp tmp) as (V1 & V2 & V3) by (destruct H as [_ H2]; eauto).
  apply sessions_ok_update; [done|in_states| |].
  - split; [by eexists|]. split; [done | discriminate].
  - split; [|done]. simpl. intros s [= <-]. unfold Py.int_truthy in Hs.
    intros ->. discriminate.
Qed.

Lemma amount_step_sessions_ok m w :
  sessions_ok (user_states w) (user_temp w) →
  get_state (from_user m) w = Some STATE_NEW_DEAL_AMOUNT →
  sessions_ok (user_states (new_deal_step_amount m w).1)
    (user_temp (new_deal_step_amount m w).1).
Proof.
  intros H Hst. unfold new_deal_step_amount.
  destruct (Py.float _) as [amt|]; [|done].
  destruct (Py.float_le_zero amt) eqn:Hle; [done|].
  destruct (user_temp w !! from_user m) as [tmp|] eqn:E; [|done].
  simpl. rewrite lookup_insert_eq.
  assert (valid_temp tmp) as (V1 & V2 & V3) by (destruct H as [_ H2]; eauto).
  destruct (proj1 H _ _ Hst) as (_ & t' & Ht' & R1 & _).
  rewrite E in Ht'. injection Ht' as <-.
  apply sessions_ok_update; [done|in_states| |].
  - split; [intros _; by apply R1|]. split; [by eexists | discriminate].
  - split; [done|]. split; [|done]. simpl. by intros a [= <-].
Qed.

Lemma description_step_sessions_ok m w :
  sessions_ok (user_states w) (user_temp w) →
  get_state (from_user m) w = Some STATE_NEW_DEAL_DESCRIPTION →
  sessions_ok (user_states (new_deal_step_description m w).1)
    (user_temp (new_deal_step_description m w).1) ∧
  (new_deal_step_description m w).2 ≠ Raised.
Proof.
  intros H Hst. unfold new_deal_step_description.
  set (descr := match text m with Some t => _ | None => _ end).
  destruct (Py.str_truthy descr) eqn:Hd; cbn [negb]; [|done].
  destruct (proj1 H _ _ Hst) as (_ & tmp & Ht & R1 & R2 & _).
  rewrite Ht.
  assert (valid_temp tmp) as (V1 & V2 & V3) by (destruct H as [_ H2]; eauto).
  destruct R1 as [sid Hsid]; [done|]. destruct R2 as [amt Hamt]; [done|done|].
  rewrite Hsid, Hamt. simpl. rewrite lookup_insert_eq. split; [|done].
  apply sessions_ok_update; [done|in_states| |].
  - repeat split; by eexists.
  - split; [by rewrite <- Hsid|]. split; [by rewrite <- Hamt|].
    simpl. intros d [= <-]. intros E. rewrite E in Hd. discriminate.
Qed.

Lemma confirm_sessions_ok clk c w :
  sessions_ok (user_states w) (user_temp w) →
  sessions_ok (user_states (cb_new_deal_confirm clk c w).1)
    (user_temp (cb_new_deal_confirm clk c w).1).
Proof.
  intros H. unfold cb_new_deal_confirm.
  case_bool_decide; [done|].
  case_bool_decide; simpl; [by apply sessions_ok_delete|].
  destruct (default empty_temp _) as [[?|] [?|] [?|]]; simpl;
    try by apply sessions_ok_delete.
  destruct (negb _); simpl; by apply sessions_ok_delete.
Qed.

Lemma WF_sessions admins clk u w :
  WF w →
  sessions_ok (user_states (handle admins clk u w).1)
    (user_temp (handle admins clk u w).1).
Proof.
  intros (_ & _ & _ & H). change (sessions_ok (user_states w) (user_temp w)) in H.
  assert (∀ h, temp_blind h →
               sessions_ok (user_states (h w).1) (user_temp (h w).1)) as Blind.
  { intros h Hb. by destruct (blind_sessions h w Hb) as [-> ->]. }
  destruct u as [m|c].
  - unfold handle, message_handlers, dispatch.
    repeat (destruct (is_command _ m); [done|]).
    destruct (in_state STATE_NEW_DEAL_SELLER m w);
      [by apply seller_step_sessions_ok|].
    destruct (in_state STATE_NEW_DEAL_AMOUNT m w && is_text m) eqn:E2;
      [apply andb_true_iff in E2 as [E2 _];
       apply amount_step_sessions_ok; [done | by apply in_state_true]|].
    destruct (in_state STATE_NEW_DEAL_DESCRIPTION m w && is_text m) eqn:E3;
      [apply andb_true_iff in E3 as [E3 _];
       apply description_step_sessions_ok; [done | by apply in_state_true]|].
    apply (Blind _ (fallback_blind clk m)).
  - unfold handle, callback_handlers, dispatch, data_equals, data_startswith.
    destruct (bool_decide _); [by apply menu_sessions_ok|].
    destruct (bool_decide _); [done|].
    destruct (Py.startswith _ _); [by apply confirm_sessions_ok|].
    repeat (destruct (Py.startswith _ _);
            [apply (Blind _ (party_button_blind _ _ _ _ clk c))|]).
    destruct (Py.startswith _ _);
      [apply (Blind _ (admin_dispute_blind admins clk c))|].
    done.
Qed.

Lemma WF_step admins clk u w : WF w → WF (handle admins clk u w).1.
Proof.
  intros H. destruct (WF_store admins clk u w H) as (S1 & S2 & S3).
  pose proof (WF_sessions admins clk u w H) as [S4 S5].
  exact (conj S1 (conj S2 (conj S3 (conj S4 S5)))).
Qed.

Lemma WF_empty : WF empty_world.
Proof.
  unfold WF, empty_world. simpl. split; [|split; [|split; [|split]]].
  - intros id d. by rewrite lookup_empty.
  - intros k. rewrite lookup_empty, map_size_empty. split; [by intros [] | lia].
  - intros row Hin. by apply elem_of_nil in Hin.
  - intros u st. by rewrite lookup_empty.
  - intros u t. by rewrite lookup_empty.
Qed.

Lemma WF_run admins us w : WF w → WF (run admins us w).
Proof.
  revert w. induction us as [|[clk u] us IH]; intros w H; simpl; [done|].
  by apply IH, WF_step.
Qed.

Lemma not_le_zero_positive x :
  Py.float_le_zero x = false → x ≠ S754_nan → float_positive x = true.
Proof.
  unfold Py.float_le_zero, float_positive.
  destruct x as [[]|[]| |[] m e]; vm_compute; congruence.
Qed.

(** X10. Every deal in a world reached from the empty one has one of the
    eleven statuses, a seller id other than zero and a description that is
    not empty; its amount column is NULL (a NaN was bound) or holds a float
    greater than zero. *)
Theorem reachable_deals_are_valid admins us id d :
  deals (run admins us empty_world) !! id = Some d →
  status d ∈ all_statuses ∧ seller_id d ≠ 0 ∧
  (∀ a, stored_amount (amount d) = Some a → float_positive a = true) ∧
  description d ≠ EmptyString.
Proof.
  intros H. destruct (WF_run admins us empty_world WF_empty) as (Hv & _).
  destruct (Hv id d H) as (Hst & Hs & Ha & Hdescr).
  split; [done|]. split; [done|]. split; [|done].
  intros a Hsa.
  assert (amount d ≠ S754_nan) as Hn
    by (intros E; rewrite E in Hsa; discriminate Hsa).
  assert (a = amount d) as ->
    by (destruct (amount d); simpl in Hsa; congruence).
  by apply not_le_zero_positive.
Qed.

Lemma reachable_deals_are_valid_witness :
  let d := mkDeal 1 2 (S754_finite false 7036874417766400 (-46)) "x"
             STATUS_COMPLETED (now noon) (now noon) in
  deals (run [9] completed_deal empty_world) !! 1 = Some d ∧
  status d ∈ all_statuses ∧ seller_id d ≠ 0 ∧
  (∀ a, stored_amount (amount d) = Some a → float_positive a = true) ∧
  description d ≠ EmptyString.
Proof.
  split; [vm_compute; reflexivity|].
  apply (reachable_deals_are_valid [9] completed_deal 1).
  vm_compute. reflexivity.
Defined.

(** X11. Deal ids are consecutive: in a world reached from the empty one the
    ids in use are exactly 1, 2, ..., n for the n deals of the table, and the
    next deal gets n + 1. *)
Theorem deal_ids_are_consecutive admins us :
  let ds := deals (run admins us empty_world) in
  (∀ k, is_Some (ds !! k) ↔ 1 ≤ k ≤ Z.of_nat (size ds)) ∧
  next_deal_id ds = Z.of_nat (size ds) + 1.
Proof.
  destruct (WF_run admins us empty_world WF_empty) as (_ & Hd & _).
  split; [exact Hd | by apply dense_next_id].
Qed.

(** X12. Every row of the audit log names a deal that is in the table. *)
Theorem log_rows_name_existing_deals admins us row :
  row ∈ logs (run admins us empty_world) →
  is_Some (deals (run admins us empty_world) !! row_deal_id row).
Proof.
  intros H. destruct (WF_run admins us empty_world WF_empty) as (_ & _ & Hl & _).
  by apply Hl.
Qed.

Lemma log_rows_name_existing_deals_witness :
  let row := mkLog 1 (ActBuyerPaid 1) (log_now noon) in
  row ∈ logs (run [9] paid_deal empty_world) ∧
  is_Some (deals (run [9] paid_deal empty_world) !! row_deal_id row).
Proof.
  assert (mkLog 1 (ActBuyerPaid 1) (log_now noon)
          ∈ logs (run [9] paid_deal empty_world)) as H.
  { apply list_elem_of_In. vm_compute. right. right. left. reflexivity. }
  split; [exact H|].
  exact (log_rows_name_existing_deals [9] paid_deal _ H).
Defined.

Lemma creation_rows_step admins clk u w :
  (∀ id d, deals w !! id = Some d →
     ∃ ts, mkLog id (ActCreated (buyer_id d) (seller_id d) (amount d)) ts
           ∈ logs w) →
  ∀ id d, deals (handle admins clk u w).1 !! id = Some d →
    ∃ ts, mkLog id (ActCreated (buyer_id d) (seller_id d) (amount d)) ts
          ∈ logs (handle admins clk u w).1.
Proof.
  intros H id d.
  destruct (handle_effect admins clk u w)
    as [Hd Hl | i d0 r st a Hi _ _ Hd Hl | i sid amt descr Hi _ _ Hd Hl];
    rewrite Hd, Hl.
  - apply H.
  - rewrite lookup_insert. case_decide.
    + intros [= <-]. subst i. destruct (H _ _ Hi) as [ts Hts]. exists ts.
      apply elem_of_app. by left.
    + intros Hid. destruct (H _ _ Hid) as [ts Hts]. exists ts.
      apply elem_of_app. by left.
  - rewrite lookup_insert. case_decide.
    + intros [= <-]. subst i. exists (log_now clk). apply elem_of_app. right.
      simpl. apply list_elem_of_here.
    + intros Hid. destruct (H _ _ Hid) as [ts Hts]. exists ts.
      apply elem_of_app. by left.
Qed.

(** X13. Every deal in a world reached from the empty one has its creation
    row in the audit log.  The row records the buyer and the seller the deal
    still has and the amount that was bound when the deal was inserted: the
    amount column of the deal holds what SQLite keeps of that float (the
    float itself, NULL for a NaN). *)
Theorem every_deal_has_its_creation_row admins us id d :
  deals (run admins us empty_world) !! id = Some d →
  ∃ ts amt,
    mkLog id (ActCreated (buyer_id d) (seller_id d) amt) ts
      ∈ logs (run admins us empty_world) ∧
    stored_amount (amount d) = stored_amount amt.
Proof.
  assert (∀ w,
    (∀ id d, deals w !! id = Some d →
       ∃ ts, mkLog id (ActCreated (buyer_id d) (seller_id d) (amount d)) ts
             ∈ logs w) →
    ∀ id d, deals (run admins us w) !! id = Some d →
      ∃ ts, mkLog id (ActCreated (buyer_id d) (seller_id d) (amount d)) ts
            ∈ logs (run admins us w)) as G.
  { induction us as [|[clk u] us IH]; intros w H; simpl; [done|].
    apply IH. by apply creation_rows_step. }
  intros Hd. destruct (G empty_world) with (id := id) (d := d) as [ts Hts];
    [intros i x; simpl; by rewrite lookup_empty | done |].
  by exists ts, (amount d).
Qed.

Lemma every_deal_has_its_creation_row_witness :
  let d := mkDeal 1 2 (S754_finite false 7036874417766400 (-46)) "x"
             STATUS_COMPLETED (now noon) (now noon) in
  deals (run [9] completed_deal empty_world) !! 1 = Some d ∧
  ∃ ts amt,
    mkLog 1 (ActCreated (buyer_id d) (seller_id d) amt) ts
      ∈ logs (run [9] completed_deal empty_world) ∧
    stored_amount (amount d) = stored_amount amt.
Proof.
  split; [vm_compute; reflexivity|].
  apply (every_deal_has_its_creation_row [9] completed_deal 1).
  vm_compute. reflexivity.
Defined.

(** X14. In a world reached from the empty one every user who has a step
    has a field map too, the step is one of the four creation states, the
    fields of the steps already passed are in the map, and every stored field
    passed its check (seller id not zero, amount not [<= 0], description not
    empty).  So the subscripts [user_temp[user_id][...]] of the step handlers
    find their keys. *)
Theorem sessions_hold_their_fields admins us u st :
  user_states (run admins us empty_world) !! u = Some st →
  st ∈ creation_states ∧
  ∃ t, user_temp (run admins us empty_world) !! u = Some t ∧
       step_ready st t ∧ valid_temp t.
Proof.
  intros Hst.
  pose proof (WF_run admins us empty_world WF_empty) as (_ & _ & _ & H & V).
  destruct (H _ _ Hst) as (Hin & t & Ht & Hr).
  split; [done|]. exists t. split; [done|]. split; [done|]. by apply (V u).
Qed.

Lemma sessions_hold_their_fields_witness :
  let w := run [] [taps 7 "menu_new_deal"; says 7 "5"; says 7 "10"] empty_world in
  user_states w !! 7 = Some STATE_NEW_DEAL_DESCRIPTION ∧
  ∃ t, user_temp w !! 7 = Some t ∧
       step_ready STATE_NEW_DEAL_DESCRIPTION t ∧ valid_temp t.
Proof.
  split; [vm_compute; reflexivity|].
  apply (sessions_hold_their_fields []
           [taps 7 "menu_new_deal"; says 7 "5"; says 7 "10"] 7
           STATE_NEW_DEAL_DESCRIPTION).
  vm_compute. reflexivity.
Defined.

(** X15. In a world reached from the empty one the missing-data branch of
    the confirm handler is dead: a confirm press other than "no" at the
    confirm step inserts the deal, under the next id, whenever the seller id
    of the session is one the INSERT can bind. *)
Theorem confirm_at_confirm_step_creates admins us clk c :
  Py.startswith "new_deal_confirm_" (data c) = true →
  data c ≠ "new_deal_confirm_no" →
  get_state (call_from c) (run admins us empty_world)
    = Some STATE_NEW_DEAL_CONFIRM →
  (∀ t sid, user_temp (run admins us empty_world) !! call_from c = Some t →
            temp_seller_id t = Some sid → sqlite_integer sid) →
  (handle admins clk (UCallback c) (run admins us empty_world)).2
    = Created (next_deal_id (deals (run admins us empty_world))) ∧
  is_Some (deals (handle admins clk (UCallback c)
                    (run admins us empty_world)).1
           !! next_deal_id (deals (run admins us empty_world))).
Proof.
  intros Hp Hno Hst _.
  pose proof (WF_run admins us empty_world WF_empty) as (_ & _ & _ & H).
  change (sessions_ok (user_states (run admins us empty_world))
            (user_temp (run admins us empty_world))) in H.
  set (w := run admins us empty_world) in *.
  destruct (proj1 H _ _ Hst) as (_ & [s a d] & Ht & R1 & R2 & R3).
  destruct (proj2 H _ _ Ht) as (V1 & V2 & V3).
  cbn [temp_seller_id temp_amount temp_description] in *.
  destruct R1 as [sid ->]; [done|]. destruct R2 as [amt ->]; [done|done|].
  destruct R3 as [descr ->]; [done|].
  rewrite confirm_route by done.
  rewrite (confirm_creates clk c w sid amt descr); try done.
  - simpl. split; [done|]. rewrite lookup_insert_eq. by eexists.
  - by apply V1.
  - by apply positive_amount_is_truthy, V2.
  - by apply V3.
Qed.

Lemma confirm_at_confirm_step_creates_witness :
  let us := [taps 7 "menu_new_deal"; says 7 "5"; says 7 "10"; says 7 "thing"] in
  let c := mkCall 7 "new_deal_confirm_yes" in
  (handle [] noon (UCallback c) (run [] us empty_world)).2
    = Created (next_deal_id (deals (run [] us empty_world))) ∧
  is_Some (deals (handle [] noon (UCallback c) (run [] us empty_world)).1
           !! next_deal_id (deals (run [] us empty_world))).
Proof.
  apply (confirm_at_confirm_step_creates []
           [taps 7 "menu_new_deal"; says 7 "5"; says 7 "10"; says 7 "thing"]
           noon (mkCall 7 "new_deal_confirm_yes")).
  - vm_compute. reflexivity.
  - simpl. discriminate.
  - vm_compute. reflexivity.
  - intros t sid Ht Hs. vm_compute in Ht. injection Ht as <-.
    injection Hs as <-. unfold sqlite_integer. lia.
Defined.

(** ** Deal ids in callback data *)

Lemma str_chars s : Py.str (Py.chars s) = s.
Proof. apply string_of_list_ascii_of_string. Qed.

Lemma chars_str l : Py.chars (Py.str l) = l.
Proof. apply list_ascii_of_string_of_list_ascii. Qed.

Lemma split_without_sep sep cur l :
  sep ∉ l → Py.split_chars sep cur l = [Py.str (rev cur ++ l)].
Proof.
  revert cur. induction l as [|c l IH]; intros cur H; simpl.
  - by rewrite app_nil_r.
  - rewrite not_elem_of_cons in H. destruct H as [Hc Hl].
    destruct (Ascii.eqb_spec c sep) as [->|_]; [done|].
    rewrite IH by done. simpl. by rewrite <- app_assoc.
Qed.

Lemma last_cons_nonempty {A} (a : A) l d :
  l ≠ [] → List.last (a :: l) d = List.last l d.
Proof. by destruct l. Qed.

Lemma split_last_part sep l cs cur :
  sep ∉ cs →
  List.last (Py.split_chars sep cur (l ++ sep :: cs)) EmptyString = Py.str cs.
Proof.
  intros H. revert cur. induction l as [|c l IH]; intros cur; simpl.
  - rewrite Ascii.eqb_refl.
    rewrite last_cons_nonempty by apply split_chars_nonempty.
    by rewrite split_without_sep.
  - destruct (Ascii.eqb c sep); [|apply IH].
    rewrite last_cons_nonempty by apply split_chars_nonempty. apply IH.
Qed.

Lemma digit_facts c :
  Py.is_digit c = true →
  Py.c_isspace c = false ∧ Py.isspace c = false ∧ c ≠ "_"%char ∧
  c ≠ "+"%char ∧ c ≠ "-"%char.
Proof.
  destruct c as [[] [] [] [] [] [] [] []]; vm_compute; intros H;
    try discriminate H; repeat split; discriminate.
Qed.

Lemma no_underscore_digits l prev :
  forallb Py.is_digit l = true →
  match prev with Some p => Ascii.eqb p "_" | None => false end = false →
  Py.drop_underscores prev l = Some l.
Proof.
  revert prev. induction l as [|c l IH]; intros prev Hl Hp.
  - simpl. by rewrite Hp.
  - apply andb_true_iff in Hl as [Hc Hl].
    destruct (digit_facts c Hc) as (_ & _ & Hu & _).
    assert (Ascii.eqb c "_" = false) as E by by apply Ascii.eqb_neq.
    cbn [Py.drop_underscores]. rewrite E, Hc. cbn [negb].
    rewrite andb_false_r. rewrite (IH (Some c)); done.
Qed.

Lemma unsigned_int_digits l :
  l ≠ [] → forallb Py.is_digit l = true →
  Py.unsigned_int l = Some (Py.digits_value l).
Proof.
  intros Hne Hl. unfold Py.unsigned_int.
  rewrite no_underscore_digits by done.
  destruct l as [|c r]; [done|]. by rewrite Hl.
Qed.

Lemma lstrip_first p c l : p c = false → Py.lstrip_by p (c :: l) = c :: l.
Proof. intros H. simpl. by rewrite H. Qed.

Lemma strip_no_space p l :
  forallb (fun c => negb (p c)) l = true → Py.strip_by p l = l.
Proof.
  intros H. rewrite forallb_forall in H. unfold Py.strip_by.
  assert (∀ k, (∀ c, In c k → negb (p c) = true) → Py.lstrip_by p k = k) as L.
  { intros [|c k] Hk; [done|]. apply lstrip_first.
    apply negb_true_iff, Hk. by left. }
  rewrite (L l H). rewrite L; [apply rev_involutive|].
  intros c Hc. apply H. by apply in_rev.
Qed.

Lemma uint_digits d :
  forallb Py.is_digit
    (Py.chars (DecimalString.NilEmpty.string_of_uint d)) = true.
Proof.
  induction d; [reflexivity|..];
    cbn [DecimalString.NilEmpty.string_of_uint Py.chars list_ascii_of_string
         forallb];
    unfold Py.chars in IHd; rewrite IHd; reflexivity.
Qed.

Lemma uint_value_acc d p :
  fold_left (fun acc c => 10 * acc + Py.digit_val c)
    (Py.chars (DecimalString.NilEmpty.string_of_uint d)) (Z.pos p)
  = Z.pos (Pos.of_uint_acc d p).
Proof.
  revert p. induction d; intros p; [reflexivity|..];
    cbn [DecimalString.NilEmpty.string_of_uint Py.chars list_ascii_of_string
         fold_left Pos.of_uint_acc];
    unfold Py.chars in IHd; rewrite <- IHd; f_equal;
    unfold Py.digit_val, Py.code; simpl N_of_ascii; lia.
Qed.

Lemma uint_value d :
  Py.digits_value (Py.chars (DecimalString.NilEmpty.string_of_uint d))
  = Z.of_N (Pos.of_uint d).
Proof.
  unfold Py.digits_value. induction d; [reflexivity|..];
    cbn [DecimalString.NilEmpty.string_of_uint Py.chars list_ascii_of_string
         fold_left Pos.of_uint];
    [ exact IHd | .. ];
    match goal with
    | |- fold_left _ _ ?a = _ =>
        let v := eval vm_compute in a in change a with v
    end;
    apply (uint_value_acc d).
Qed.

(** [int()] reads a run of digits as its value. *)
Lemma int_of_digits l :
  l ≠ [] → forallb Py.is_digit l = true →
  Py.int (Py.str l) = Some (Py.digits_value l).
Proof.
  intros Hne Hl. unfold Py.int. rewrite chars_str.
  rewrite strip_no_space.
  2:{ apply forallb_forall. intros c Hc.
      rewrite forallb_forall in Hl.
      by destruct (digit_facts c (Hl c Hc)) as (-> & _). }
  destruct l as [|c r]; [done|].
  pose proof Hl as Hc. apply andb_true_iff in Hc as [Hc _].
  destruct (digit_facts c Hc) as (_ & _ & _ & Hp & Hm).
  rewrite <- (unsigned_int_digits (c :: r)) by done.
  destruct c as [[] [] [] [] [] [] [] []]; try reflexivity; congruence.
Qed.

(** [int(str(n))] is [n]. *)
Lemma int_str n : Py.int (str_int n) = Some n.
Proof.
  assert (∀ d, d ≠ Decimal.Nil →
            Py.int (DecimalString.NilEmpty.string_of_uint d)
            = Some (Z.of_N (Pos.of_uint d))) as P.
  { intros d Hd. rewrite <- uint_value, <- int_of_digits.
    - by rewrite str_chars.
    - by destruct d.
    - apply uint_digits. }
  assert (∀ p, Pos.to_uint p ≠ Decimal.Nil) as NZ.
  { intros p E. pose proof (DecimalPos.Unsigned.of_to p) as H.
    rewrite E in H. discriminate H. }
  assert (∀ d, d ≠ Decimal.Nil →
            DecimalString.NilZero.string_of_uint d
            = DecimalString.NilEmpty.string_of_uint d) as Z0
    by (by intros []).
  destruct n as [|p|p]; [reflexivity|..]; unfold str_int; simpl Z.to_int;
    cbn [DecimalString.NilZero.string_of_int]; rewrite Z0 by apply NZ.
  - rewrite P by apply NZ. by rewrite DecimalPos.Unsigned.of_to.
  - pose proof (uint_digits (Pos.to_uint p)) as Hd.
    pose proof (uint_value (Pos.to_uint p)) as Hv.
    rewrite DecimalPos.Unsigned.of_to in Hv.
    assert (Py.chars (DecimalString.NilEmpty.string_of_uint (Pos.to_uint p))
            ≠ []) as Hne.
    { pose proof (NZ p). by destruct (Pos.to_uint p). }
    unfold Py.int. cbn [Py.chars list_ascii_of_string].
    fold (Py.chars (DecimalString.NilEmpty.string_of_uint (Pos.to_uint p))).
    set (l := Py.chars _) in *.
    rewrite (strip_no_space _ ("-"%char :: l)).
    2:{ cbn [forallb]. apply andb_true_iff. split; [reflexivity|].
        apply forallb_forall. intros c Hc. rewrite forallb_forall in Hd.
        by destruct (digit_facts c (Hd c Hc)) as (-> & _). }
    cbv iota beta. rewrite unsigned_int_digits by done. by rewrite Hv.
Qed.

Lemma str_int_no_underscore n : "_"%char ∉ Py.chars (str_int n).
Proof.
  assert (∀ d, "_"%char ∉ Py.chars (DecimalString.NilZero.string_of_uint d)) as U.
  { intros d Hin.
    assert (Py.is_digit "_" = true) as E; [|discriminate E].
    destruct d; [by repeat (apply elem_of_cons in Hin as [Hin|Hin];
                            [discriminate Hin|]); apply elem_of_nil in Hin|..];
      (pose proof (uint_digits d) as Hd || pose proof I as Hd);
      match type of Hin with
      | _ ∈ Py.chars (DecimalString.NilZero.string_of_uint ?x) =>
          pose proof (uint_digits x) as Hx;
          change (DecimalString.NilZero.string_of_uint x)
            with (DecimalString.NilEmpty.string_of_uint x) in Hin;
          rewrite forallb_forall in Hx; apply Hx;
          by apply list_elem_of_In
      end. }
  unfold str_int. destruct (Z.to_int n) as [d|d];
    cbn [DecimalString.NilZero.string_of_int]; [apply U|].
  cbn [Py.chars list_ascii_of_string]. rewrite not_elem_of_cons.
  split; [discriminate | apply U].
Qed.

(** The id a handler reads back from the data of a button made with
    [f"<prefix>_{deal_id}"]. *)
Lemma deal_id_round_trip p n :
  deal_id_of (p +:+ "_" +:+ str_int n) = Some n.
Proof.
  unfold deal_id_of, Py.split. rewrite chars_append.
  change (Py.chars ("_" +:+ str_int n))
    with ("_"%char :: Py.chars (str_int n)).
  rewrite split_last_part by apply str_int_no_underscore.
  rewrite str_chars. apply int_str.
Qed.

(** ** Keyboards against the handlers *)

(** A press on a seller or buyer button by the party it is for, while the
    deal is in the source status of the handler. *)
Lemma party_press_commits who src dst act clk c w id d :
  deal_id_of (data c) = Some id →
  deals w !! id = Some d →
  call_from c = who d →
  status d = src →
  (party_button who src dst act clk c w).2 = Committed id dst ∧
  deals (party_button who src dst act clk c w).1
    = <[id := set_status dst (now clk) d]> (deals w).
Proof.
  intros Hid Hd Hwho Hst. unfold party_button, get_deal. rewrite Hid, Hd.
  rewrite bool_decide_eq_false_2 by (intros E; by apply E).
  rewrite bool_decide_eq_false_2 by (intros E; by apply E).
  split; [done|]. simpl. by apply alter_present.
Qed.

Lemma party_route_to admins clk c w :
  (Py.startswith "seller_accept_" (data c) = true →
   handle admins clk (UCallback c) w = cb_seller_accept clk c w) ∧
  (Py.startswith "seller_reject_" (data c) = true →
   handle admins clk (UCallback c) w = cb_seller_reject clk c w) ∧
  (Py.startswith "deal_paid_" (data c) = true →
   handle admins clk (UCallback c) w = cb_deal_paid clk c w) ∧
  (Py.startswith "deal_cancel_" (data c) = true →
   handle admins clk (UCallback c) w = cb_deal_cancel clk c w) ∧
  (Py.startswith "deal_sent_" (data c) = true →
   handle admins clk (UCallback c) w = cb_deal_sent clk c w) ∧
  (Py.startswith "buyer_ok_" (data c) = true →
   handle admins clk (UCallback c) w = cb_buyer_ok clk c w) ∧
  (Py.startswith "buyer_dispute_" (data c) = true →
   handle admins clk (UCallback c) w = cb_buyer_dispute clk c w).
Proof. repeat split; intros H; route; reflexivity. Qed.

(** The data of a button made with [f"adm_<word>_{deal_id}"]. *)
Lemma admin_press_commits admins clk w user id d word st a :
  user ∈ admins →
  deals w !! id = Some d →
  status d = STATUS_DISPUTE →
  nth_error (Py.split "_" ("adm_" +:+ word +:+ "_" +:+ str_int id)) 1
    = Some word →
  resolution word user = Some (st, a) →
  let r := handle admins clk
             (UCallback (mkCall user ("adm_" +:+ word +:+ "_" +:+ str_int id)))
             w in
  r.2 = Committed id st ∧
  deals r.1 = <[id := set_status st (now clk) d]> (deals w).
Proof.
  intros Ha Hd Hst Hw Hres. cbv zeta.
  rewrite admin_route by apply (prefix_append "adm_").
  unfold cb_admin_dispute, is_admin, get_deal. cbn [call_from data].
  rewrite bool_decide_eq_true_2 by done. cbn [negb]. rewrite Hw.
  pose proof (deal_id_round_trip ("adm_" +:+ word) id) as Hid.
  unfold deal_id_of in Hid.
  replace (("adm_" +:+ word) +:+ "_" +:+ str_int id)
    with ("adm_" +:+ word +:+ "_" +:+ str_int id) in Hid by reflexivity.
  rewrite Hid, Hd.
  rewrite bool_decide_eq_false_2 by (intros E; by apply E).
  rewrite Hres. split; [done|]. simpl. by apply alter_present.
Qed.

(** Each of the ten buttons, pressed for an existing deal in the status its
    handler requires by a sender who holds the role, commits. *)
Lemma button_press admins clk w id d user p src r dst :
  (p, src, r, dst) ∈ button_rows →
  deals w !! id = Some d →
  status d = src →
  holds_role admins user d r →
  let res := handle admins clk (UCallback (mkCall user (p +:+ str_int id))) w in
  res.2 = Committed id dst ∧
  deals res.1 = <[id := set_status dst (now clk) d]> (deals w).
Proof.
  intros Hin Hd Hst Hrole. cbv zeta.
  pose proof (party_route_to admins clk) as R.
  unfold button_rows in Hin.
  repeat (apply elem_of_cons in Hin as [Hin|Hin]; [simplify_eq|]);
    try (by apply elem_of_nil in Hin);
    cbn [holds_role] in *.
  all: try match goal with
       | |- context [mkCall ?u (?p +:+ str_int ?i)] =>
           lazymatch p with
           | "adm_buyer_" => fail
           | "adm_seller_" => fail
           | "adm_partial_" => fail
           | _ => idtac
           end;
           set (c := mkCall u (p +:+ str_int i));
           assert (deal_id_of (data c) = Some i) as Hid
             by (let q := eval vm_compute in
                            (substring 0 (String.length p - 1) p) in
                 exact (deal_id_round_trip q i));
           assert (Py.startswith p (data c) = true) as Hp
             by apply (prefix_append p)
       end.
  - destruct (R c w) as (E & _). rewrite (E Hp).
    by apply (party_press_commits seller_id).
  - destruct (R c w) as (_ & E & _). rewrite (E Hp).
    by apply (party_press_commits seller_id).
  - destruct (R c w) as (_ & _ & E & _). rewrite (E Hp).
    by apply (party_press_commits buyer_id).
  - destruct (R c w) as (_ & _ & _ & E & _). rewrite (E Hp).
    by apply (party_press_commits buyer_id).
  - destruct (R c w) as (_ & _ & _ & _ & E & _). rewrite (E Hp).
    by apply (party_press_commits seller_id).
  - destruct (R c w) as (_ & _ & _ & _ & _ & E & _). rewrite (E Hp).
    by apply (party_press_commits buyer_id).
  - destruct (R c w) as (_ & _ & _ & _ & _ & _ & E). rewrite (E Hp).
    by apply (party_press_commits buyer_id).
  - by apply (admin_press_commits admins clk w user id d "buyer" _
                (ActAdminForBuyer user)).
  - by apply (admin_press_commits admins clk w user id d "seller" _
                (ActAdminForSeller user)).
  - by apply (admin_press_commits admins clk w user id d "partial" _
                (ActAdminPartial user)).
Qed.

Lemma button_rows_in_table p src r dst :
  (p, src, r, dst) ∈ button_rows → (src, r, dst) ∈ transition_table.
Proof.
  unfold button_rows. intros Hin.
  repeat (apply elem_of_cons in Hin as [Hin|Hin]; [simplify_eq; in_table|]).
  by apply elem_of_nil in Hin.
Qed.

(** The buttons of the keyboard of a notice are rows of [button_rows] out of
    the announced status, for the party the notice goes to. *)
Lemma notice_buttons st id r kb b :
  notice_keyboard st id = Some (r, kb) →
  b ∈ buttons kb →
  ∃ p dst, (p, st, r, dst) ∈ button_rows ∧
           callback_data b = p +:+ str_int id.
Proof.
  unfold notice_keyboard. intros Hkb Hb.
  repeat case_bool_decide; simplify_eq;
    unfold buttons in Hb; simpl in Hb;
    repeat (apply elem_of_cons in Hb as [->|Hb]);
    try (by apply elem_of_nil in Hb);
    cbn [callback_data];
    match goal with
    | |- ∃ p dst, _ ∧ ?q +:+ _ = _ =>
        exists q; eexists; split; [|reflexivity]
    end;
    unfold button_rows;
    repeat first [ apply list_elem_of_here | apply list_elem_of_further ].
Qed.

(** X16. Every button the bot sends works: when a deal is in the status a
    notice announces, each button of the keyboard sent with that notice,
    pressed by the party the notice goes to, commits a transition of the
    table out of that status for the deal the keyboard was made for. *)
Theorem sent_buttons_work admins clk w id d r kb b user :
  deals w !! id = Some d →
  notice_keyboard (status d) id = Some (r, kb) →
  b ∈ buttons kb →
  holds_role admins user d r →
  let res := handle admins clk (UCallback (mkCall user (callback_data b))) w in
  ∃ st, (status d, r, st) ∈ transition_table ∧
        res.2 = Committed id st ∧
        deals res.1 = <[id := set_status st (now clk) d]> (deals w).
Proof.
  intros Hd Hkb Hb Hrole. cbv zeta.
  destruct (notice_buttons _ _ _ _ _ Hkb Hb) as (p & dst & Hin & ->).
  exists dst. split; [by eapply button_rows_in_table|].
  by apply (button_press admins clk w id d user p (status d) r dst).
Qed.

Lemma sent_buttons_work_witness :
  let w := run [9] open_deal empty_world in
  let b := mkButton "❌ Не согласен" "seller_reject_1" in
  ∃ st, (STATUS_AWAIT_SELLER_CONFIRM, Seller, st) ∈ transition_table ∧
        (handle [9] noon (UCallback (mkCall 2 (callback_data b))) w).2
          = Committed 1 st ∧
        deals (handle [9] noon (UCallback (mkCall 2 (callback_data b))) w).1
          = <[1 := set_status st (now noon)
                     (mkDeal 1 2 (S754_finite false 7036874417766400 (-46))
                        "x" STATUS_AWAIT_SELLER_CONFIRM (now noon) (now noon))]>
              (deals w).
Proof.
  apply (sent_buttons_work [9] noon (run [9] open_deal empty_world) 1
           (mkDeal 1 2 (S754_finite false 7036874417766400 (-46)) "x"
              STATUS_AWAIT_SELLER_CONFIRM (now noon) (now noon))
           Seller (seller_confirm_kb 1)
           (mkButton "❌ Не согласен" "seller_reject_1") 2).
  - vm_compute. reflexivity.
  - vm_compute. reflexivity.
  - unfold buttons. simpl. apply list_elem_of_further, list_elem_of_here.
  - reflexivity.
Defined.



(** ** The audit log replays the store *)

Lemma party_button_logged who src dst act clk c w :
  (∀ u, logged_status (act u) = dst) →
  logs_what_it_writes clk w (party_button who src dst act clk c w).
Proof.
  intros Hact. unfold party_button, get_deal.
  destruct (deal_id_of _) as [id|]; [|by left].
  destruct (deals w !! id) as [row|] eqn:E; [|by left].
  repeat (case_bool_decide; [by left|]).
  right. exists id, (set_status dst (now clk) row), (act (call_from c)).
  simpl. split; [by apply alter_present | by rewrite Hact].
Qed.

Lemma admin_dispute_logged admins clk c w :
  logs_what_it_writes clk w (cb_admin_dispute admins clk c w).
Proof.
  unfold cb_admin_dispute, get_deal.
  destruct (negb _); [by left|].
  destruct (nth_error (Py.split "_" (data c)) 1) as [action|]; [|by left].
  destruct (Py.int _) as [id|]; [|by left].
  destruct (deals w !! id) as [row|] eqn:E; [|by left].
  case_bool_decide; [by left|].
  destruct (resolution action (call_from c)) as [[st a]|] eqn:R; [|by left].
  right. exists id, (set_status st (now clk) row), a. simpl.
  split; [by apply alter_present|]. split; [done|].
  unfold resolution in R. by repeat case_bool_decide; simplify_eq.
Qed.

Lemma fallback_logged clk m w :
  logs_what_it_writes clk w (fallback_or_delivery_handler clk m w).
Proof.
  unfold fallback_or_delivery_handler.
  destruct (_ && _); [by left|].
  pose proof (latest_inv (from_user m) (deals w)) as I.
  unfold get_latest_paid_waiting_deal_for_seller.
  destruct (map_fold _ None (deals w)) as [[id d]|].
  - destruct I as (Hd & _). right.
    exists id, (set_status STATUS_WAIT_BUYER_CONFIRM (now clk) d),
      (ActSentByMessage (from_user m)).
    simpl. split; [by apply alter_present | done].
  - destruct (get_state _ _) as [st|]; [destruct (Py.str_truthy st)|];
      by left.
Qed.

Lemma confirm_logged clk c w :
  logs_what_it_writes clk w (cb_new_deal_confirm clk c w).
Proof.
  unfold cb_new_deal_confirm.
  repeat (case_bool_decide; [by left|]).
  destruct (default empty_temp _) as [[sid|] [amt|] [descr|]]; simpl;
    try (by left).
  destruct (negb _); [by left|].
  right. eexists _, _, (ActCreated (call_from c) sid amt). simpl. done.
Qed.

Lemma handle_logged admins clk u w :
  logs_what_it_writes clk w (handle admins clk u w).
Proof.
  destruct u as [m|c]; cbn [handle].
  - apply (dispatch_all (logs_what_it_writes clk w)); [by left|].
    intros f h Hin. unfold message_handlers in Hin.
    repeat (apply elem_of_cons in Hin as [[= -> ->]|Hin];
            [first [ apply fallback_logged
                   | by left
                   | left;
                     unfold new_deal_step_seller, new_deal_step_amount,
                       new_deal_step_description;
                     repeat match goal with
                       | |- context [match ?x with _ => _ end] => destruct x
                       end;
                     by rewrite ?set_state_deals, ?set_state_logs ]|]).
    by apply elem_of_nil in Hin.
  - apply (dispatch_all (logs_what_it_writes clk w)); [by left|].
    intros f h Hin. unfold callback_handlers in Hin.
    repeat (apply elem_of_cons in Hin as [[= -> ->]|Hin];
            [first [ apply confirm_logged
                   | apply admin_dispute_logged
                   | apply (party_button_logged _ _ _ _ clk c w); done
                   | by left ]|]).
    by apply elem_of_nil in Hin.
Qed.

Lemma replay_snoc id l row :
  replay id (l ++ [row])
  = if bool_decide (row_deal_id row = id)
    then Some (logged_status (row_action row)) else replay id l.
Proof. unfold replay. by rewrite fold_left_app. Qed.

Lemma replay_step admins clk u w :
  (∀ id, status_of id w = replay id (logs w)) →
  ∀ id, status_of id (handle admins clk u w).1
        = replay id (logs (handle admins clk u w).1).
Proof.
  intros Inv id. unfold status_of.
  destruct (handle_logged admins clk u w)
    as [[Hd Hl]|(i & d & a & Hd & Hl & Hs)]; rewrite Hd, Hl.
  - apply Inv.
  - rewrite replay_snoc. cbn [row_deal_id row_action].
    rewrite lookup_insert. case_decide; case_bool_decide; try done.
    + simpl. by rewrite Hs.
    + apply Inv.
Qed.

(** X18. The audit log is enough to rebuild the statuses: in a world reached
    from the empty one a deal is in the table exactly when some row of the
    log names it, and its status is the one that goes with the action of the
    last such row. *)
Theorem audit_log_replays_statuses admins us id :
  status_of id (run admins us empty_world)
  = replay id (logs (run admins us empty_world)).
Proof.
  assert (∀ w, (∀ id, status_of id w = replay id (logs w)) →
               ∀ id, status_of id (run admins us w)
                     = replay id (logs (run admins us w))) as H.
  { induction us as [|[clk u] us IH]; intros w Inv; simpl; [done|].
    apply IH. by apply replay_step. }
  apply H. intros k. unfold status_of. simpl. by rewrite lookup_empty.
Qed.

(** ** The listings *)

#[local] Instance id_desc_trans : Transitive id_desc.
Proof. unfold id_desc. intros a b c. lia. Qed.

#[local] Instance id_desc_total : Total id_desc.
Proof. unfold id_desc. intros a b. lia. Qed.

Lemma strictly_sorted (l : list (Z * Deal)) :
  StronglySorted id_desc l →
  NoDup l →
  (∀ a b, a ∈ l → b ∈ l → a.1 = b.1 → a = b) →
  StronglySorted (fun a b => b.1 < a.1) l.
Proof.
  induction 1 as [|x l Hs IH Hx]; intros Hnd Hkey; [constructor|].
  apply NoDup_cons in Hnd as [Hnot Hnd]. constructor.
  - apply IH; [done|]. intros a b Ha Hb. apply Hkey; by right.
  - rewrite Forall_forall in *. intros y Hy. specialize (Hx y Hy).
    unfold id_desc in Hx. destruct (decide (y.1 = x.1)) as [E|]; [|lia].
    assert (y = x) as -> by (apply Hkey; [by right | by left | done]).
    done.
Qed.

(** [ORDER BY id DESC] over a [WHERE] clause: the rows that satisfy the
    clause, each once, by falling id. *)
Lemma newest_first_spec (P : Z * Deal → Prop) `{∀ x, Decision (P x)}
    (m : gmap Z Deal) :
  StronglySorted (fun a b => b.1 < a.1)
    (newest_first (filter P (map_to_list m))) ∧
  ∀ k d, (k, d) ∈ newest_first (filter P (map_to_list m))
         ↔ m !! k = Some d ∧ P (k, d).
Proof.
  assert (∀ k d, (k, d) ∈ newest_first (filter P (map_to_list m))
                 ↔ m !! k = Some d ∧ P (k, d)) as Hin.
  { intros k d. unfold newest_first. rewrite merge_sort_Permutation.
    rewrite list_elem_of_filter, elem_of_map_to_list. tauto. }
  split; [|done]. apply strictly_sorted.
  - apply (StronglySorted_merge_sort _).
  - unfold newest_first. rewrite merge_sort_Permutation.
    apply NoDup_filter, NoDup_map_to_list.
  - intros [k d] [k' d'] Ha Hb E. simpl in E. subst k'.
    apply Hin in Ha as [Ha _]. apply Hin in Hb as [Hb _]. congruence.
Qed.



(** X20. Arbiters only: [cmd_disputes] gives no answer to a sender who is
    not on the allow-list.  For an arbiter the handler raises, and no
    listing is sent, when the amount column of some deal in dispute is NULL;
    otherwise the arbiter gets the deals in dispute, all of them and no
    other, each once, by falling id. *)
Theorem disputes_are_for_arbiters admins m w :
  (from_user m ∉ admins → cmd_disputes admins m w = NoAnswer) ∧
  (from_user m ∈ admins →
   ((∃ k d, deals w !! k = Some d ∧ status d = STATUS_DISPUTE ∧
            stored_amount (amount d) = None) →
    cmd_disputes admins m w = DisputesRaised) ∧
   ((∀ k d, deals w !! k = Some d → status d = STATUS_DISPUTE →
            is_Some (stored_amount (amount d))) →
    ∃ rows,
      cmd_disputes admins m w
        = match rows with [] => NoDisputes | _ => Disputes rows end ∧
      StronglySorted (fun a b => b.1 < a.1) rows ∧
      ∀ k d, (k, d) ∈ rows
             ↔ deals w !! k = Some d ∧ status d = STATUS_DISPUTE)).
Proof.
  unfold cmd_disputes, is_admin. split; intros Ha.
  - by rewrite bool_decide_eq_false_2.
  - rewrite bool_decide_eq_true_2 by done. cbn [negb].
    destruct (newest_first_spec (fun kd => status kd.2 = STATUS_DISPUTE)
                (deals w)) as [Hs Hin].
    fold (select_disputes w) in Hs, Hin. split.
    + intros (k & d & Hd & Hst & Hnull).
      assert ((k, d) ∈ select_disputes w) as Hk by by apply Hin.
      destruct (select_disputes w) as [|x l]; [by apply elem_of_nil in Hk|].
      destruct (forallb
                  (fun kd : Z * Deal =>
                     bool_decide (is_Some (stored_amount (amount kd.2))))
                  (x :: l)) eqn:E; [|done].
      rewrite forallb_forall in E.
      specialize (E (k, d) (proj1 (list_elem_of_In _ _) Hk)).
      apply bool_decide_eq_true in E. simpl in E. rewrite Hnull in E.
      by destruct E.
    + intros Hall. exists (select_disputes w). split; [|done].
      assert (forallb
                (fun kd : Z * Deal =>
                   bool_decide (is_Some (stored_amount (amount kd.2))))
                (select_disputes w) = true) as E.
      { apply forallb_forall. intros [k d] Hk. apply bool_decide_eq_true.
        apply list_elem_of_In, Hin in Hk as [Hd Hst]. by apply (Hall k d). }
      destruct (select_disputes w) as [|x l]; [done|]. by rewrite E.
Qed.

(** X21. Every status a deal can have in a world reached from the empty one
    has its entry in [STATUS_NAMES]: the default of
    [STATUS_NAMES.get(status, status)] is never used, so the listings and the
    deal card never show the raw status constant. *)
Theorem reachable_statuses_have_names admins us id d :
  deals (run admins us empty_world) !! id = Some d →
  ∃ name, STATUS_NAMES !! status d = Some name ∧
          status_name (status d) = name ∧ name ≠ status d.
Proof.
  intros Hd.
  pose proof (WF_run admins us empty_world WF_empty) as (Hv & _).
  destruct (Hv _ _ Hd) as (Hst & _). unfold status_name.
  unfold all_statuses in Hst.
  repeat (apply elem_of_cons in Hst as [->|Hst];
          [eexists; split; [vm_compute; reflexivity|];
           split; [vm_compute; reflexivity | vm_compute; discriminate]|]).
  by apply elem_of_nil in Hst.
Qed.

Lemma reachable_statuses_have_names_witness :
  ∃ name, STATUS_NAMES !! STATUS_COMPLETED = Some name ∧
          status_name STATUS_COMPLETED = name ∧ name ≠ STATUS_COMPLETED.
Proof.
  apply (reachable_statuses_have_names [9] completed_deal 1
           (mkDeal 1 2 (S754_finite false 7036874417766400 (-46)) "x"
              STATUS_COMPLETED (now noon) (now noon))).
  vm_compute. reflexivity.
Defined.

(** ** The deal card *)

Lemma str_int_digits n :
  0 ≤ n →
  Py.chars (str_int n) ≠ [] ∧
  forallb Py.is_digit (Py.chars (str_int n)) = true.
Proof.
  intros Hn. destruct n as [|p|p]; [done| |lia].
  unfold str_int. simpl Z.to_int. cbn [DecimalString.NilZero.string_of_int].
  assert (Pos.to_uint p ≠ Decimal.Nil) as NZ.
  { intros E. pose proof (DecimalPos.Unsigned.of_to p) as H.
    rewrite E in H. discriminate H. }
  assert (DecimalString.NilZero.string_of_uint (Pos.to_uint p)
          = DecimalString.NilEmpty.string_of_uint (Pos.to_uint p)) as ->
    by (by destruct (Pos.to_uint p)).
  split; [by destruct (Pos.to_uint p) | apply uint_digits].
Qed.

Lemma str_int_negative n :
  n < 0 → ∃ l, Py.chars (str_int n) = "-"%char :: l.
Proof.
  intros Hn. destruct n as [|p|p]; [lia|lia|]. by eexists.
Qed.

Lemma strip_keeps_ends p a l b :
  p a = false → p b = false →
  Py.strip_by p (a :: l ++ [b]) = a :: l ++ [b].
Proof.
  intros Ha Hb. unfold Py.strip_by. rewrite lstrip_first by done.
  assert (rev (a :: l ++ [b]) = b :: rev (a :: l)) as ->
    by (rewrite app_comm_cons, rev_app_distr; reflexivity).
  rewrite lstrip_first by done.
  change (b :: rev (a :: l)) with ([b] ++ rev (a :: l)).
  by rewrite rev_app_distr, rev_involutive.
Qed.

Lemma split_runs_word cur l :
  forallb (fun c => negb (Py.isspace c)) l = true →
  rev cur ++ l ≠ [] →
  split_runs cur l = [Py.str (rev cur ++ l)].
Proof.
  revert cur. induction l as [|c l IH]; intros cur Hl Hne; simpl.
  - rewrite app_nil_r in *. destruct cur; [done|]. done.
  - apply andb_true_iff in Hl as [Hc Hl]. apply negb_true_iff in Hc.
    rewrite Hc. rewrite IH; [|done|].
    + simpl. by rewrite <- app_assoc.
    + simpl. rewrite <- app_assoc. by destruct (rev cur).
Qed.

Lemma deal_text_parts s :
  Py.chars s ≠ [] →
  forallb (fun c => negb (Py.isspace c)) (Py.chars s) = true →
  split_whitespace (Py.strip ("/deal " +:+ s)) = ["/deal"; s].
Proof.
  intros Hne Hs.
  assert (Py.strip ("/deal " +:+ s) = "/deal " +:+ s) as ->.
  { unfold Py.strip. rewrite <- (str_chars ("/deal " +:+ s)) at 2. f_equal.
    rewrite chars_append.
    destruct (exists_last Hne) as (l & b & E). rewrite E in *.
    rewrite forallb_app in Hs. apply andb_true_iff in Hs as [_ Hb].
    simpl in Hb. rewrite andb_true_r in Hb. apply negb_true_iff in Hb.
    change (Py.chars "/deal " ++ l ++ [b])
      with ("/"%char :: (["d"; "e"; "a"; "l"; " "]%char ++ l ++ [b])).
    rewrite app_assoc. by apply strip_keeps_ends. }
  unfold split_whitespace. rewrite chars_append.
  change (split_runs [] (Py.chars "/deal " ++ Py.chars s))
    with ("/deal" :: split_runs [] (Py.chars s)).
  rewrite split_runs_word by done. simpl. by rewrite str_chars.
Qed.

(** X22. [cmd_deal] shows a deal to whoever names its id: for the text
    "/deal N" with N the decimal form of an id that is not negative (and
    that the query can bind), the answer is the card of the row with that
    id, or the not-found text when there is none, whoever the sender is; no
    comparison with the buyer or the seller of the row is made.  For a row
    whose amount column is NULL the handler raises and nothing is answered.
    A negative id gets the usage line. *)
Theorem deal_card_for_any_sender m w id :
  text m = Some ("/deal " +:+ str_int id) →
  (0 ≤ id → sqlite_integer id →
   cmd_deal m w
     = match deals w !! id with
       | Some row =>
           match stored_amount (amount row) with
           | Some _ => Some (Card id row)
           | None => None
           end
       | None => Some NoSuchDeal
       end) ∧
  (id < 0 → cmd_deal m w = Some Usage).
Proof.
  intros Ht. unfold cmd_deal, get_deal. rewrite Ht. split; intros Hid.
  - intros _. destruct (str_int_digits id Hid) as [Hne Hd].
    rewrite deal_text_parts; [|done|].
    2:{ apply forallb_forall. intros c Hc. rewrite forallb_forall in Hd.
        destruct (digit_facts c (Hd c Hc)) as (_ & -> & _). done. }
    cbn [nth_error]. unfold Py.isdigit.
    destruct (Py.chars (str_int id)) eqn:E; [done|]. rewrite Hd. cbn [negb].
    by rewrite int_str.
  - destruct (str_int_negative id Hid) as [l Hl].
    assert (Py.isdigit (str_int id) = false) as Hnd.
    { unfold Py.isdigit. by rewrite Hl. }
    destruct id as [|p|p]; [lia|lia|].
    destruct (str_int_digits (Z.pos p)) as [Hne Hd]; [lia|].
    assert (Py.chars (str_int (Z.neg p))
            = "-"%char :: Py.chars (str_int (Z.pos p))) as E by reflexivity.
    rewrite deal_text_parts.
    + cbn [nth_error]. by rewrite Hnd.
    + by rewrite E.
    + rewrite E. cbn [forallb]. apply andb_true_iff. split; [reflexivity|].
      apply forallb_forall. intros c Hc. rewrite forallb_forall in Hd.
      destruct (digit_facts c (Hd c Hc)) as (_ & -> & _). done.
Qed.

Lemma deal_card_for_any_sender_witness :
  let w := run [9] open_deal empty_world in
  cmd_deal (mkMessage 77 (Some "/deal 1") None (Some "deal")) w
  = Some (Card 1 (mkDeal 1 2 (S754_finite false 7036874417766400 (-46)) "x"
                    STATUS_AWAIT_SELLER_CONFIRM (now noon) (now noon))).
Proof.
  apply (proj1 (deal_card_for_any_sender
                  (mkMessage 77 (Some "/deal 1") None (Some "deal"))
                  (run [9] open_deal empty_world) 1 eq_refl)).
  - lia.
  - unfold sqlite_integer. lia.
Defined.

(** ** Parsing the allow-list *)

Lemma digits_value_nonneg l :
  forallb Py.is_digit l = true → 0 ≤ Py.digits_value l.
Proof.
  unfold Py.digits_value.
  assert (∀ acc, 0 ≤ acc → forallb Py.is_digit l = true →
                 0 ≤ fold_left (fun acc c => 10 * acc + Py.digit_val c) l acc)
    as H; [|by apply H].
  induction l as [|c l IH]; intros acc Hacc Hl; simpl; [done|].
  apply andb_true_iff in Hl as [Hc Hl]. apply IH; [|done].
  unfold Py.is_digit in Hc. unfold Py.digit_val. lia.
Qed.

Lemma unsigned_int_nonneg l v : Py.unsigned_int l = Some v → 0 ≤ v.
Proof.
  unfold Py.unsigned_int.
  destruct (Py.drop_underscores None l) as [[|c r]|]; [done| |done].
  destruct (forallb Py.is_digit (c :: r)) eqn:E; [|done].
  intros [= <-]. by apply digits_value_nonneg.
Qed.

Lemma lstrip_snoc p k c :
  p c = false → ∃ k', Py.lstrip_by p (k ++ [c]) = k' ++ [c].
Proof.
  intros Hc. induction k as [|a k IH]; simpl.
  - rewrite Hc. by exists [].
  - destruct (p a); [done|]. by exists (a :: k).
Qed.

(** The first character of a stripped string is the first one the left
    strip keeps. *)
Lemma strip_head p l c r :
  Py.lstrip_by p l = c :: r → p c = false →
  ∃ r', Py.strip_by p l = c :: r'.
Proof.
  intros E Hc. unfold Py.strip_by. rewrite E. simpl rev at 2.
  destruct (lstrip_snoc p (rev r) c Hc) as [k' ->].
  rewrite rev_app_distr. simpl. by eexists.
Qed.

Lemma lstrip_head_kept p l c r : Py.lstrip_by p l = c :: r → p c = false.
Proof.
  induction l as [|a l IH]; simpl; [done|].
  destruct (p a) eqn:E; [done|]. by intros [= -> _].
Qed.

Lemma lstrip_two_ways l d r :
  Py.lstrip_by Py.isspace l = d :: r → Py.is_digit d = true →
  ∃ c r', Py.lstrip_by Py.c_isspace l = c :: r' ∧
          (Py.is_digit c = true ∨ is_separator c = true).
Proof.
  induction l as [|a l IH]; simpl; [done|]. intros E Hd.
  destruct (Py.c_isspace a) eqn:Ec.
  - assert (Py.isspace a = true) as Ea.
    { revert Ec. destruct a as [[] [] [] [] [] [] [] []]; vm_compute; done. }
    rewrite Ea in E. by apply IH.
  - exists a, l. split; [done|].
    destruct (Py.isspace a) eqn:Ea.
    + right. revert Ec Ea.
      destruct a as [[] [] [] [] [] [] [] []]; vm_compute; done.
    + left. by injection E as -> _.
Qed.

Lemma int_not_signed x v d r :
  Py.lstrip_by Py.isspace (Py.chars x) = d :: r → Py.is_digit d = true →
  Py.int x = Some v → 0 ≤ v.
Proof.
  intros E Hd Hv.
  destruct (lstrip_two_ways _ _ _ E Hd) as (c & r' & Ec & Hc).
  destruct (strip_head Py.c_isspace _ _ _ Ec (lstrip_head_kept _ _ _ _ Ec))
    as [r'' Es].
  unfold Py.int in Hv. rewrite Es in Hv.
  assert (c ≠ "+"%char ∧ c ≠ "-"%char) as [Hp Hm].
  { destruct Hc as [Hc|Hc]; revert Hc;
      destruct c as [[] [] [] [] [] [] [] []]; vm_compute; done. }
  apply (unsigned_int_nonneg (c :: r'')). rewrite <- Hv.
  destruct c as [[] [] [] [] [] [] [] []]; try reflexivity; congruence.
Qed.

Lemma isdigit_strip_head x :
  Py.isdigit (Py.strip x) = true →
  ∃ d r, Py.lstrip_by Py.isspace (Py.chars x) = d :: r ∧ Py.is_digit d = true.
Proof.
  unfold Py.isdigit, Py.strip. rewrite chars_str. unfold Py.strip_by.
  destruct (Py.lstrip_by Py.isspace (Py.chars x)) as [|d r] eqn:E; [done|].
  pose proof (lstrip_head_kept _ _ _ _ E) as Hd.
  simpl rev at 2. destruct (lstrip_snoc Py.isspace (rev r) d Hd) as [k' ->].
  rewrite rev_app_distr. simpl. intros H. exists d, r. split; [done|].
  by apply andb_true_iff in H as [? _].
Qed.

Lemma strip_by_ext p q l :
  (∀ c, c ∈ l → p c = q c) → Py.strip_by p l = Py.strip_by q l.
Proof.
  assert (∀ k, (∀ c, c ∈ k → p c = q c) →
               Py.lstrip_by p k = Py.lstrip_by q k ∧
               ∀ c, c ∈ Py.lstrip_by q k → c ∈ k) as L.
  { induction k as [|a k IH]; intros Hk; simpl; [done|].
    rewrite (Hk a) by by left. destruct (q a); [|done].
    destruct IH as [-> Hsub]; [intros c Hc; apply Hk; by right|].
    split; [done|]. intros c Hc. right. by apply Hsub. }
  intros H. unfold Py.strip_by.
  destruct (L l H) as [-> Hsub].
  destruct (L (rev (Py.lstrip_by q l))) as [-> _]; [|done].
  intros c Hc. apply H, Hsub. apply list_elem_of_In, in_rev.
  by apply list_elem_of_In.
Qed.

Lemma int_by_strip x D :
  Py.strip_by Py.c_isspace (Py.chars x) = D →
  D ≠ [] → forallb Py.is_digit D = true →
  Py.int x = Some (Py.digits_value D).
Proof.
  intros E Hne Hd. unfold Py.int. rewrite E.
  destruct D as [|c r]; [done|].
  pose proof Hd as Hc. apply andb_true_iff in Hc as [Hc _].
  destruct (digit_facts c Hc) as (_ & _ & _ & Hp & Hm).
  rewrite <- (unsigned_int_digits (c :: r)) by done.
  destruct c as [[] [] [] [] [] [] [] []]; try reflexivity; congruence.
Qed.

Lemma split_parts_chars sep cur l x :
  x ∈ Py.split_chars sep cur l →
  ∀ c, c ∈ Py.chars x → c ∈ cur ∨ c ∈ l.
Proof.
  revert cur. induction l as [|a l IH]; intros cur Hx c Hc; simpl in Hx.
  - apply list_elem_of_singleton in Hx as ->. rewrite chars_str in Hc.
    left. apply list_elem_of_In, in_rev. by apply list_elem_of_In in Hc.
  - destruct (Ascii.eqb a sep).
    + apply elem_of_cons in Hx as [->|Hx].
      * rewrite chars_str in Hc. left. apply list_elem_of_In, in_rev.
        by apply list_elem_of_In in Hc.
      * destruct (IH [] Hx c Hc) as [H|H]; [by apply elem_of_nil in H|].
        right. by right.
    + destruct (IH (a :: cur) Hx c Hc) as [H|H].
      * apply elem_of_cons in H as [->|H]; [right; by left | by left].
      * right. by right.
Qed.

(** X23. The allow-list read from an ASCII value of [ADMIN_IDS] of at most
    4300 characters (so that no entry exceeds the digit limit of [int]):
    whenever the parse returns, no id on the list is negative, and each comes from an
    entry between commas that is a run of digits inside whitespace; an entry
    of any other form is left out without an error.  The parse does return
    when the value has none of the separators FS, GS, RS, US, which [strip]
    removes and [int] rejects. *)
Theorem admin_ids_parse s :
  ascii_only s = true →
  (String.length s ≤ 4300)%nat →
  (∀ ids, parse_admin_ids s = Some ids →
          ∀ i, i ∈ ids →
               0 ≤ i ∧
               ∃ x, x ∈ Py.split "," s ∧ Py.isdigit (Py.strip x) = true ∧
                    Py.int x = Some i) ∧
  ((∀ c, c ∈ Py.chars s → is_separator c = false) →
   is_Some (parse_admin_ids s)).
Proof.
  intros _ _. unfold parse_admin_ids. split.
  - intros ids Hm i Hi. apply mapM_Some in Hm.
    apply list_elem_of_lookup in Hi as [n Hn].
    destruct (Forall2_lookup_r _ _ _ _ _ Hm Hn) as (x & Hx & Hxi).
    apply list_elem_of_lookup_2 in Hx.
    apply list_elem_of_filter in Hx as [Hdig Hx].
    split; [|by exists x].
    destruct (isdigit_strip_head x Hdig) as (d & r & E & Hd).
    by apply (int_not_signed x i d r).
  - intros Hsep. apply mapM_is_Some, Forall_forall. intros x Hx.
    apply list_elem_of_filter in Hx as [Hdig Hx]. simpl.
    assert (Py.strip_by Py.c_isspace (Py.chars x)
            = Py.strip_by Py.isspace (Py.chars x)) as E.
    { apply strip_by_ext. intros c Hc.
      destruct (split_parts_chars _ _ _ _ Hx c Hc) as [H|H];
        [by apply elem_of_nil in H|].
      specialize (Hsep c H). revert Hsep.
      destruct c as [[] [] [] [] [] [] [] []]; vm_compute; done. }
    unfold Py.isdigit, Py.strip in Hdig. rewrite chars_str in Hdig.
    rewrite (int_by_strip x _ E); [done| |].
    + by destruct (Py.strip_by Py.isspace (Py.chars x)).
    + by destruct (Py.strip_by Py.isspace (Py.chars x)).
Qed.

Lemma admin_ids_parse_witness :
  (∀ ids, parse_admin_ids "12, abc, -5,7 ,,0012" = Some ids →
          ∀ i, i ∈ ids →
               0 ≤ i ∧
               ∃ x, x ∈ Py.split "," "12, abc, -5,7 ,,0012" ∧
                    Py.isdigit (Py.strip x) = true ∧ Py.int x = Some i) ∧
  ((∀ c, c ∈ Py.chars "12, abc, -5,7 ,,0012" → is_separator c = false) →
   is_Some (parse_admin_ids "12, abc, -5,7 ,,0012")).
Proof.
  apply (admin_ids_parse "12, abc, -5,7 ,,0012").
  - vm_compute. reflexivity.
  - simpl. lia.
Defined.

(** ** The cancel command *)

(** X24. "/cancel" is read as plain text: [cmd_cancel] is registered after
    the catch-all handler, so a message with the command cancel is handled
    exactly as the same message without a command, and no message is ever
    answered with the text of [cmd_cancel]. *)
Theorem cancel_command_is_plain_text admins clk m w :
  command m = Some "cancel" →
  handle admins clk (UMessage m) w
    = handle admins clk
        (UMessage (mkMessage (from_user m) (text m) (forward_from m) None)) w ∧
  (handle admins clk (UMessage m) w).2 ≠ ProcessCancelled.
Proof.
  intros Hc. destruct m as [u t f c]. simpl in Hc. subst c.
  unfold handle, message_handlers, dispatch, is_command. cbn [command].
  repeat rewrite (bool_decide_eq_false_2 (_ ∈ _))
    by (rewrite !elem_of_cons, elem_of_nil; intros H; destruct_or!; done).
  rewrite !andb_false_r.
  unfold in_state, is_text. cbn [from_user text].
  split; [reflexivity|].
  repeat match goal with
    | |- context [if ?b then _ else _] => destruct b
    end;
    unfold new_deal_step_seller, new_deal_step_amount,
      new_deal_step_description, fallback_or_delivery_handler;
    repeat match goal with
      | |- context [match ?x with _ => _ end] => destruct x
      end; done.
Qed.

Lemma cancel_command_is_plain_text_witness :
  let w := run [] [taps 7 "menu_new_deal"; says 7 "5"] empty_world in
  let m := mkMessage 7 (Some "/cancel") None (Some "cancel") in
  handle [] noon (UMessage m) w
    = handle [] noon (UMessage (mkMessage 7 (Some "/cancel") None None)) w ∧
  (handle [] noon (UMessage m) w).2 ≠ ProcessCancelled.
Proof.
  apply (cancel_command_is_plain_text [] noon
           (mkMessage 7 (Some "/cancel") None (Some "cancel"))
           (run [] [taps 7 "menu_new_deal"; says 7 "5"] empty_world)).
  reflexivity.
Defined.
